(* ===== verification/_CoqProject ===== *)
-Q . S2P
Prelude.v
PyRuntime.v
OpenFlow.v
Wire.v
Config.v
Installer.v
Resolver.v
Rules.v
Dispatcher.v
FlowTable.v
Topology.v
Controller.v
Packets.v
Requirements.v
Liveness.v
PacketIn.v
PortStatus.v
