(* ===== verification/Prelude.v ===== *)
(** * A verification development of vlan-ryu (src/vlan_proactive.py, src/topo.py)

    The program is a Ryu OpenFlow 1.3 application, [VLan_Proactive] in
    src/vlan_proactive.py, that installs Q-in-Q style VLAN tagging rules on
    every switch that completes its handshake with the controller, together
    with a Mininet topology script, src/topo.py, used to test it.

    ** The program and how its parts interact

    - Requirement pseudocode: the module docstring (vlan_proactive.py 1-53)
      states the intended behaviour.  It has a table of customer and trunk
      keys, and per key a flow that pushes 802.1ad and 802.1Q tags.
    - Application class: [VLan_Proactive] (70-79), whose [_CONTEXTS] and
      [OFP_VERSIONS] tell Ryu which applications to load and which
      OpenFlow versions to accept (1.3 only).
    - Tenant configuration table: the class attribute [value_pair]
      (vlan_proactive.py 74-76), a Python dict from a group key
      ('tenda1', 'tenda2', 'trunk') to a list of port labels, and the two
      Ethertype constants [VLAN_TAG_802_1Q], [BRIDGE_TAG_802_1AD] (67-68).
    - Port resolver: [_get_port_number] with its inner [is_switch_label]
      (146-159): the first label, in label order, for which some port of the
      switch has a name containing the label (Python [label in port.name])
      gives the first such port; [None] when no label matches.
    - Rule builder: [build_match] (97-101), [tag_vlan] (108-116),
      [tag_trunk] (131-135) and their wrappers [tag_customer_vlan] (119-124)
      and [tag_trunk_vlan] (137-142), which resolve a port and build the
      match and the action list.
    - Rule installer: [_add_flow] (84-95), which wraps the actions in an
      APPLY_ACTIONS instruction, builds an [OFPFlowMod] with fixed priority,
      table and timeouts, and sends it on the datapath.
    - Attach-event dispatcher: [install_vpn_flow] (161-176), which walks
      [reversed(value_pair.items())], classifies each key by substring
      tests and calls the tenant or trunk wrapper, and [handler_datapath]
      (184-189), the [EventOFPSwitchFeatures] handler registered for
      [CONFIG_DISPATCHER].
    - Packet-in handler (192-201), commented out: it would unpack the
      Ethernet header of each packet-in with [struct.unpack_from] and log
      the match fields.
    - Test topology: [MyTopo] in src/topo.py (hosts h1..h6, switches
      s1..s3, and links), whose Mininet port numbering gives the switch
      interface names ('s1-eth1', ...) that the labels of [value_pair]
      refer to.

    Control flow: handler_datapath -> install_vpn_flow -> (per group)
    tag_customer_vlan / tag_trunk_vlan -> _get_port_number -> tag_vlan /
    tag_trunk -> build_match, _add_flow -> datapath.send_msg.

    ** The files of the development (in dependency order)

    - [Prelude] (this file): the [vlan] hint database, the development's
      tactics and the generic lemmas on lists and options.
    - [PyRuntime]: the fragment of Python semantics the code relies on:
      exceptions, a state-and-exception monad [PyM] (the state is what the
      code mutates, here the messages sent on a datapath), Python's
      substring test [py_contains] ([x in s] on str) with its specification,
      [reversed] on an insertion-ordered dict, and [for] loops.
    - [OpenFlow]: the Ryu OpenFlow 1.3 objects the code builds: ports,
      [OFPMatch] with its setters, actions, instructions and [OFPFlowMod];
      the datapath as a record whose [ofproto.port_no] attribute may be
      missing.
    - [Wire]: what [send_msg] writes: Ryu's serialization of a flow mod
      into an OpenFlow 1.3 [ofp_flow_mod] message (big-endian fields on
      coqutil's [le_split], the OXM match with OFPVID_PRESENT, the
      instructions and actions), a byte reader [parser] with the decoder
      [p_flow_mod], and the round trip layer by layer.
    - [Config]: [value_pair] and the Ethertype constants, with the
      decidable configuration invariant [labels_disjoint].
    - [Installer]: [_add_flow] and the message [flow_mod_of] it sends for
      a [Rule] (a match and an action list).
    - [Resolver]: [is_switch_label], [_get_port_number], and the
      declarative "first label, first port" relation [resolves].
    - [Rules]: [build_match], [tag_vlan], [tag_trunk] and their wrappers;
      the [RuleBuilder] interface with the instance the code implements
      ([code_rules]) and the one the spec describes ([spec_rules]).
    - [Dispatcher]: [install_vpn_flow] and [handler_datapath]; the spec's
      abstract provisioning function [provision] over the groups
      [groups_of] reads off the code's branches.
    - [FlowTable]: OpenFlow 1.3 [OFPFC_ADD] on a switch's table, the lookup
      equivalence [table_equiv] with its [Proper] instances, the
      well-formedness invariant [table_wf], and [switch_recv], the switch
      reading flow mods off the connection's bytes with [Wire]'s decoder.
    - [Topology]: [MyTopo] of src/topo.py call by call and Mininet's
      interface numbering, which give the ports of the switches the
      controller runs are tried on.
    - [Controller]: Ryu's OpenFlow 1.3 handshake per connection (Hello
      with version election, features reply, port description reply), the
      application's own event queue, and the step function [ctrl_step] on
      a [gmap] of connections.  The reachable states form an inductive
      relation, with their invariant and the type of the messages sent.
    - [Packets]: OpenFlow 1.3 match and action semantics on VLAN tag
      stacks (apply-actions, and the action set that write-actions fill),
      applied to the installed rules.
    - [Requirements]: the docstring's pseudocode, set beside OpenFlow 1.3
      and the code.
    - [Liveness]: frames of the controller, liveness of provisioning, the
      failed Hello, and the race of the commented-out line 149.
    - [PacketIn]: the commented-out packet-in handler as it runs once
      uncommented: Python 2's [buffer], [struct.unpack_from('!6s6sH')]
      over a list of bytes with its big-endian unsigned short, and the
      logging loop.
    - [PortStatus]: Ryu's port status handler on [datapath.ports], the
      controller with port status messages ([xreachable]), and the
      equivalence of controller states up to [datapath.ports], which
      [ctrl_step] respects.

    ** What the theorems show

    - Functional behaviour (Resolver, Rules, Dispatcher): every branch of
      every operation, as the result and the exact messages sent, in the
      judgement [emits m r out] of PyRuntime; the resolver equals
      [resolves]; [install_vpn_flow] refines [provision]
      ([install_vpn_flow_refines]); the set of flows does not depend on the
      dict order; every flow fits the OpenFlow wire widths and reads back
      from the bytes [send_msg] writes for it (the round trip of [Wire]),
      on one switch and for every message the controller ever sends.
    - Error paths: on Ryu's real [ofproto_v1_3] (no [port_no] attribute)
      the handler raises [AttributeError] at the first group it resolves
      and sends nothing, whatever the table.  ([install_vpn_flow_on] also
      models line 165 on Python 3.0 to 3.7, where
      [reversed(value_pair.items())] raises [TypeError]; no theorem is
      stated about it beyond the model.)
    - Divergences from the spec: the trunk id is unused; in any table,
      every key containing 'tenda1' (such as 'tenda10') gets VLAN id 1,
      so two such tenants share a tag; unclassified keys are skipped; a
      label matches any port name it is a substring of; [tag_vlan] is the
      spec's tenant rule with a VLAN id match added and 802.1Q pushed in
      place of 802.1ad, so tenant rules only match already-tagged frames
      and stack 802.1Q on 802.1Q.
    - Switch level: provisioning twice sends the batch twice and leaves an
      empty switch's table exactly the batch, any table unchanged up to
      lookup (idempotence); one batch installs without replacement
      (round trip through the table), also when the switch reads it from
      the bytes on the wire; on packets, tenant rules never
      match untagged frames and stack 802.1Q on 802.1Q.
    - Controller level, by rule induction on [reachable], whatever the
      interleaving of switches and of the application's loop:
      - every connection is provisioned at most once, with its own batch;
      - a connection in MAIN has been provisioned or is queued;
      - on Ryu's datapaths nothing is ever sent;
      - every message sent is a well-typed [OFPFC_ADD] flow mod.
      Liveness: a 1.3 switch that answers Ryu's requests is provisioned
      once the loop catches up.  Termination: the loop empties its queue in
      as many turns as it is long.  Error path: a switch that does not
      offer 1.3 never is provisioned.
    - The requirement: as written it cannot give Q-in-Q on OpenFlow 1.3
      (one push-VLAN per action set).  On the frames the code's rules
      match, they act as the requirement's flows do.
    - The commented-out line 149 races with Ryu's handshake: it sees the
      switch's ports only if the loop runs after the port description
      reply.  The commented-out [dpset.EventDP] registration (line 182)
      would come late enough, but its event has no [msg] and the body
      raises [AttributeError].
    - Packets: no installed flow outputs the packet or sends it to
      another table, so the switch drops what the rules match.
    - Packet-in handler: the handler never sends, raises [struct.error]
      on frames shorter than 14 bytes and [NameError] on every event
      under Python 3.
    - Port status: every state reached with port status messages is
      equivalent up to [datapath.ports] to one reached without them
      (refinement), so the controller invariants carry over and a port
      that comes up after attach never gets a rule.

    ** Bounds and assumptions

    All recursion is structural (on label lists, port lists, dict items,
    message lists and event lists), except the byte readers below.  Bytes are Stdlib's [byte] with coqutil's [byte.unsigned] and
    [byte.of_Z]; the Ethertype is a [Z] built with [Z.lor] and
    [Z.shiftl]; every definition evaluates
    by [vm_compute].  Integers are [Z]; the widths of the OpenFlow fields
    are checked by [flow_mod_wire_ok] (a VLAN id in 12 bits, beside the
    OFPVID_PRESENT bit of the 13-bit field) and written at their width by
    [Wire.be_bytes], which keeps the value modulo 2^(8n): the round trip
    holds exactly when the values fit, and a message fits the 16-bit
    length of its header (the application's take at most 123 bytes).
    The readers of [Wire], and the switch's [FlowTable.switch_recv], loop
    over the bytes with fuel equal to their length, enough since every
    item takes at least 8 bytes ([FlowTable.switch_read_stream] needs
    fuel only for the number of messages).
    The controller runs are lists of events of any length; the liveness
    theorem drains the application's queue in as many turns as it is long.
    Assumed library behaviour, modelled from Ryu, Mininet and OpenFlow
    1.3 and marked as such in the manifest:
    - Ryu's [set_vlan_vid] sets OFPVID_PRESENT, so a VID match needs a tag;
    - Ryu serializes an old-style match as OXM TLVs in field order without
      masks, an [OFPMatchField.make] value as given, and an output action
      with [max_len] OFPCML_MAX;
    - Ryu elects the Hello version from the intersection of the loaded
      applications' [OFP_VERSIONS];
    - for 1.3, Ryu requests the port description after the features
      reply and enters MAIN on its reply;
    - Ryu's own handlers run at dispatch, and an application handles
      events from its own FIFO queue;
    - in MAIN, Ryu's port status handler sets [datapath.ports[no]] on
      OFPPR_ADD and OFPPR_MODIFY and pops it on OFPPR_DELETE;
    - Mininet numbers a switch's interfaces from 1 in link order;
    - an [OFPFC_ADD] replaces an entry with the same table, match and
      priority;
    - an action set holds one action per type.

    ** Not modelled

    - Logging (no effect on state).
    - Ryu's echo, barrier and error messages, which change nothing the
      application reads.
    - The case where the application's loop runs a features event before
      Ryu's own handler (it would see [datapath.ports = None]).
    - Mininet's process and link emulation.
    - topo.py's mixed tab/space indentation, which Python 3 rejects with
      TabError; the model takes the structure its indentation suggests.
    - The two-switch topology of topo.py's docstring (lines 1-9), which
      names no node; and forwarding between the hosts of [MyTopo], which
      depends on flows the application does not install.
    - Ryu's discard of the bytes of [send_msg] on a closed connection:
      [Controller.sent] is the log of the application's [send_msg] calls.

    ** Plan for later work

    1. A log of the bytes each switch receives beside [sent], with Ryu's
       discard on closed connections, joined to [FlowTable.switch_recv].
*)

From stdpp Require Export base list strings.
From Stdlib Require Export ZArith Lia.

Declare Scope py_scope.
Delimit Scope py_scope with py.

(** The development's hint database: the characterisation lemmas of the
    components are added to it by the component files. *)
Create HintDb vlan discriminated.
Create Rewrite HintDb vlan_rw.

(** ** Generic lemmas on lists *)

Section ListFind.
Context {A : Type}.

(** The first element of a list satisfying a boolean test, as the
    prefix/element/suffix decomposition a loop with early return
    produces. *)
Lemma find_Some_split (f : A -> bool) (l : list A) (x : A) :
  List.find f l = Some x <->
  exists l1 l2, l = l1 ++ x :: l2 /\ f x = true /\
                Forall (fun y => f y = false) l1.
Proof.
  split.
  - induction l as [|y l IH]; simpl; [discriminate|].
    destruct (f y) eqn:Hy.
    + intros [= ->]. exists [], l. auto.
    + intros Hf. destruct (IH Hf) as (l1 & l2 & -> & Hx & Hl1).
      exists (y :: l1), l2. auto.
  - intros (l1 & l2 & -> & Hx & Hl1).
    induction Hl1 as [|y l1 Hy _ IH]; simpl; [by rewrite Hx|].
    by rewrite Hy.
Qed.

Lemma find_None_Forall (f : A -> bool) (l : list A) :
  List.find f l = None <-> Forall (fun y => f y = false) l.
Proof.
  induction l as [|y l IH]; simpl.
  - split; auto.
  - rewrite Forall_cons. destruct (f y) eqn:Hy.
    + split; [discriminate | intros [? _]; congruence].
    + rewrite IH. tauto.
Qed.
Lemma existsb_find_None (f : A -> bool) (l : list A) :
  existsb f l = false <-> List.find f l = None.
Proof. induction l as [|y l IH]; simpl; [done|]. destruct (f y); simpl; [done | exact IH]. Qed.
End ListFind.

#[export] Hint Rewrite @find_None_Forall : vlan_rw.

(** Split a hypothesis [l1 ++ x :: l2 = ...] style existential and
    conjunction nests; used throughout the component proofs. *)
Ltac destruct_ex_and :=
  repeat match goal with
         | H : exists _, _ |- _ => destruct H
         | H : _ /\ _ |- _ => destruct H
         end.
