(* ===== verification/PyRuntime.v ===== *)
(** * The fragment of Python semantics that src/vlan_proactive.py relies on

    - [exn]: the exceptions the modelled code can raise.
    - [PyM S]: a state-and-exception monad, an instance of stdpp's [MRet]
      and [MBind] so that [x ← m; k] reads like the Python statement
      sequence.  An exception does not roll back the state: messages a
      datapath has already sent stay sent.
    - [emits]: the judgement "run from any state, [m] appends [out] to it
      and ends with [r]", which is how every operation of the application
      behaves (it only ever appends to the datapath's send queue).
    - [py_contains]: Python's [needle in hay] on [str], with its
      specification as a substring relation.
    - [py_reversed]: [reversed(d.items())] on an insertion-ordered dict;
      [py_reversed_items]: the same statement by interpreter version,
      with the [TypeError] of Python 3.0 to 3.7.
    - [py_for]: a [for] loop over a list, with [emits_for_silent] for a
      body that only logs. *)

From S2P Require Import Prelude.

(** ** Exceptions and results *)

Inductive exn :=
| AttributeError (obj attr : string)
| TypeError (msg : string)
| NameError (name : string)
| StructError (msg : string).

Inductive res (A : Type) :=
| Ok (a : A)
| Raise (e : exn).
Arguments Ok {A} a.
Arguments Raise {A} e.

(** ** The monad *)

Definition PyM (S A : Type) : Type := S -> res A * S.

#[export] Instance PyM_ret S : MRet (PyM S) := fun A a s => (Ok a, s).
#[export] Instance PyM_bind S : MBind (PyM S) := fun A B k m s =>
  match m s with
  | (Ok a, s') => k a s'
  | (Raise e, s') => (Raise e, s')
  end.

Definition py_raise {S A} (e : exn) : PyM S A := fun s => (Raise e, s).

(** Appending one element to a state that is a list: [queue.append(x)]. *)
Definition py_append {M} (x : M) : PyM (list M) unit := fun s => (Ok tt, s ++ [x]).

(** A statement that does nothing ([pass], or a call whose only effect,
    such as logging, is not modelled). *)
Definition py_pass {S} : PyM S unit := mret tt.

(** [for x in l: body(x)]. *)
Fixpoint py_for {S A} (l : list A) (body : A -> PyM S unit) : PyM S unit :=
  match l with
  | [] => mret tt
  | x :: l' => body x;; py_for l' body
  end.

(** ** Output-only computations *)

(** [emits m r out]: from every state [s], [m] ends with result [r] and
    state [s ++ out].  The whole application is output-only in this
    sense. *)
Definition emits {M A} (m : PyM (list M) A) (r : res A) (out : list M) : Prop :=
  forall s, m s = (r, s ++ out).

Section Emits.
Context {M : Type}.

Lemma emits_ret {A} (a : A) : emits (M:=M) (mret a) (Ok a) [].
Proof. intros s. by rewrite app_nil_r. Qed.

Lemma emits_ret_iff {A} (a : A) r out :
  emits (M:=M) (mret a) r out <-> r = Ok a /\ out = [].
Proof.
  split; [|intros [-> ->]; apply emits_ret].
  intros H. specialize (H []). unfold mret, PyM_ret in H. simpl in H.
  by injection H as <- <-.
Qed.

Lemma emits_pass : emits (M:=M) py_pass (Ok tt) [].
Proof. apply emits_ret. Qed.

Lemma emits_raise {A} (e : exn) : emits (M:=M) (A:=A) (py_raise e) (Raise e) [].
Proof. intros s. by rewrite app_nil_r. Qed.

Lemma emits_append (x : M) : emits (py_append x) (Ok tt) [x].
Proof. intros s. reflexivity. Qed.

Lemma emits_bind_ok {A B} (m : PyM (list M) A) (k : A -> PyM (list M) B)
      a out1 r out2 :
  emits m (Ok a) out1 -> emits (k a) r out2 ->
  emits (x ← m; k x) r (out1 ++ out2).
Proof.
  intros Hm Hk s. unfold mbind, PyM_bind. rewrite Hm, Hk. by rewrite app_assoc.
Qed.

Lemma emits_bind_raise {A B} (m : PyM (list M) A) (k : A -> PyM (list M) B)
      e out1 :
  emits m (Raise e) out1 -> emits (x ← m; k x) (Raise e) out1.
Proof. intros Hm s. unfold mbind, PyM_bind. by rewrite Hm. Qed.

(** A first statement that emits nothing and returns [a] can be
    skipped. *)
Lemma emits_bind_silent {A B} (m : PyM (list M) A) (k : A -> PyM (list M) B) a r out :
  emits m (Ok a) [] -> (emits (x ← m; k x) r out <-> emits (k a) r out).
Proof.
  intros Hm. unfold emits, mbind, PyM_bind.
  split; intros H s; specialize (H s); by rewrite Hm, app_nil_r in *.
Qed.

(** [emits] determines the computation's run on every state. *)
Lemma emits_functional {A} (m : PyM (list M) A) r1 out1 r2 out2 :
  emits m r1 out1 -> emits m r2 out2 -> r1 = r2 /\ out1 = out2.
Proof.
  intros H1 H2. specialize (H1 []). rewrite H2 in H1. by simplify_eq.
Qed.
Lemma emits_for_silent {A} (l : list A) (body : A -> PyM (list M) unit) :
  (forall x, emits (body x) (Ok tt) []) -> emits (py_for l body) (Ok tt) [].
Proof.
  intros Hb. induction l as [|x l IH]; [apply emits_ret|].
  rewrite <- (app_nil_r []). eapply emits_bind_ok; [apply Hb | exact IH].
Qed.

End Emits.

#[export] Hint Resolve emits_ret emits_pass emits_raise emits_append : vlan.

(** ** Python's [in] on [str] *)

(** [py_contains needle hay] is [needle in hay]: some suffix of [hay] has
    [needle] as a prefix.  The empty string is in every string. *)
Fixpoint py_contains (needle hay : string) : bool :=
  String.prefix needle hay ||
  match hay with
  | EmptyString => false
  | String _ hay' => py_contains needle hay'
  end.

Notation "n 'in_str' h" := (py_contains n h) (at level 70) : py_scope.

(** The substring relation [py_contains] decides. *)
Definition substring (needle hay : string) : Prop :=
  exists pre suf, hay = pre +:+ needle +:+ suf.

Lemma prefix_spec (n h : string) :
  String.prefix n h = true <-> exists suf, h = n +:+ suf.
Proof.
  revert h. induction n as [|a n IH]; intros [|b h]; simpl.
  - split; [intros _; by exists "" | done].
  - split; [intros _; by exists (String b h) | done].
  - split; [discriminate | by intros [? ?]].
  - destruct (Ascii.ascii_dec a b) as [->|Hne].
    + rewrite IH. split; intros [suf Hs]; exists suf; [by subst | by injection Hs].
    + split; [discriminate | intros [suf Hs]; injection Hs; congruence].
Qed.

Lemma py_contains_spec (n h : string) :
  py_contains n h = true <-> substring n h.
Proof.
  unfold substring. induction h as [|c h IH]; cbn [py_contains];
    rewrite orb_true_iff, prefix_spec.
  - split.
    + intros [[suf Hs] | ?]; [by exists "", suf | discriminate].
    + intros ([|? ?] & suf & Hs); [by left; exists suf | discriminate].
  - rewrite IH. split.
    + intros [[suf Hs] | (pre & suf & ->)].
      * by exists "", suf.
      * by exists (String c pre), suf.
    + intros ([|c' pre] & suf & Hs).
      * left. by exists suf.
      * right. injection Hs as -> ->. by exists pre, suf.
Qed.

#[export] Instance substring_dec n h : Decision (substring n h).
Proof.
  destruct (py_contains n h) eqn:E.
  - left. by apply py_contains_spec.
  - right. intros Hs. apply py_contains_spec in Hs. congruence.
Defined.

Lemma string_app_nil_r (s : string) : s +:+ "" = s.
Proof.
  induction s as [|c s IH]; [reflexivity|].
  change (String c (s +:+ "") = String c s). by rewrite IH.
Qed.

Lemma py_contains_refl (s : string) : py_contains s s = true.
Proof. apply py_contains_spec. exists "", "". exact (eq_sym (string_app_nil_r s)). Qed.

Lemma py_contains_empty (h : string) : py_contains "" h = true.
Proof. destruct h; reflexivity. Qed.

#[export] Hint Resolve py_contains_refl py_contains_empty : vlan.

(** ** Dicts *)

(** A Python dict literal keeps its keys in insertion order (Python 3.7
    and later); [reversed(d.items())] (Python 3.8 and later) walks them
    backwards. *)
Definition py_dict (K V : Type) := list (K * V).

Definition py_reversed {K V} (d : py_dict K V) : list (K * V) := rev d.

(** The interpreter, as far as [reversed(d.items())] is concerned.  On
    Python 2, [items()] is a list in the dict's iteration order; on
    Python 3.0 to 3.7 it is a view that [reversed] rejects; from Python
    3.8 on it is a reversible view in insertion order.  A dict is given
    here in its iteration order. *)
Inductive py_version := Py2 | Py3_0_to_3_7 | Py3_8_plus.

Definition dict_items_not_reversible : exn := TypeError "'dict_items' object is not reversible".

Definition py_reversed_items {S K V} (ver : py_version) (d : py_dict K V) : PyM S (list (K * V)) :=
  match ver with
  | Py3_0_to_3_7 => py_raise dict_items_not_reversible
  | Py2 | Py3_8_plus => mret (py_reversed d)
  end.

(** A dict has no duplicate keys. *)
Definition dict_wf {K V} (d : py_dict K V) : Prop := NoDup d.*1.
