(* ===== verification/OpenFlow.v ===== *)
(** * The Ryu OpenFlow 1.3 objects that src/vlan_proactive.py builds

    These are library objects ([ryu.ofproto.ofproto_v1_3],
    [ryu.ofproto.ofproto_v1_3_parser], [ryu.ofproto.ether]), not code of
    the repository: only the fields and constants the application touches
    are modelled, with the values Ryu gives them.

    - [OFPPort]: a switch port, of which the code reads [port_no] and
      [name].
    - [OFPMatch] with the setters [set_in_port], [set_dl_type],
      [set_vlan_vid] the code calls; a field that was never set is
      [None] (a wildcard).
    - [OFPAction] ([OFPActionPushVlan], [OFPActionSetField], [OFPActionOutput]),
      [OFPInstructionActions], [OFPInstructionGotoTable] and [OFPFlowMod].
    - [Datapath]: the switch handle, with its port list and the value of
      the attribute [datapath.ofproto.port_no], which the code iterates
      and which is missing ([None]) on Ryu's [ofproto_v1_3] module.
    - [flow_mod_wire_ok]: the field widths of the OpenFlow 1.3 wire
      format, as a boolean test. *)

From S2P Require Import Prelude PyRuntime.

Local Open Scope Z_scope.

(** ** Constants of [ryu.ofproto.ether] and [ryu.ofproto.ofproto_v1_3] *)

Definition ETH_TYPE_IP : Z := 0x0800.
Definition OFPP_ANY : Z := 0xffffffff.
Definition OFPG_ANY : Z := 0xffffffff.
Definition OFP_NO_BUFFER : Z := 0xffffffff.

(** ** Ports and matches *)

Record OFPPort := mkOFPPort { port_no : Z; name : string }.

Record OFPMatch := mkOFPMatch {
  m_in_port : option Z;
  m_dl_type : option Z;
  m_vlan_vid : option Z;
}.

(** [ofproto_parser.OFPMatch()]: every field wildcarded. *)
Definition OFPMatch_new : OFPMatch := mkOFPMatch None None None.

Definition set_in_port (port : Z) (m : OFPMatch) : OFPMatch :=
  mkOFPMatch (Some port) (m_dl_type m) (m_vlan_vid m).
Definition set_dl_type (dl_type : Z) (m : OFPMatch) : OFPMatch :=
  mkOFPMatch (m_in_port m) (Some dl_type) (m_vlan_vid m).
Definition set_vlan_vid (vid : Z) (m : OFPMatch) : OFPMatch :=
  mkOFPMatch (m_in_port m) (m_dl_type m) (Some vid).

(** ** Actions, instructions, flow mods *)

Inductive oxm_field := OXM_OF_IN_PORT | OXM_OF_ETH_TYPE | OXM_OF_VLAN_VID.

Record OFPMatchField := mkOFPMatchField { mf_header : oxm_field; mf_value : Z }.

(** [OFPMatchField.make(header, value)]. *)
Definition OFPMatchField_make (header : oxm_field) (value : Z) : OFPMatchField :=
  mkOFPMatchField header value.

(** The actions of Ryu's [ofproto_v1_3_parser] that concern the model:
    the code builds the first two; [OFPActionOutput] (its [max_len] left
    out) is the one that forwards a packet. *)
Inductive OFPAction :=
| OFPActionPushVlan (ethertype : Z)
| OFPActionSetField (field : OFPMatchField)
| OFPActionOutput (port : Z).

Inductive ofp_instruction_type :=
| OFPIT_WRITE_ACTIONS | OFPIT_APPLY_ACTIONS | OFPIT_CLEAR_ACTIONS.

(** [OFPInstructionActions(type_, actions)], and
    [OFPInstructionGotoTable(table_id)], which sends the packet on to a
    later table. *)
Inductive OFPInstruction :=
| OFPInstructionActions (type_ : ofp_instruction_type) (actions : list OFPAction)
| OFPInstructionGotoTable (table_id : Z).

Definition inst_actions (i : OFPInstruction) : list OFPAction :=
  match i with OFPInstructionActions _ acts => acts | OFPInstructionGotoTable _ => [] end.

Inductive ofp_flow_mod_command :=
| OFPFC_ADD | OFPFC_MODIFY | OFPFC_MODIFY_STRICT | OFPFC_DELETE | OFPFC_DELETE_STRICT.

Record OFPFlowMod := mkOFPFlowMod {
  fm_cookie : Z;
  fm_cookie_mask : Z;
  fm_table_id : Z;
  fm_command : ofp_flow_mod_command;
  fm_idle_timeout : Z;
  fm_hard_timeout : Z;
  fm_priority : Z;
  fm_buffer_id : Z;
  fm_out_port : Z;
  fm_out_group : Z;
  fm_flags : Z;
  fm_match : OFPMatch;
  fm_instructions : list OFPInstruction;
}.

#[export] Instance OFPPort_eq_dec : EqDecision OFPPort.
Proof. solve_decision. Defined.
#[export] Instance OFPMatch_eq_dec : EqDecision OFPMatch.
Proof. solve_decision. Defined.
#[export] Instance oxm_field_eq_dec : EqDecision oxm_field.
Proof. solve_decision. Defined.
#[export] Instance OFPMatchField_eq_dec : EqDecision OFPMatchField.
Proof. solve_decision. Defined.
#[export] Instance OFPAction_eq_dec : EqDecision OFPAction.
Proof. solve_decision. Defined.
#[export] Instance ofp_instruction_type_eq_dec : EqDecision ofp_instruction_type.
Proof. solve_decision. Defined.
#[export] Instance OFPInstruction_eq_dec : EqDecision OFPInstruction.
Proof. solve_decision. Defined.
#[export] Instance ofp_flow_mod_command_eq_dec : EqDecision ofp_flow_mod_command.
Proof. solve_decision. Defined.
#[export] Instance OFPFlowMod_eq_dec : EqDecision OFPFlowMod.
Proof. solve_decision. Defined.

(** ** Datapaths *)

(** The messages sent on one datapath, in order: the state the
    application's handlers mutate. *)
Abbreviation SendQueue := (list OFPFlowMod).

(** [datapath.send_msg(mod)]. *)
Definition send_msg (msg : OFPFlowMod) : PyM SendQueue unit := py_append msg.

Record Datapath := mkDatapath {
  dp_id : Z;
  (** The switch's ports, as its port description reply lists them. *)
  dp_ports : list OFPPort;
  (** The value of [datapath.ofproto.port_no], or [None] when the module
      has no such attribute. *)
  dp_ofproto_port_no : option (list OFPPort);
}.

(** Ryu's [ofproto_v1_3] module defines no attribute [port_no]. *)
Definition ofproto_v1_3_port_no : option (list OFPPort) := None.

(** The datapath Ryu hands to the features handler. *)
Definition ryu_datapath (id : Z) (ports : list OFPPort) : Datapath :=
  mkDatapath id ports ofproto_v1_3_port_no.

(** A datapath on which the port loop of [is_switch_label] yields the
    switch's ports, as the commented-out line 149 of vlan_proactive.py
    intended ([for k, port in datapath.ports.items()]).  The theorems
    that assume it describe the code once its port source is fixed;
    [Liveness.line149_race] shows when line 149 itself provides it. *)
Definition datapath_iterating_ports (id : Z) (ports : list OFPPort) : Datapath :=
  mkDatapath id ports (Some ports).

(** ** OpenFlow 1.3 wire widths *)

Definition fits (w x : Z) : bool := (0 <=? x) && (x <? 2 ^ w).
Arguments fits : simpl never.

(** A VLAN id has 12 bits; the 13-bit [vlan_vid] field of the wire adds
    the OFPVID_PRESENT bit to it. *)
Definition match_wire_ok (m : OFPMatch) : bool :=
  default true (fits 32 <$> m_in_port m) &&
  default true (fits 16 <$> m_dl_type m) &&
  default true (fits 12 <$> m_vlan_vid m).

Definition action_wire_ok (a : OFPAction) : bool :=
  match a with
  | OFPActionPushVlan ethertype => fits 16 ethertype
  | OFPActionSetField f =>
      match mf_header f with
      | OXM_OF_IN_PORT => fits 32 (mf_value f)
      | OXM_OF_ETH_TYPE => fits 16 (mf_value f)
      | OXM_OF_VLAN_VID => fits 13 (mf_value f)
      end
  | OFPActionOutput port => fits 32 port
  end.

Definition instruction_wire_ok (i : OFPInstruction) : bool :=
  match i with
  | OFPInstructionActions _ acts => forallb action_wire_ok acts
  | OFPInstructionGotoTable t => fits 8 t
  end.

(** Every field of a flow mod fits the width the OpenFlow 1.3 [ofp_flow_mod]
    structure gives it. *)
Definition flow_mod_wire_ok (fm : OFPFlowMod) : bool :=
  fits 64 (fm_cookie fm) && fits 64 (fm_cookie_mask fm) &&
  fits 8 (fm_table_id fm) && fits 16 (fm_idle_timeout fm) &&
  fits 16 (fm_hard_timeout fm) && fits 16 (fm_priority fm) &&
  fits 32 (fm_buffer_id fm) && fits 32 (fm_out_port fm) &&
  fits 32 (fm_out_group fm) && fits 16 (fm_flags fm) &&
  match_wire_ok (fm_match fm) &&
  forallb instruction_wire_ok (fm_instructions fm).

Lemma fits_spec w x : fits w x = true <-> 0 <= x < 2 ^ w.
Proof. unfold fits. rewrite andb_true_iff, Z.leb_le, Z.ltb_lt. lia. Qed.
