(* ===== verification/Wire.v ===== *)
(** * The OpenFlow 1.3 wire format of the flow mods the application sends

    [datapath.send_msg(mod)] (vlan_proactive.py 95) serializes the
    [OFPFlowMod] that [_add_flow] built, the way Ryu's
    [ofproto_v1_3_parser] does, into the bytes of an OpenFlow 1.3
    [ofp_flow_mod] message:
    - the header [ofp_header] ('!BBHI': version 4, type OFPT_FLOW_MOD 14,
      length, xid);
    - the fixed part ('!QQBBHHHIIIH2x': cookie, cookie mask, table,
      command, timeouts, priority, buffer, out port and group, flags);
    - the match: [ofp_match] of type OFPMT_OXM with one OXM TLV per field
      that was set (in_port, eth_type, vlan_vid in field order; [set_vlan_vid]
      adds the OFPVID_PRESENT bit), padded to a multiple of 8 bytes;
    - the instructions, each with its actions.

    [be_bytes] and [be_value] are big-endian integers of [n] bytes, on
    top of coqutil's little-endian [le_split] and [le_combine].  [parser]
    is a reader over a list of bytes, an instance of stdpp's [MRet] and
    [MBind]; each encoder has its decoder and the round trip
    [decode (encode x ++ rest) = Some (x, rest)], proved layer by layer:
    [wire_step] reads one field back by the reader at the head of the
    goal, [bound] shows the field fits, [dec] settles the readers' tests
    on constants.  [wire_roundtrips] is the property of a whole message,
    and [length_flow_mod_body_single] bounds its size. *)

From S2P Require Import Prelude PyRuntime OpenFlow.
From coqutil Require Import Byte Word.LittleEndianList Z.bitblast.

Local Open Scope Z_scope.

(** ** Big-endian integers *)

(** [n] bytes of [z], most significant first (struct format ['!']). *)
Definition be_bytes (n : nat) (z : Z) : list byte := rev (le_split n z).

Definition be_value (bs : list byte) : Z := le_combine (rev bs).

Lemma length_be_bytes n z : length (be_bytes n z) = n.
Proof. unfold be_bytes. by rewrite length_rev, length_le_split. Qed.

Lemma be_value_bytes n z : 0 <= z < 2 ^ (Z.of_nat n * 8) -> be_value (be_bytes n z) = z.
Proof.
  intros Hz. unfold be_value, be_bytes. rewrite rev_involutive, le_combine_split.
  by apply Z.mod_small.
Qed.

(** ** A reader over bytes *)

Definition parser (A : Type) : Type := list byte -> option (A * list byte).

#[export] Instance parser_ret : MRet parser := fun A a bs => Some (a, bs).
#[export] Instance parser_bind : MBind parser := fun A B k p bs =>
  match p bs with Some (a, rest) => k a rest | None => None end.

Definition p_fail {A} : parser A := fun _ => None.

(** An unsigned integer of [n] bytes. *)
Definition p_uint (n : nat) : parser Z := fun bs =>
  if decide (n <= length bs)%nat then Some (be_value (take n bs), drop n bs) else None.

(** [n] bytes of padding, whatever they hold. *)
Definition p_skip (n : nat) : parser unit := fun bs =>
  if decide (n <= length bs)%nat then Some (tt, drop n bs) else None.

(** A field that must hold [v]. *)
Definition p_expect (n : nat) (v : Z) : parser unit :=
  x ← p_uint n; if decide (x = v) then mret tt else p_fail.

(** [p] run on the next [n] bytes, which it must use up. *)
Definition p_block {A} (n : nat) (p : parser A) : parser A := fun bs =>
  if decide (n <= length bs)%nat then
    match p (take n bs) with Some (a, []) => Some (a, drop n bs) | _ => None end
  else None.

(** [p] as many times as the bytes last; [fuel] bounds the number of
    items, and the length of the bytes is enough when every item takes
    at least one byte. *)
Fixpoint p_many {A} (fuel : nat) (p : parser A) : parser (list A) := fun bs =>
  match bs with
  | [] => Some ([], [])
  | _ :: _ =>
      match fuel with
      | O => None
      | S fuel' =>
          match p bs with
          | Some (a, rest) =>
              match p_many fuel' p rest with
              | Some (l, rest') => Some (a :: l, rest')
              | None => None
              end
          | None => None
          end
      end
  end.

(** The round trip of an encoder [enc] and a decoder [p] on [x]. *)
Definition roundtrips {A} (p : parser A) (enc : A -> list byte) (x : A) : Prop :=
  forall rest, p (enc x ++ rest) = Some (x, rest).

Lemma bind_ok {A B} (p : parser A) (k : A -> parser B) e a rest :
  p (e ++ rest) = Some (a, rest) -> (x ← p; k x) (e ++ rest) = k a rest.
Proof. intros H. unfold mbind, parser_bind. by rewrite H. Qed.

Lemma p_uint_ok n z rest :
  0 <= z < 2 ^ (Z.of_nat n * 8) -> p_uint n (be_bytes n z ++ rest) = Some (z, rest).
Proof.
  intros Hz. unfold p_uint. rewrite length_app, length_be_bytes.
  rewrite decide_True by lia.
  rewrite take_app_length' by by rewrite length_be_bytes.
  rewrite drop_app_length' by by rewrite length_be_bytes. by rewrite be_value_bytes.
Qed.

Lemma p_skip_ok n l rest : length l = n -> p_skip n (l ++ rest) = Some (tt, rest).
Proof.
  intros <-. unfold p_skip. rewrite length_app, decide_True by lia.
  by rewrite drop_app_length.
Qed.

Lemma p_expect_ok n v rest :
  0 <= v < 2 ^ (Z.of_nat n * 8) -> p_expect n v (be_bytes n v ++ rest) = Some (tt, rest).
Proof.
  intros Hv. unfold p_expect. rewrite (bind_ok _ _ _ v) by (by apply p_uint_ok).
  by rewrite decide_True.
Qed.

Lemma p_block_ok {A} (p : parser A) n e a rest :
  length e = n -> p (e ++ []) = Some (a, []) -> p_block n p (e ++ rest) = Some (a, rest).
Proof.
  intros <- Hp. unfold p_block. rewrite length_app, decide_True by lia.
  rewrite take_app_length, drop_app_length. rewrite app_nil_r in Hp. by rewrite Hp.
Qed.

Lemma p_many_cons {A} fuel (p : parser A) bs : bs <> [] ->
  p_many (S fuel) p bs =
    match p bs with
    | Some (a, rest) =>
        match p_many fuel p rest with Some (l, rest') => Some (a :: l, rest') | None => None end
    | None => None
    end.
Proof. by destruct bs. Qed.

Lemma p_many_ok {A} (p : parser A) (enc : A -> list byte) (l : list A) fuel :
  Forall (fun x => roundtrips p enc x /\ enc x <> []) l -> (length l <= fuel)%nat ->
  p_many fuel p (flat_map enc l) = Some (l, []).
Proof.
  revert fuel. induction l as [|x l IH]; intros fuel Hl Hf; [by destruct fuel|].
  apply Forall_cons in Hl as [[Hx Hne] Hl].
  destruct fuel as [|fuel]; [simpl in Hf; lia|]. cbn [flat_map].
  rewrite p_many_cons by (by intros [? _]%app_eq_nil).
  rewrite Hx, IH by (done || simpl in Hf; lia). done.
Qed.

(** ** Fields of the message *)

Definition u8 : Z -> list byte := be_bytes 1.
Definition u16 : Z -> list byte := be_bytes 2.
Definition u32 : Z -> list byte := be_bytes 4.
Definition u64 : Z -> list byte := be_bytes 8.

(** Padding, written as zero bytes. *)
Definition pad (n : nat) : list byte := replicate n Byte.x00.

(** The padding that brings [n] bytes to a multiple of 8. *)
Definition pad_len (n : nat) : nat := (8 - n mod 8) mod 8.

(** ** OXM fields and the match *)

Definition OFPXMC_OPENFLOW_BASIC : Z := 0x8000.
Definition OFPMT_OXM : Z := 1.
Definition OFPVID_PRESENT : Z := 0x1000.

(** [OFPXMT_OFB_IN_PORT], [OFPXMT_OFB_ETH_TYPE], [OFPXMT_OFB_VLAN_VID]. *)
Definition oxm_code (f : oxm_field) : Z :=
  match f with OXM_OF_IN_PORT => 0 | OXM_OF_ETH_TYPE => 5 | OXM_OF_VLAN_VID => 6 end.

Definition oxm_width (f : oxm_field) : nat :=
  match f with OXM_OF_IN_PORT => 4 | OXM_OF_ETH_TYPE => 2 | OXM_OF_VLAN_VID => 2 end.

(** One OXM TLV without mask: class, field (shifted past the has-mask
    bit), length, value. *)
Definition encode_oxm (f : oxm_field) (v : Z) : list byte :=
  u16 OFPXMC_OPENFLOW_BASIC ++ u8 (oxm_code f * 2) ++ u8 (Z.of_nat (oxm_width f)) ++
  be_bytes (oxm_width f) v.

Definition oxm_of_header (fh : Z) : option oxm_field :=
  List.find (fun f => bool_decide (oxm_code f * 2 = fh))
            [OXM_OF_IN_PORT; OXM_OF_ETH_TYPE; OXM_OF_VLAN_VID].

Definition p_oxm : parser (oxm_field * Z) :=
  p_expect 2 OFPXMC_OPENFLOW_BASIC;;
  fh ← p_uint 1;
  match oxm_of_header fh with
  | Some f => p_expect 1 (Z.of_nat (oxm_width f));; v ← p_uint (oxm_width f); mret (f, v)
  | None => p_fail
  end.

(** The fields Ryu serializes for a match built with the old setters, in
    field order; [set_vlan_vid(vid)] stores [vid | OFPVID_PRESENT]. *)
Definition match_oxms (m : OFPMatch) : list (oxm_field * Z) :=
  default [] ((fun p => [(OXM_OF_IN_PORT, p)]) <$> m_in_port m) ++
  default [] ((fun t => [(OXM_OF_ETH_TYPE, t)]) <$> m_dl_type m) ++
  default [] ((fun v => [(OXM_OF_VLAN_VID, Z.lor v OFPVID_PRESENT)]) <$> m_vlan_vid m).

Definition encode_match (m : OFPMatch) : list byte :=
  let fields := flat_map (fun fv => encode_oxm fv.1 fv.2) (match_oxms m) in
  let len := (4 + length fields)%nat in
  u16 OFPMT_OXM ++ u16 (Z.of_nat len) ++ fields ++ pad (pad_len len).

(** A field read back into the match; a VLAN id must carry
    OFPVID_PRESENT. *)
Definition add_oxm (fv : oxm_field * Z) (m : OFPMatch) : option OFPMatch :=
  match fv.1 with
  | OXM_OF_IN_PORT => Some (set_in_port fv.2 m)
  | OXM_OF_ETH_TYPE => Some (set_dl_type fv.2 m)
  | OXM_OF_VLAN_VID =>
      if Z.testbit fv.2 12 then Some (set_vlan_vid (Z.land fv.2 0xfff) m) else None
  end.

Fixpoint match_of_oxms (l : list (oxm_field * Z)) : option OFPMatch :=
  match l with
  | [] => Some OFPMatch_new
  | fv :: l' => match_of_oxms l' ≫= add_oxm fv
  end.

Definition p_match : parser OFPMatch :=
  p_expect 2 OFPMT_OXM;;
  len ← p_uint 2;
  fields ← p_block (Z.to_nat len - 4) (p_many (Z.to_nat len) p_oxm);
  p_skip (pad_len (Z.to_nat len));;
  match match_of_oxms fields with Some m => mret m | None => p_fail end.

(** ** Actions and instructions *)

Definition OFPAT_OUTPUT : Z := 0.
Definition OFPAT_PUSH_VLAN : Z := 17.
Definition OFPAT_SET_FIELD : Z := 25.
(** The [max_len] Ryu's [OFPActionOutput] writes by default. *)
Definition OFPCML_MAX : Z := 0xffe5.

(** [ofp_action_output] ('!HHIH6x'), [ofp_action_push] ('!HHH2x') and
    [ofp_action_set_field] (type, length, the OXM TLV, padding to 8). *)
Definition encode_action (a : OFPAction) : list byte :=
  match a with
  | OFPActionOutput port => u16 OFPAT_OUTPUT ++ u16 16 ++ u32 port ++ u16 OFPCML_MAX ++ pad 6
  | OFPActionPushVlan ethertype => u16 OFPAT_PUSH_VLAN ++ u16 8 ++ u16 ethertype ++ pad 2
  | OFPActionSetField f =>
      let oxm := encode_oxm (mf_header f) (mf_value f) in
      let len := (4 + length oxm)%nat in
      u16 OFPAT_SET_FIELD ++ u16 (Z.of_nat (len + pad_len len)) ++ oxm ++ pad (pad_len len)
  end.

Definition p_action : parser OFPAction :=
  ty ← p_uint 2; len ← p_uint 2;
  if decide (ty = OFPAT_OUTPUT) then
    if decide (len = 16) then port ← p_uint 4; p_skip 8;; mret (OFPActionOutput port)
    else p_fail
  else if decide (ty = OFPAT_PUSH_VLAN) then
    if decide (len = 8) then ethertype ← p_uint 2; p_skip 2;; mret (OFPActionPushVlan ethertype)
    else p_fail
  else if decide (ty = OFPAT_SET_FIELD) then
    fv ← p_oxm; p_skip (Z.to_nat len - 8 - oxm_width fv.1);;
    mret (OFPActionSetField (mkOFPMatchField fv.1 fv.2))
  else p_fail.

Definition OFPIT_GOTO_TABLE : Z := 1.

Definition inst_type_code (t : ofp_instruction_type) : Z :=
  match t with OFPIT_WRITE_ACTIONS => 3 | OFPIT_APPLY_ACTIONS => 4 | OFPIT_CLEAR_ACTIONS => 5 end.

Definition inst_type_of (c : Z) : option ofp_instruction_type :=
  List.find (fun t => bool_decide (inst_type_code t = c))
            [OFPIT_WRITE_ACTIONS; OFPIT_APPLY_ACTIONS; OFPIT_CLEAR_ACTIONS].

(** [ofp_instruction_actions] ('!HH4x' and the actions) and
    [ofp_instruction_goto_table] ('!HHB3x'). *)
Definition encode_instruction (i : OFPInstruction) : list byte :=
  match i with
  | OFPInstructionActions t acts =>
      let body := flat_map encode_action acts in
      u16 (inst_type_code t) ++ u16 (Z.of_nat (8 + length body)) ++ pad 4 ++ body
  | OFPInstructionGotoTable table_id => u16 OFPIT_GOTO_TABLE ++ u16 8 ++ u8 table_id ++ pad 3
  end.

Definition p_instruction : parser OFPInstruction :=
  ty ← p_uint 2; len ← p_uint 2;
  if decide (ty = OFPIT_GOTO_TABLE) then
    if decide (len = 8) then table_id ← p_uint 1; p_skip 3;; mret (OFPInstructionGotoTable table_id)
    else p_fail
  else match inst_type_of ty with
       | Some t =>
           p_skip 4;;
           acts ← p_block (Z.to_nat len - 8) (p_many (Z.to_nat len) p_action);
           mret (OFPInstructionActions t acts)
       | None => p_fail
       end.

(** ** The flow mod message *)

Definition OFP_VERSION : Z := 0x04.
Definition OFPT_FLOW_MOD : Z := 14.

Definition command_code (c : ofp_flow_mod_command) : Z :=
  match c with
  | OFPFC_ADD => 0 | OFPFC_MODIFY => 1 | OFPFC_MODIFY_STRICT => 2
  | OFPFC_DELETE => 3 | OFPFC_DELETE_STRICT => 4
  end.

Definition command_of (c : Z) : option ofp_flow_mod_command :=
  List.find (fun cmd => bool_decide (command_code cmd = c))
            [OFPFC_ADD; OFPFC_MODIFY; OFPFC_MODIFY_STRICT; OFPFC_DELETE; OFPFC_DELETE_STRICT].

(** [OFPFlowMod._serialize_body]: the fixed part, the match, the
    instructions. *)
Definition encode_flow_mod_body (fm : OFPFlowMod) : list byte :=
  u64 (fm_cookie fm) ++ u64 (fm_cookie_mask fm) ++ u8 (fm_table_id fm) ++
  u8 (command_code (fm_command fm)) ++ u16 (fm_idle_timeout fm) ++ u16 (fm_hard_timeout fm) ++
  u16 (fm_priority fm) ++ u32 (fm_buffer_id fm) ++ u32 (fm_out_port fm) ++
  u32 (fm_out_group fm) ++ u16 (fm_flags fm) ++ pad 2 ++
  encode_match (fm_match fm) ++ flat_map encode_instruction (fm_instructions fm).

(** The message [send_msg] puts on the connection, with transaction id
    [xid]. *)
Definition encode_flow_mod (xid : Z) (fm : OFPFlowMod) : list byte :=
  let body := encode_flow_mod_body fm in
  u8 OFP_VERSION ++ u8 OFPT_FLOW_MOD ++ u16 (Z.of_nat (8 + length body)) ++ u32 xid ++ body.

Definition p_flow_mod_body (len : nat) : parser OFPFlowMod :=
  cookie ← p_uint 8; cookie_mask ← p_uint 8; table_id ← p_uint 1; cmd ← p_uint 1;
  idle ← p_uint 2; hard ← p_uint 2; priority ← p_uint 2; buffer_id ← p_uint 4;
  out_port ← p_uint 4; out_group ← p_uint 4; flags ← p_uint 2; p_skip 2;;
  m ← p_match; insts ← p_many len p_instruction;
  match command_of cmd with
  | Some c => mret (mkOFPFlowMod cookie cookie_mask table_id c idle hard priority buffer_id
                                 out_port out_group flags m insts)
  | None => p_fail
  end.

(** What the switch reads: the header, then the body in as many bytes as
    the header's length says. *)
Definition p_flow_mod : parser (Z * OFPFlowMod) :=
  p_expect 1 OFP_VERSION;; p_expect 1 OFPT_FLOW_MOD;;
  len ← p_uint 2; xid ← p_uint 4;
  fm ← p_block (Z.to_nat len - 8) (p_flow_mod_body (Z.to_nat len));
  mret (xid, fm).

(** ** Round trips *)

Lemma length_pad n : length (pad n) = n.
Proof. apply length_replicate. Qed.

Lemma length_encode_oxm f v : length (encode_oxm f v) = (4 + oxm_width f)%nat.
Proof. unfold encode_oxm, u16, u8. rewrite !length_app, !length_be_bytes. lia. Qed.

(** A constant or a bounded variable fits its field. *)
Ltac bound :=
  try lazymatch goal with
      | |- context [Z.of_nat ?n * 8] =>
          let k := eval vm_compute in (Z.of_nat n * 8) in change (Z.of_nat n * 8) with k
      end;
  first [lia | cbn; lia | apply fits_spec; reflexivity].

(** One field read back: an expected constant, an integer, or padding,
    chosen by the reader at the head of the goal. *)
Ltac wire_step :=
  rewrite <- ?app_assoc;
  lazymatch goal with
  | |- mbind _ (p_expect _ _) _ = _ => erewrite (bind_ok _ _ _ tt) by (apply p_expect_ok; bound)
  | |- mbind _ (p_uint _) _ = _ => erewrite bind_ok by (apply p_uint_ok; bound)
  | |- mbind _ (p_skip _) _ = _ =>
      erewrite (bind_ok _ _ _ tt) by (apply p_skip_ok; rewrite ?length_pad, ?Nat2Z.id; reflexivity)
  end.

(** The branches of the readers on the constants they test. *)
Ltac dec := repeat first [ rewrite decide_True by (vm_compute; reflexivity)
                         | rewrite decide_False by (vm_compute; congruence) ].

Lemma oxm_of_header_code f : oxm_of_header (oxm_code f * 2) = Some f.
Proof. by destruct f. Qed.

Lemma p_oxm_ok f v rest : 0 <= v < 2 ^ (Z.of_nat (oxm_width f) * 8) ->
  p_oxm (encode_oxm f v ++ rest) = Some ((f, v), rest).
Proof.
  intros Hv. unfold p_oxm, encode_oxm, u16, u8.
  wire_step.
  erewrite bind_ok by (apply p_uint_ok; destruct f; bound).
  rewrite oxm_of_header_code.
  erewrite (bind_ok _ _ _ tt) by (apply p_expect_ok; destruct f; bound).
  by erewrite bind_ok by (by apply p_uint_ok).
Qed.

(** A 12-bit VLAN id and OFPVID_PRESENT share no bit. *)
Lemma vid_present v : 0 <= v < 2 ^ 12 -> Z.lor v OFPVID_PRESENT = v + 2 ^ 12.
Proof.
  intros Hv. unfold OFPVID_PRESENT. rewrite Z.or_to_plus; [done|].
  apply Z.bits_inj_0. intros i. rewrite Z.land_spec.
  destruct (decide (i = 12)) as [->|Hi].
  - assert (Z.testbit v 12 = false) as -> by (apply Z.testbit_false; [lia|]; by rewrite Z.div_small by lia).
    done.
  - change 4096 with (2 ^ 12). destruct (decide (0 <= i)).
    + by rewrite Z.pow2_bits_false, andb_false_r.
    + by rewrite Z.testbit_neg_r by lia.
Qed.

(** The VLAN id field reads back as the id [set_vlan_vid] was given. *)
Lemma add_oxm_vid v m : 0 <= v < 2 ^ 12 ->
  add_oxm (OXM_OF_VLAN_VID, Z.lor v OFPVID_PRESENT) m = Some (set_vlan_vid v m).
Proof.
  intros Hv. rewrite vid_present by done. unfold add_oxm. cbn [fst snd].
  assert (Z.testbit (v + 2 ^ 12) 12 = true) as ->.
  { apply Z.testbit_true; [lia|].
    replace ((v + 2 ^ 12) / 2 ^ 12) with 1 by (apply Z.div_unique with v; lia). done. }
  change 0xfff with (Z.ones 12). rewrite Z.land_ones by lia.
  replace ((v + 2 ^ 12) mod 2 ^ 12) with v; [done|].
  apply Z.mod_unique with 1; lia.
Qed.

Lemma length_flat_map_le {A B} k (enc : A -> list B) (l : list A) :
  (forall x, length (enc x) <= k)%nat -> (length (flat_map enc l) <= k * length l)%nat.
Proof.
  intros Hk. induction l as [|x l IH]; [cbn; lia|].
  cbn [flat_map length]. rewrite length_app. specialize (Hk x). lia.
Qed.

(** The fields of a match that fits are in range, at most three, and read
    back as the match. *)
Lemma match_oxms_fit m : match_wire_ok m = true ->
  Forall (fun fv => 0 <= fv.2 < 2 ^ (Z.of_nat (oxm_width fv.1) * 8)) (match_oxms m) /\
  (length (match_oxms m) <= 3)%nat /\ match_of_oxms (match_oxms m) = Some m.
Proof.
  destruct m as [[p|] [t|] [v|]]; unfold match_wire_ok, match_oxms;
    cbn [m_in_port m_dl_type m_vlan_vid fmap option_fmap option_map default app andb]; cbv [id];
    rewrite ?andb_true_iff, ?fits_spec; intros Hm; decompose [and] Hm; clear Hm.
  all: split_and!; [| cbn; lia |].
  all: try (apply Forall_forall; intros [f x] Hin;
            repeat (apply elem_of_cons in Hin as [Hin|Hin]; [simplify_eq; cbn; rewrite ?vid_present by lia; lia|]);
            by apply elem_of_nil in Hin).
  all: cbn [match_of_oxms app mbind option_bind]; rewrite ?add_oxm_vid by lia; reflexivity.
Qed.

(** The match reads back from its bytes. *)
Lemma p_match_ok m : match_wire_ok m = true -> roundtrips p_match encode_match m.
Proof.
  intros Hm rest. destruct (match_oxms_fit m Hm) as (Hfit & Hlen & Hback).
  unfold p_match, encode_match, u16.
  set (fields := flat_map (fun fv => encode_oxm fv.1 fv.2) (match_oxms m)).
  assert (Hfl : (length fields <= 24)%nat).
  { subst fields. etrans; [apply (length_flat_map_le 8)|lia].
    intros [f v]. rewrite length_encode_oxm. destruct f; cbn; lia. }
  wire_step.
  erewrite bind_ok by (apply p_uint_ok; lia).
  erewrite bind_ok.
  2: { apply p_block_ok; [lia|]. rewrite app_nil_r. apply p_many_ok; [|lia].
       eapply Forall_impl; [exact Hfit|]. intros [f v] Hv. split; [intros r; by apply p_oxm_ok|].
       cbn. rewrite <- length_zero_iff_nil, length_encode_oxm. lia. }
  wire_step. by rewrite Hback.
Qed.

Lemma p_skip_app n l1 l2 rest : (length l1 + length l2)%nat = n ->
  p_skip n (l1 ++ l2 ++ rest) = Some (tt, rest).
Proof. intros H. rewrite app_assoc. apply p_skip_ok. by rewrite length_app. Qed.

(** A set-field action reads back for any of the three fields. *)
Lemma p_action_setfield f v rest : 0 <= v < 2 ^ (Z.of_nat (oxm_width f) * 8) ->
  p_action (encode_action (OFPActionSetField (mkOFPMatchField f v)) ++ rest) =
    Some (OFPActionSetField (mkOFPMatchField f v), rest).
Proof.
  intros Hv. unfold p_action, encode_action, u16. cbn [mf_header mf_value].
  rewrite length_encode_oxm.
  destruct f; wire_step; wire_step; dec; rewrite <- ?app_assoc, (bind_ok _ _ _ _ _ (p_oxm_ok _ v _ Hv));
    cbn [fst snd]; (erewrite (bind_ok _ _ _ tt) by (apply p_skip_ok; rewrite length_pad, Nat2Z.id; reflexivity));
    done.
Qed.

(** Every action that fits its fields reads back from its bytes. *)
Lemma p_action_ok a : action_wire_ok a = true -> roundtrips p_action encode_action a.
Proof.
  intros Ha rest. destruct a as [e|[f v]|port]; cbn [action_wire_ok mf_header mf_value] in Ha.
  - apply fits_spec in Ha. unfold p_action, encode_action, u16.
    wire_step. wire_step. dec. wire_step. wire_step. done.
  - apply p_action_setfield. destruct f; apply fits_spec in Ha; cbn; lia.
  - apply fits_spec in Ha. unfold p_action, encode_action, u16, u32.
    wire_step. wire_step. dec. wire_step.
    rewrite (app_assoc (be_bytes 2 OFPCML_MAX) (pad 6) rest).
    rewrite (bind_ok _ _ _ tt) by (apply p_skip_ok; by rewrite length_app, length_be_bytes, length_pad).
    done.
Qed.

Lemma length_flat_map_ge {A B} (enc : A -> list B) (l : list A) :
  (forall x, enc x <> []) -> (length l <= length (flat_map enc l))%nat.
Proof.
  intros Hne. induction l as [|x l IH]; [cbn; lia|].
  cbn [flat_map length]. rewrite length_app. specialize (Hne x).
  destruct (enc x); [done|cbn; lia].
Qed.

Lemma encode_action_nonempty a : encode_action a <> [].
Proof. by destruct a. Qed.

Lemma inst_type_of_code t : inst_type_of (inst_type_code t) = Some t.
Proof. by destruct t. Qed.

(** The action list of an instruction reads back from its bytes. *)
Lemma p_actions_ok acts fuel :
  forallb action_wire_ok acts = true -> (length (flat_map encode_action acts) <= fuel)%nat ->
  p_many fuel p_action (flat_map encode_action acts ++ []) = Some (acts, []).
Proof.
  intros Hacts Hf. rewrite app_nil_r. apply p_many_ok.
  - apply Forall_forall. intros a Ha. split; [|apply encode_action_nonempty].
    apply p_action_ok. eapply forallb_forall; [exact Hacts|]. by apply list_elem_of_In.
  - etrans; [|exact Hf]. apply length_flat_map_ge, encode_action_nonempty.
Qed.

(** An instruction that fits its fields and the 16-bit length reads back. *)
Lemma p_instruction_ok i rest :
  instruction_wire_ok i = true -> Z.of_nat (length (encode_instruction i)) < 2 ^ 16 ->
  p_instruction (encode_instruction i ++ rest) = Some (i, rest).
Proof.
  intros Hi Hlen. destruct i as [t acts|table_id]; cbn [instruction_wire_ok] in Hi;
    unfold p_instruction, encode_instruction, u16, u8 in *.
  - set (body := flat_map encode_action acts) in *.
    rewrite !length_app, !length_be_bytes, length_pad in Hlen.
    rewrite <- ?app_assoc. erewrite bind_ok by (apply p_uint_ok; destruct t; bound).
    wire_step. destruct t; dec; rewrite inst_type_of_code; wire_step.
    all: (erewrite bind_ok; [done|]).
    all: apply p_block_ok; [lia|apply p_actions_ok; [done|subst body; lia]].
  - apply fits_spec in Hi. wire_step. wire_step. dec. wire_step. wire_step. done.
Qed.

Lemma encode_instruction_nonempty i : encode_instruction i <> [].
Proof. by destruct i. Qed.

Lemma command_of_code c : command_of (command_code c) = Some c.
Proof. by destruct c. Qed.

Lemma length_flat_map_elem {A B} (enc : A -> list B) (l : list A) x :
  x ∈ l -> (length (enc x) <= length (flat_map enc l))%nat.
Proof.
  induction l as [|y l IH]; [by intros ?%elem_of_nil|].
  intros [->|Hx]%elem_of_cons; cbn [flat_map]; rewrite length_app; [lia|].
  specialize (IH Hx). lia.
Qed.

(** The body of a flow mod, read in the bytes the header's length gives. *)
Lemma p_flow_mod_body_ok fm fuel :
  flow_mod_wire_ok fm = true ->
  Z.of_nat (length (encode_flow_mod_body fm)) < 2 ^ 16 ->
  (length (encode_flow_mod_body fm) <= fuel)%nat ->
  p_flow_mod_body fuel (encode_flow_mod_body fm ++ []) = Some (fm, []).
Proof.
  intros Hok Hlen Hf. unfold flow_mod_wire_ok in Hok.
  rewrite !andb_true_iff, !fits_spec in Hok.
  destruct Hok as [[[[[[[[[[[Hc Hcm] Ht] Hi] Hh] Hp] Hb] Ho] Hg] Hfl] Hm] Hinst].
  unfold p_flow_mod_body, encode_flow_mod_body, u8, u16, u32, u64 in *.
  do 3 wire_step.
  rewrite <- ?app_assoc; erewrite bind_ok by (apply p_uint_ok; destruct (fm_command fm); bound).
  do 8 wire_step.
  rewrite (bind_ok _ _ _ _ _ (p_match_ok _ Hm _)).
  rewrite !length_app in Hlen, Hf.
  set (insts := fm_instructions fm) in *.
  assert (Hi' : p_many fuel p_instruction (flat_map encode_instruction insts ++ []) = Some (insts, [])).
  { rewrite app_nil_r. apply p_many_ok.
    - apply Forall_forall. intros i Hin. split; [|apply encode_instruction_nonempty].
      intros r. apply p_instruction_ok.
      + eapply forallb_forall; [exact Hinst|]. by apply list_elem_of_In.
      + pose proof (length_flat_map_elem encode_instruction insts i Hin). lia.
    - pose proof (length_flat_map_ge encode_instruction insts encode_instruction_nonempty). lia. }
  rewrite (bind_ok _ _ _ _ _ Hi'), command_of_code. by destruct fm.
Qed.

(** The round trip of the whole message: a switch reads back the flow mod
    and the transaction id [send_msg] wrote, when every field fits its
    width and the message fits the 16-bit length of the header. *)
Lemma p_flow_mod_ok xid fm rest :
  0 <= xid < 2 ^ 32 -> flow_mod_wire_ok fm = true ->
  Z.of_nat (8 + length (encode_flow_mod_body fm)) < 2 ^ 16 ->
  p_flow_mod (encode_flow_mod xid fm ++ rest) = Some ((xid, fm), rest).
Proof.
  intros Hx Hok Hlen. unfold p_flow_mod, encode_flow_mod, u8, u16, u32.
  do 4 wire_step.
  erewrite bind_ok by (apply p_block_ok; [lia | apply p_flow_mod_body_ok; [done|lia|lia]]).
  done.
Qed.

(** ** Message sizes *)

(** Every flow mod a switch can read back from any transaction id. *)
Definition wire_roundtrips (fm : OFPFlowMod) : Prop :=
  forall xid rest, 0 <= xid < 2 ^ 32 ->
  p_flow_mod (encode_flow_mod xid fm ++ rest) = Some ((xid, fm), rest).

Lemma wire_roundtrips_intro fm :
  flow_mod_wire_ok fm = true -> Z.of_nat (8 + length (encode_flow_mod_body fm)) < 2 ^ 16 ->
  wire_roundtrips fm.
Proof. intros Hok Hlen xid rest Hx. by apply p_flow_mod_ok. Qed.

Lemma pad_len_lt n : (pad_len n < 8)%nat.
Proof. unfold pad_len. apply Nat.mod_upper_bound. lia. Qed.

Lemma length_encode_match m : (length (encode_match m) <= 35)%nat.
Proof.
  unfold encode_match, u16. rewrite !length_app, !length_be_bytes, length_pad.
  pose proof (pad_len_lt (4 + length (flat_map (fun fv => encode_oxm fv.1 fv.2) (match_oxms m)))).
  assert (length (match_oxms m) <= 3)%nat
    by (destruct m as [[] [] []]; unfold match_oxms; cbn; lia).
  assert (length (flat_map (fun fv => encode_oxm fv.1 fv.2) (match_oxms m)) <= 8 * 3)%nat.
  { etrans; [apply (length_flat_map_le 8)|lia].
    intros [f v]. rewrite length_encode_oxm. destruct f; cbn; lia. }
  lia.
Qed.

Lemma length_encode_action a : (length (encode_action a) <= 16)%nat.
Proof.
  destruct a as [e|[f v]|port]; unfold encode_action, u16, u32; cbn [mf_header mf_value];
    rewrite ?length_encode_oxm, !length_app, ?length_be_bytes, ?length_pad, ?length_encode_oxm;
    [cbn; lia| destruct f; cbn; lia | cbn; lia].
Qed.

(** A flow mod with one instruction of [n] actions takes at most
    [83 + 16 n] bytes after its header. *)
Lemma length_flow_mod_body_single fm t acts :
  fm_instructions fm = [OFPInstructionActions t acts] ->
  (length (encode_flow_mod_body fm) <= 83 + 16 * length acts)%nat.
Proof.
  intros Hi. unfold encode_flow_mod_body, u8, u16, u32, u64. rewrite Hi. cbn [flat_map encode_instruction].
  unfold u16. rewrite ?app_nil_r, !length_app, !length_be_bytes, !length_pad.
  pose proof (length_encode_match (fm_match fm)).
  pose proof (length_flat_map_le 16 encode_action acts length_encode_action). lia.
Qed.
