(* ===== verification/Config.v ===== *)
(** * The tenant configuration table of src/vlan_proactive.py

    [VLAN_TAG_802_1Q] and [BRIDGE_TAG_802_1AD] (lines 67-68) and the class
    attribute [value_pair] (lines 74-76), a dict literal from a group key
    to the labels of the switch ports of that group.  The spec's
    configuration invariant (no label in two groups) is the decidable
    [labels_disjoint]. *)

From S2P Require Import Prelude PyRuntime.

Local Open Scope Z_scope.

Definition VLAN_TAG_802_1Q : Z := 0x8100.
Definition BRIDGE_TAG_802_1AD : Z := 0x88A8.

Definition value_pair : py_dict string (list string) :=
  [("tenda1", ["s1-eth1"; "s1-eth3"; "s2-eth2"]);
   ("tenda2", ["s1-eth2"; "s2-eth1"; "s3-eth1"]);
   ("trunk", ["s1-eth4"; "s2-eth3"; "s3-eth2"])].

(** ** The configuration invariant of the spec (section 7,
    ConfigurationConflict): a label appears in at most one group. *)

Definition labels_disjoint (d : py_dict string (list string)) : Prop :=
  forall i j k1 k2 ls1 ls2 l,
    d !! i = Some (k1, ls1) -> d !! j = Some (k2, ls2) ->
    l ∈ ls1 -> l ∈ ls2 -> i = j.

(** No label of [ls] is in a group of [d]. *)
Definition fresh_labels (ls : list string) (d : py_dict string (list string)) : bool :=
  forallb (fun kl => forallb (fun l => negb (bool_decide (l ∈ kl.2))) ls) d.

Fixpoint labels_disjointb (d : py_dict string (list string)) : bool :=
  match d with
  | [] => true
  | (_, ls) :: d' => fresh_labels ls d' && labels_disjointb d'
  end.

Lemma fresh_labels_spec ls d :
  fresh_labels ls d = true <->
  forall j k2 ls2 l, d !! j = Some (k2, ls2) -> l ∈ ls -> l ∉ ls2.
Proof.
  unfold fresh_labels. rewrite forallb_forall. split.
  - intros H j k2 ls2 l Hj Hl Hl2.
    apply list_elem_of_lookup_2, list_elem_of_In, H in Hj. simpl in Hj.
    rewrite forallb_forall in Hj. apply list_elem_of_In, Hj in Hl.
    by rewrite negb_true_iff, bool_decide_eq_false in Hl.
  - intros H [k2 ls2] Hin. rewrite forallb_forall. intros l Hl.
    apply list_elem_of_In, list_elem_of_lookup in Hin as [j Hj].
    rewrite negb_true_iff, bool_decide_eq_false. by eapply H; [|apply list_elem_of_In].
Qed.

Lemma labels_disjointb_spec d : labels_disjointb d = true <-> labels_disjoint d.
Proof.
  unfold labels_disjoint.
  induction d as [|[k ls] d IH]; simpl.
  - split; [|done]. intros _ [|i] ? ? ? ? ? ? Hi; discriminate Hi.
  - rewrite andb_true_iff, fresh_labels_spec, IH. split.
    + intros [Hf Hd] [|i] [|j] k1 k2 ls1 ls2 l; simpl; intros Hi Hj Hl1 Hl2;
        simplify_eq; [done | by destruct (Hf _ _ _ _ Hj Hl1) | by destruct (Hf _ _ _ _ Hi Hl2) |].
      f_equal. eauto.
    + intros H. split.
      * intros j k2 ls2 l Hj Hl Hl2. by specialize (H 0%nat (S j) k k2 ls ls2 l eq_refl Hj Hl Hl2).
      * intros i j k1 k2 ls1 ls2 l Hi Hj Hl1 Hl2.
        by injection (H (S i) (S j) k1 k2 ls1 ls2 l Hi Hj Hl1 Hl2).
Qed.

#[export] Instance labels_disjoint_dec d : Decision (labels_disjoint d).
Proof.
  destruct (labels_disjointb d) eqn:E; [left | right];
    rewrite <- labels_disjointb_spec; congruence.
Defined.

