(* ===== verification/Installer.v ===== *)
(** * The rule installer: [_add_flow] (src/vlan_proactive.py 84-95)

    [_add_flow] wraps the action list in one APPLY_ACTIONS instruction,
    builds an [OFPFlowMod] with cookie 0, table 0, command ADD, no
    timeouts, priority 0xff, no buffer, any output port and group and no
    flags, and sends it on the datapath.  [Rule] is the spec's rule
    descriptor (a match and an action list: section 3 of the spec fixes
    the priority and the table), and [flow_mod_of] is the message
    [_add_flow] sends for it. *)

From S2P Require Import Prelude PyRuntime OpenFlow.

Local Open Scope Z_scope.

Record Rule := mkRule { rule_match : OFPMatch; rule_actions : list OFPAction }.

#[export] Instance Rule_eq_dec : EqDecision Rule.
Proof. solve_decision. Defined.

(** The flow mod built by lines 85-93. *)
Definition flow_mod_of (match_ : OFPMatch) (actions : list OFPAction) : OFPFlowMod :=
  let inst := [OFPInstructionActions OFPIT_APPLY_ACTIONS actions] in
  {| fm_cookie := 0; fm_cookie_mask := 0; fm_table_id := 0;
     fm_command := OFPFC_ADD; fm_idle_timeout := 0; fm_hard_timeout := 0;
     fm_priority := 0xff; fm_buffer_id := 0xffffffff;
     fm_out_port := OFPP_ANY; fm_out_group := OFPG_ANY;
     fm_flags := 0; fm_match := match_; fm_instructions := inst |}.

Definition _add_flow (datapath : Datapath) (match_ : OFPMatch) (actions : list OFPAction)
  : PyM SendQueue unit :=
  send_msg (flow_mod_of match_ actions).

(** The flow mod that installs a rule. *)
Definition rule_flow_mod (r : Rule) : OFPFlowMod :=
  flow_mod_of (rule_match r) (rule_actions r).

Lemma add_flow_emits dp m a :
  emits (_add_flow dp m a) (Ok tt) [flow_mod_of m a].
Proof. apply emits_append. Qed.

#[export] Hint Resolve add_flow_emits : vlan.

(** The rule can be read back from the flow mod: installing is injective. *)
Lemma rule_flow_mod_inj r1 r2 : rule_flow_mod r1 = rule_flow_mod r2 -> r1 = r2.
Proof. destruct r1, r2. unfold rule_flow_mod, flow_mod_of. simpl. by intros [= -> ->]. Qed.
