(* ===== verification/Resolver.v ===== *)
(** * The port resolver: [_get_port_number] (src/vlan_proactive.py 146-159)

    [is_switch_label label] iterates [datapath.ofproto.port_no] and returns
    the first port whose name contains [label]; [_get_port_number] returns
    the result for the first label that gives one.  Evaluating
    [datapath.ofproto.port_no] raises [AttributeError] on Ryu's
    [ofproto_v1_3] module, and it is evaluated once per label tried.

    [resolves ports labels r] is the declarative "first label, first port"
    specification of the spec (section 4.1), and [get_port_number_resolves]
    shows the code meets it exactly. *)

From S2P Require Import Prelude PyRuntime OpenFlow.

(** The exception [datapath.ofproto.port_no] raises. *)
Definition port_no_missing : exn := AttributeError "ryu.ofproto.ofproto_v1_3" "port_no".

(** Lines 148-153.  The inner [for] loop with early [return] is
    [List.find]. *)
Definition is_switch_label (datapath : Datapath) (label : string)
  : PyM SendQueue (option OFPPort) :=
  match dp_ofproto_port_no datapath with
  | None => py_raise port_no_missing
  | Some ports => mret (List.find (fun port => py_contains label (name port)) ports)
  end.

(** Lines 155-159: [for label in labels: port = is_switch_label(label);
    if port is not None: return port], then [return None]. *)
Fixpoint get_port_number_loop (datapath : Datapath) (labels : list string)
  : PyM SendQueue (option OFPPort) :=
  match labels with
  | [] => mret None
  | label :: labels' =>
      port ← is_switch_label datapath label;
      match port with
      | Some p => mret (Some p)
      | None => get_port_number_loop datapath labels'
      end
  end.

Definition _get_port_number (labels : list string) (datapath : Datapath)
  : PyM SendQueue (option OFPPort) :=
  get_port_number_loop datapath labels.

(** ** Declarative specification *)

(** No port of [ports] has a name containing [l]. *)
Definition label_absent (ports : list OFPPort) (l : string) : Prop :=
  Forall (fun q => ~ substring l (name q)) ports.

Inductive resolves (ports : list OFPPort) : list string -> option OFPPort -> Prop :=
| resolves_none :
    resolves ports [] None
| resolves_first l labels ps1 p ps2 :
    ports = ps1 ++ p :: ps2 ->
    substring l (name p) ->
    label_absent ps1 l ->
    resolves ports (l :: labels) (Some p)
| resolves_next l labels r :
    label_absent ports l ->
    resolves ports labels r ->
    resolves ports (l :: labels) r.

(** ** The code against the specification *)

Lemma contains_false_absent (ports : list OFPPort) l :
  Forall (fun q => py_contains l (name q) = false) ports <-> label_absent ports l.
Proof.
  apply Forall_iff. intros q. by rewrite <- py_contains_spec, not_true_iff_false.
Qed.

Lemma is_switch_label_emits dp ports l :
  dp_ofproto_port_no dp = Some ports ->
  emits (is_switch_label dp l) (Ok (List.find (fun port => py_contains l (name port)) ports)) [].
Proof. intros Hp. unfold is_switch_label. rewrite Hp. apply emits_ret. Qed.

Lemma find_contains_Some ports l p :
  List.find (fun q => py_contains l (name q)) ports = Some p <->
  exists ps1 ps2, ports = ps1 ++ p :: ps2 /\ substring l (name p) /\ label_absent ps1 l.
Proof.
  rewrite find_Some_split. setoid_rewrite <- contains_false_absent.
  by setoid_rewrite <- py_contains_spec.
Qed.

Lemma find_contains_None ports l :
  List.find (fun q => py_contains l (name q)) ports = None <-> label_absent ports l.
Proof. by rewrite find_None_Forall, contains_false_absent. Qed.

(** One step of the specification: the first label decides when some
    port contains it. *)
Lemma resolves_cons ports l labels r :
  resolves ports (l :: labels) r <->
  match List.find (fun q => py_contains l (name q)) ports with
  | Some p => r = Some p
  | None => resolves ports labels r
  end.
Proof.
  destruct (List.find _ ports) as [p|] eqn:Hf; split.
  - inversion 1 as [|? ? ps1 p' ps2 Hports Hl Hps1|? ? ? Habs]; subst.
    + assert (List.find (fun q => py_contains l (name q)) (ps1 ++ p' :: ps2) = Some p')
        by (apply find_contains_Some; eauto).
      congruence.
    + apply find_contains_None in Habs. congruence.
  - intros ->. apply find_contains_Some in Hf as (ps1 & ps2 & ? & ? & ?).
    by eapply resolves_first.
  - inversion 1 as [|? ? ps1 p' ps2 Hports Hl Hps1|]; subst; [|done].
    assert (List.find (fun q => py_contains l (name q)) (ps1 ++ p' :: ps2) = Some p')
      by (apply find_contains_Some; eauto).
    congruence.
  - intros H. apply resolves_next; [by apply find_contains_None | done].
Qed.

(** The resolution function the specification describes (section 4.1),
    as a pure function of the port list. *)
Fixpoint resolve (ports : list OFPPort) (labels : list string) : option OFPPort :=
  match labels with
  | [] => None
  | l :: labels' =>
      match List.find (fun q => py_contains l (name q)) ports with
      | Some p => Some p
      | None => resolve ports labels'
      end
  end.

Lemma resolve_resolves ports labels : resolves ports labels (resolve ports labels).
Proof.
  induction labels as [|l labels IH]; simpl; [constructor|].
  apply resolves_cons. by destruct (List.find _ ports).
Qed.

Lemma resolves_functional ports labels r1 r2 :
  resolves ports labels r1 -> resolves ports labels r2 -> r1 = r2.
Proof.
  revert r1 r2. induction labels as [|l labels IH]; intros r1 r2.
  - do 2 inversion 1. done.
  - rewrite !resolves_cons. destruct (List.find _ ports); [congruence | apply IH].
Qed.

(** When the port list can be iterated, [_get_port_number] returns the
    port [resolve] selects, sending nothing. *)
Lemma get_port_number_resolve dp ports labels :
  dp_ofproto_port_no dp = Some ports ->
  emits (_get_port_number labels dp) (Ok (resolve ports labels)) [].
Proof.
  intros Hp. unfold _get_port_number.
  induction labels as [|l labels IH]; simpl; [apply emits_ret|].
  rewrite (emits_bind_silent _ _ _ _ _ (is_switch_label_emits dp ports l Hp)).
  destruct (List.find _ ports); [apply emits_ret | exact IH].
Qed.

(** The resolved port is a port of the switch. *)
Lemma resolve_elem ports labels p : resolve ports labels = Some p -> p ∈ ports.
Proof.
  induction labels as [|l labels IH]; simpl; [done|].
  destruct (List.find _ ports) as [q|] eqn:Hf; [|done].
  intros [= <-]. apply find_contains_Some in Hf as (ps1 & ps2 & -> & _).
  rewrite elem_of_app, elem_of_cons. auto.
Qed.

#[export] Hint Resolve get_port_number_resolve resolve_resolves : vlan.

(** On Ryu's [ofproto_v1_3] module the first label tried raises
    [AttributeError], before anything is sent; with no label the loop
    body never runs and [None] is returned. *)
Lemma get_port_number_raises dp labels :
  dp_ofproto_port_no dp = None -> labels <> [] ->
  emits (_get_port_number labels dp) (Raise port_no_missing) [].
Proof.
  intros Hp Hl. destruct labels as [|l labels]; [done|]. simpl.
  apply emits_bind_raise. unfold is_switch_label. rewrite Hp. apply emits_raise.
Qed.

(** ** The resolver meets the spec *)

(** C2. When the switch's ports can be iterated, [_get_port_number]
    always returns normally without sending anything, and the port it
    returns is exactly the one the spec's "first label, first port" rule
    selects: the first label, in label order, contained in some port name
    picks the first such port, and [None] means no label matches. *)
Theorem get_port_number_resolves dp ports labels r :
  dp_ofproto_port_no dp = Some ports ->
  emits (_get_port_number labels dp) (Ok r) [] <-> resolves ports labels r.
Proof.
  intros Hp. split.
  - intros H. destruct (emits_functional _ _ _ _ _ H (get_port_number_resolve dp ports labels Hp))
      as [[= ->] _].
    apply resolve_resolves.
  - intros H. rewrite (resolves_functional _ _ _ _ H (resolve_resolves ports labels)).
    by apply get_port_number_resolve.
Qed.

Lemma get_port_number_resolves_witness :
  let ports := [mkOFPPort 2 "s1-eth2"; mkOFPPort 1 "s1-eth1"] in
  dp_ofproto_port_no (datapath_iterating_ports 1 ports) = Some ports /\
  (emits (_get_port_number ["s1-eth1"] (datapath_iterating_ports 1 ports))
         (Ok (Some (mkOFPPort 1 "s1-eth1"))) [] <->
   resolves ports ["s1-eth1"] (Some (mkOFPPort 1 "s1-eth1"))).
Proof. intros ports. split; [reflexivity | apply get_port_number_resolves; reflexivity]. Defined.


