(* ===== verification/Rules.v ===== *)
(** * The rule builder (src/vlan_proactive.py 97-142)

    [build_match] matches the input port and the IPv4 Ethertype;
    [tag_vlan] adds a match on the VLAN id and the actions "push an 802.1Q
    tag, set its VLAN id"; [tag_trunk] pushes an 802.1ad tag and does not
    use its [trunk_id] argument.  [tag_customer_vlan] and [tag_trunk_vlan]
    resolve the group's port first and do nothing when none is found.

    [RuleBuilder] is the interface of the spec's rule builder (section
    4.2: [buildTenantRule], [buildTrunkRule]); [code_rules] is the
    instance the code implements, [spec_rules] the one the spec describes,
    and the lemmas [tag_vlan_emits], [tag_trunk_emits] discharge the
    interface for the code.  [tag_rules_vs_spec_rules] states what
    [tag_vlan] and [tag_trunk] send against the spec's builder: the trunk
    rule is the spec's, the tenant rule is the spec's with a VLAN id match
    and an 802.1Q push in place of the 802.1ad one. *)

From S2P Require Import Prelude PyRuntime OpenFlow Config Installer Resolver.

Local Open Scope Z_scope.

(** ** The code *)

Definition build_match (datapath : Datapath) (port : Z) : OFPMatch :=
  let match_ := OFPMatch_new in
  let match_ := set_in_port port match_ in
  set_dl_type ETH_TYPE_IP match_.

Definition tag_vlan (port vlan_id : Z) (datapath : Datapath) : PyM SendQueue unit :=
  let match_ := set_vlan_vid vlan_id (build_match datapath port) in
  let field := OFPMatchField_make OXM_OF_VLAN_VID vlan_id in
  let actions := [OFPActionPushVlan VLAN_TAG_802_1Q; OFPActionSetField field] in
  _add_flow datapath match_ actions.

Definition tag_customer_vlan (labels : list string) (vlan_id : Z) (datapath : Datapath)
  : PyM SendQueue unit :=
  port ← _get_port_number labels datapath;
  match port with
  | Some p => tag_vlan (port_no p) vlan_id datapath
  | None => py_pass
  end.

Definition tag_trunk (port trunk_id : Z) (datapath : Datapath) : PyM SendQueue unit :=
  let match_ := build_match datapath port in
  let actions := [OFPActionPushVlan BRIDGE_TAG_802_1AD] in
  _add_flow datapath match_ actions.

Definition tag_trunk_vlan (labels : list string) (trunk_id : Z) (datapath : Datapath)
  : PyM SendQueue unit :=
  port ← _get_port_number labels datapath;
  match port with
  | Some p => tag_trunk (port_no p) trunk_id datapath
  | None => py_pass
  end.

(** ** The interface of the spec's rule builder *)

Class RuleBuilder := {
  (** [buildTenantRule(port, tenantTag)] *)
  tenant_rule : Z -> Z -> Rule;
  (** [buildTrunkRule(port, trunkTag)] *)
  trunk_rule : Z -> Z -> Rule;
}.

(** The match both builders of the spec start from: input port and IPv4. *)
Definition port_ip_match (port : Z) : OFPMatch :=
  mkOFPMatch (Some port) (Some ETH_TYPE_IP) None.

(** What the code builds. *)
#[export] Instance code_rules : RuleBuilder := {
  tenant_rule port vid :=
    mkRule (mkOFPMatch (Some port) (Some ETH_TYPE_IP) (Some vid))
           [OFPActionPushVlan VLAN_TAG_802_1Q;
            OFPActionSetField (mkOFPMatchField OXM_OF_VLAN_VID vid)];
  trunk_rule port _ :=
    mkRule (port_ip_match port) [OFPActionPushVlan BRIDGE_TAG_802_1AD];
}.

(** What the spec describes (section 4.2): a tenant rule matches the
    port and IPv4 only, pushes the service tag and sets the tenant tag;
    a trunk rule pushes the service tag. *)
Definition spec_rules : RuleBuilder := {|
  tenant_rule port vid :=
    mkRule (port_ip_match port)
           [OFPActionPushVlan BRIDGE_TAG_802_1AD;
            OFPActionSetField (mkOFPMatchField OXM_OF_VLAN_VID vid)];
  trunk_rule port _ :=
    mkRule (port_ip_match port) [OFPActionPushVlan BRIDGE_TAG_802_1AD];
|}.

(** ** The code implements the interface *)

Lemma tag_vlan_emits port vid dp :
  emits (tag_vlan port vid dp) (Ok tt) [rule_flow_mod (tenant_rule port vid)].
Proof. apply add_flow_emits. Qed.

Lemma tag_trunk_emits port tid dp :
  emits (tag_trunk port tid dp) (Ok tt) [rule_flow_mod (trunk_rule port tid)].
Proof. apply add_flow_emits. Qed.

#[export] Hint Resolve tag_vlan_emits tag_trunk_emits : vlan.

(** The flows a wrapper sends for a resolved port. *)
Definition port_flows (build : Z -> Rule) (r : option OFPPort) : list OFPFlowMod :=
  match r with
  | Some p => [rule_flow_mod (build (port_no p))]
  | None => []
  end.

Section Wrappers.
Context (dp : Datapath) (ports : list OFPPort).
Hypothesis Hports : dp_ofproto_port_no dp = Some ports.

Lemma tag_customer_vlan_emits labels vid :
  emits (tag_customer_vlan labels vid dp) (Ok tt)
        (port_flows (fun p => tenant_rule p vid) (resolve ports labels)).
Proof.
  unfold tag_customer_vlan.
  rewrite (emits_bind_silent _ _ _ _ _ (get_port_number_resolve dp ports labels Hports)).
  destruct (resolve ports labels); simpl; auto with vlan.
Qed.

Lemma tag_trunk_vlan_emits labels tid :
  emits (tag_trunk_vlan labels tid dp) (Ok tt)
        (port_flows (fun p => trunk_rule p tid) (resolve ports labels)).
Proof.
  unfold tag_trunk_vlan.
  rewrite (emits_bind_silent _ _ _ _ _ (get_port_number_resolve dp ports labels Hports)).
  destruct (resolve ports labels); simpl; auto with vlan.
Qed.
End Wrappers.

#[export] Hint Resolve tag_customer_vlan_emits tag_trunk_vlan_emits : vlan.

(** On a datapath whose [ofproto] has no [port_no], a wrapper raises as
    soon as it has a label to try, and sends nothing either way. *)
Definition missing_port_no_result (labels : list string) : res unit :=
  match labels with
  | [] => Ok tt
  | _ :: _ => Raise port_no_missing
  end.

Section MissingPortNo.
Context (dp : Datapath).
Hypothesis Hmissing : dp_ofproto_port_no dp = None.

Lemma bind_get_port_number_missing (k : option OFPPort -> PyM SendQueue unit) labels :
  emits (k None) (Ok tt) [] ->
  emits (port ← _get_port_number labels dp; k port) (missing_port_no_result labels) [].
Proof.
  intros Hk. destruct labels as [|l labels].
  - by rewrite (emits_bind_silent _ _ _ _ _ (emits_ret None)).
  - apply emits_bind_raise, get_port_number_raises; done.
Qed.

Lemma tag_customer_vlan_missing labels vid :
  emits (tag_customer_vlan labels vid dp) (missing_port_no_result labels) [].
Proof. apply bind_get_port_number_missing, emits_pass. Qed.

Lemma tag_trunk_vlan_missing labels tid :
  emits (tag_trunk_vlan labels tid dp) (missing_port_no_result labels) [].
Proof. apply bind_get_port_number_missing, emits_pass. Qed.
End MissingPortNo.

(** ** The code against the spec's rule builder *)

(** C6. [tag_trunk_vlan] sends the same flows whatever [trunk_id] it is
    given: the trunk id is only logged, never installed. *)
Theorem tag_trunk_vlan_ignores_trunk_id labels t1 t2 dp :
  tag_trunk_vlan labels t1 dp = tag_trunk_vlan labels t2 dp.
Proof. reflexivity. Qed.

(** C5. The code against the spec's rule builder.  [tag_trunk] sends
    exactly the spec's trunk rule.  [tag_vlan] sends the spec's tenant
    rule changed in two places: its match also requires the VLAN id
    [vid] ([set_vlan_vid], line 110), so only frames already tagged with
    the tenant's id match; and its first action pushes an 802.1Q tag
    (0x8100, line 114) where the spec pushes the 802.1ad service tag
    (0x88a8).  The set-field of the VLAN id that follows is the spec's. *)
Theorem tag_rules_vs_spec_rules port vid tid dp :
  emits (tag_trunk port tid dp) (Ok tt) [rule_flow_mod (@trunk_rule spec_rules port tid)] /\
  emits (tag_vlan port vid dp) (Ok tt)
    [rule_flow_mod (mkRule (set_vlan_vid vid (rule_match (@tenant_rule spec_rules port vid)))
                           (OFPActionPushVlan VLAN_TAG_802_1Q ::
                            drop 1 (rule_actions (@tenant_rule spec_rules port vid))))].
Proof. split; [apply tag_trunk_emits | apply tag_vlan_emits]. Qed.
