(* ===== verification/Dispatcher.v ===== *)
(** * The attach-event dispatcher (src/vlan_proactive.py 161-189)

    [install_vpn_flow] walks [reversed(self.value_pair.items())] with a
    local [trunk_id] starting at 1; a key containing 'tenda1' (resp.
    'tenda2') tags its group's port with VLAN id 1 (resp. 2), a key
    containing 'trunk' increments [trunk_id] and tags a trunk port, any
    other key is skipped.  [handler_datapath] runs it on the datapath of
    an [EventOFPSwitchFeatures].  [install_vpn_flow_on] takes the
    interpreter version, since [reversed] on [dict_items] raises before
    Python 3.8; [install_vpn_flow] is the handler on the interpreters
    where it runs.  [handler_datapath_on] is the same body under either
    registration, the features event of line 184 or the [dpset.EventDP]
    commented out at line 182, whose event has no [msg] attribute.

    The spec's view (section 4.4) is [provision]: for every group, in
    table order, the rule of the first port the resolver finds.
    [groups_of] reads the groups, with their kinds and tags, off the
    code's branches, and [install_vpn_flow_refines] shows the code sends
    exactly the rules [provision] gives.  The other theorems follow from
    it: the flows do not depend on the table order, every key containing
    'tenda1' gets VLAN id 1 whatever the table, unclassified keys add
    nothing, every flow fits the wire format; and nothing is sent on a
    Ryu datapath. *)

From S2P Require Import Prelude PyRuntime OpenFlow Wire Config Installer Resolver Rules.

Local Open Scope Z_scope.

(** ** The code *)

(** The [for] loop of lines 165-174, with the loop variable [trunk_id]
    threaded through. *)
Fixpoint install_loop (datapath : Datapath) (items : list (string * list string))
         (trunk_id : Z) : PyM SendQueue unit :=
  match items with
  | [] => mret tt
  | (key, labels) :: items' =>
      if py_contains "tenda1" key then
        tag_customer_vlan labels 1 datapath;;
        install_loop datapath items' trunk_id
      else if py_contains "tenda2" key then
        tag_customer_vlan labels 2 datapath;;
        install_loop datapath items' trunk_id
      else if py_contains "trunk" key then
        tag_trunk_vlan labels (trunk_id + 1) datapath;;
        install_loop datapath items' (trunk_id + 1)
      else install_loop datapath items' trunk_id
  end.

(** Lines 161-176 on interpreter [ver]; the final [logger.info("")] is a
    [py_pass]. *)
Definition install_vpn_flow_on (ver : py_version) (value_pair : py_dict string (list string))
           (datapath : Datapath) : PyM SendQueue unit :=
  let trunk_id := 1 in
  items ← py_reversed_items ver value_pair;
  install_loop datapath items trunk_id;;
  py_pass.

(** [install_vpn_flow] on the interpreters on which line 165 runs:
    Python 3.8 and later, or Python 2 with the dict in its iteration
    order. *)
Definition install_vpn_flow (value_pair : py_dict string (list string))
           (datapath : Datapath) : PyM SendQueue unit :=
  install_vpn_flow_on Py3_8_plus value_pair datapath.

(** Ryu's [EventOFPSwitchFeatures], of which the handler reads
    [event.msg.datapath]. *)
Record EventOFPSwitchFeatures := mkEventOFPSwitchFeatures { ev_datapath : Datapath }.

(** Lines 184-189, on the class's own [value_pair]. *)
Definition handler_datapath (event : EventOFPSwitchFeatures) : PyM SendQueue unit :=
  install_vpn_flow value_pair (ev_datapath event).

(** Ryu's [dpset.EventDP], which the [dpset] context raises when a
    datapath enters or leaves [MAIN_DISPATCHER]: it has [dp] and [enter],
    and no attribute [msg]. *)
Record EventDP := mkEventDP { edp_dp : Datapath; edp_enter : bool }.

(** The events the handler is registered for: the features event of line
    184, or the [EventDP] of the commented-out line 182. *)
Inductive handler_event :=
| OnSwitchFeatures (ev : EventOFPSwitchFeatures)
| OnEventDP (ev : EventDP).

Definition eventdp_msg_missing : exn := AttributeError "EventDP" "msg".

(** [event.msg.datapath] (line 189). *)
Definition event_msg_datapath {S} (event : handler_event) : PyM S Datapath :=
  match event with
  | OnSwitchFeatures ev => mret (ev_datapath ev)
  | OnEventDP _ => py_raise eventdp_msg_missing
  end.

(** Lines 182-189 with either registration: the body reads
    [event.msg.datapath] and provisions it. *)
Definition handler_datapath_on (event : handler_event) : PyM SendQueue unit :=
  datapath ← event_msg_datapath event;
  install_vpn_flow value_pair datapath.

(** Registered for the features event, the body is [handler_datapath]. *)
Lemma handler_datapath_on_features ev :
  handler_datapath_on (OnSwitchFeatures ev) = handler_datapath ev.
Proof. reflexivity. Qed.

(** Registered for [dpset.EventDP] instead (line 182), the body raises
    [AttributeError] before it sends anything: the alternative would see
    the datapath only in [MAIN_DISPATCHER], after its ports are known,
    but it cannot read it. *)
Lemma handler_datapath_on_eventdp ev :
  emits (handler_datapath_on (OnEventDP ev)) (Raise eventdp_msg_missing) [].
Proof. apply emits_bind_raise, emits_raise. Qed.

Lemma install_vpn_flow_unfold vp dp :
  install_vpn_flow vp dp = (install_loop dp (py_reversed vp) 1;; py_pass).
Proof. reflexivity. Qed.

(** ** The spec's view: groups and provisioning *)

Inductive group_kind := Tenant | Trunk.

Record Group := mkGroup { kind : group_kind; tagId : Z; portLabels : list string }.

(** The groups the loop visits, in order, with the tag each is given. *)
Fixpoint groups_of (items : list (string * list string)) (trunk_id : Z) : list Group :=
  match items with
  | [] => []
  | (key, labels) :: items' =>
      if py_contains "tenda1" key then mkGroup Tenant 1 labels :: groups_of items' trunk_id
      else if py_contains "tenda2" key then mkGroup Tenant 2 labels :: groups_of items' trunk_id
      else if py_contains "trunk" key then
        mkGroup Trunk (trunk_id + 1) labels :: groups_of items' (trunk_id + 1)
      else groups_of items' trunk_id
  end.

Definition group_rule `{RuleBuilder} (g : Group) (port : Z) : Rule :=
  match kind g with
  | Tenant => tenant_rule port (tagId g)
  | Trunk => trunk_rule port (tagId g)
  end.

(** The spec's provisioning run (section 4.4): for each group in order,
    resolve, and build a rule when a port is found. *)
Definition provision `{RuleBuilder} (ports : list OFPPort) (groups : list Group) : list Rule :=
  flat_map (fun g => match resolve ports (portLabels g) with
                     | Some p => [group_rule g (port_no p)]
                     | None => []
                     end) groups.

(** ** The code refines the spec's view *)

Lemma provision_cons `{RuleBuilder} ports g gs :
  provision ports (g :: gs) = provision ports [g] ++ provision ports gs.
Proof. unfold provision. simpl. by rewrite app_nil_r. Qed.

Lemma port_flows_provision build ports g :
  (forall port, build port = group_rule g port) ->
  port_flows build (resolve ports (portLabels g)) = rule_flow_mod <$> provision ports [g].
Proof. intros Hb. unfold provision. simpl. destruct (resolve _ _); simpl; by rewrite ?Hb. Qed.

Section Refinement.
Context (dp : Datapath) (ports : list OFPPort).
Hypothesis Hports : dp_ofproto_port_no dp = Some ports.

Lemma install_loop_emits items trunk_id :
  emits (install_loop dp items trunk_id) (Ok tt)
        (rule_flow_mod <$> provision ports (groups_of items trunk_id)).
Proof.
  revert trunk_id. induction items as [|[key labels] items IH]; intros t; simpl.
  - apply emits_ret.
  - repeat case_match; try apply IH;
      rewrite provision_cons, fmap_app; eapply emits_bind_ok; [|apply IH| |apply IH| |apply IH];
      (erewrite <- port_flows_provision; [eauto with vlan | done]).
Qed.

Lemma install_vpn_flow_emits vp :
  emits (install_vpn_flow vp dp) (Ok tt)
        (rule_flow_mod <$> provision ports (groups_of (py_reversed vp) 1)).
Proof.
  rewrite install_vpn_flow_unfold. rewrite <- (app_nil_r (_ <$> _)).
  eapply emits_bind_ok; [apply install_loop_emits | apply emits_pass].
Qed.
End Refinement.

(** ** Consequences *)

(** The rules one table entry contributes, whatever the trunk counter. *)
Definition item_rules (ports : list OFPPort) (kl : string * list string) : list Rule :=
  provision ports (groups_of [kl] 0).

Lemma provision_groups_of ports items trunk_id :
  provision ports (groups_of items trunk_id) = flat_map (item_rules ports) items.
Proof.
  revert trunk_id. induction items as [|[key labels] items IH]; intros t; [done|].
  unfold item_rules. simpl.
  repeat case_match; rewrite ?(provision_cons _ _ (groups_of items _)), IH; simpl; done.
Qed.


(** ** On Ryu's datapath *)

(** A key the loop acts on. *)
Definition classified (key : string) : bool :=
  py_contains "tenda1" key || py_contains "tenda2" key || py_contains "trunk" key.

(** How the loop ends when [datapath.ofproto.port_no] is missing: at the
    first entry it acts on that has a label. *)
Fixpoint loop_result_missing (items : list (string * list string)) : res unit :=
  match items with
  | [] => Ok tt
  | (key, labels) :: items' =>
      if classified key then
        match labels with
        | [] => loop_result_missing items'
        | _ :: _ => Raise port_no_missing
        end
      else loop_result_missing items'
  end.

Lemma emits_seq_missing (m k : PyM SendQueue unit) labels r :
  emits m (missing_port_no_result labels) [] -> emits k r [] ->
  emits (m;; k) (match labels with [] => r | _ :: _ => Raise port_no_missing end) [].
Proof.
  intros Hm Hk. destruct labels; simpl in Hm.
  - by rewrite (emits_bind_silent _ _ _ _ _ Hm).
  - by apply emits_bind_raise.
Qed.

Lemma install_loop_missing dp items trunk_id :
  dp_ofproto_port_no dp = None ->
  emits (install_loop dp items trunk_id) (loop_result_missing items) [].
Proof.
  intros Hm. revert trunk_id.
  induction items as [|[key labels] items IH]; intros t; simpl; [apply emits_ret|].
  unfold classified.
  destruct (py_contains "tenda1" key), (py_contains "tenda2" key), (py_contains "trunk" key);
    simpl; try apply IH;
    apply emits_seq_missing; auto using tag_customer_vlan_missing, tag_trunk_vlan_missing.
Qed.

Lemma emits_seq_pass (m : PyM SendQueue unit) r out :
  emits m r out -> emits (m;; py_pass) r out.
Proof.
  intros Hm. destruct r as [[]|e].
  - rewrite <- (app_nil_r out). eapply emits_bind_ok; [done | apply emits_pass].
  - by apply emits_bind_raise.
Qed.

(** C7. On the datapath Ryu passes to the handler, where
    [datapath.ofproto.port_no] does not exist, [install_vpn_flow] never
    sends a message, whatever the table: it ends at the first group it
    tries to resolve. *)
Theorem install_vpn_flow_ryu_sends_nothing vp id ports :
  emits (install_vpn_flow vp (ryu_datapath id ports))
        (loop_result_missing (py_reversed vp)) [].
Proof. apply emits_seq_pass, install_loop_missing. done. Qed.

(** ** Order independence *)

(** C3. The rules sent do not depend on the iteration order of the table: a
    Python 2 dict, whose [items()] order is the hash order, or any
    reordering of the literal gives the same multiset of flow mods. *)
Theorem install_vpn_flow_order_independent dp ports vp1 vp2 out1 out2 :
  dp_ofproto_port_no dp = Some ports ->
  vp1 ≡ₚ vp2 ->
  emits (install_vpn_flow vp1 dp) (Ok tt) out1 ->
  emits (install_vpn_flow vp2 dp) (Ok tt) out2 ->
  out1 ≡ₚ out2.
Proof.
  intros Hp Hperm H1 H2.
  destruct (emits_functional _ _ _ _ _ H1 (install_vpn_flow_emits dp ports Hp vp1)) as [_ ->].
  destruct (emits_functional _ _ _ _ _ H2 (install_vpn_flow_emits dp ports Hp vp2)) as [_ ->].
  rewrite !provision_groups_of. unfold py_reversed.
  by rewrite <- !Permutation_rev, Hperm.
Qed.

(** ** Bounds *)

Lemma elem_of_provision `{RuleBuilder} ports gs r :
  r ∈ provision ports gs ->
  exists g p, g ∈ gs /\ resolve ports (portLabels g) = Some p /\ r = group_rule g (port_no p).
Proof.
  induction gs as [|g gs IH]; [by inversion 1|].
  rewrite provision_cons, elem_of_app. intros [Hr | Hr].
  - unfold provision in Hr. simpl in Hr.
    destruct (resolve ports (portLabels g)) as [p|] eqn:Hres; [|by inversion Hr].
    rewrite app_nil_r, list_elem_of_singleton in Hr.
    exists g, p. rewrite elem_of_cons. auto.
  - destruct (IH Hr) as (g' & p & ? & ? & ?). exists g', p. rewrite elem_of_cons. auto.
Qed.

Lemma groups_of_tenant_tag items trunk_id g :
  g ∈ groups_of items trunk_id -> kind g = Tenant -> tagId g = 1 \/ tagId g = 2.
Proof.
  revert trunk_id. induction items as [|[key labels] items IH]; intros t; simpl; [by inversion 1|].
  repeat case_match; intros Hg Hk; try apply elem_of_cons in Hg as [-> | Hg];
    simpl in *; eauto; discriminate.
Qed.

Lemma group_rule_wire_ok g port :
  (kind g = Tenant -> 0 <= tagId g < 2 ^ 12) -> 0 <= port < 2 ^ 32 ->
  flow_mod_wire_ok (rule_flow_mod (group_rule g port)) = true.
Proof.
  intros Htag Hport. destruct g as [[] tag labels]; simpl in *; [specialize (Htag eq_refl)|];
    unfold flow_mod_wire_ok, match_wire_ok; simpl;
    rewrite ?andb_true_iff, ?fits_spec; unfold ETH_TYPE_IP; repeat split; try reflexivity; lia.
Qed.

(** On ports whose numbers fit 32 bits, every rule provisioned from the
    code's groups fits the wire format. *)
(** A rule of the code's builder, as a flow mod, takes at most 115 bytes
    after its header and reads back from its bytes. *)
Lemma group_rule_roundtrips g port :
  (kind g = Tenant -> 0 <= tagId g < 2 ^ 12) -> 0 <= port < 2 ^ 32 ->
  wire_roundtrips (rule_flow_mod (group_rule g port)).
Proof.
  intros Htag Hport. apply wire_roundtrips_intro; [by apply group_rule_wire_ok|].
  pose proof (length_flow_mod_body_single (rule_flow_mod (group_rule g port)) OFPIT_APPLY_ACTIONS
                (rule_actions (group_rule g port)) eq_refl).
  assert (length (rule_actions (group_rule g port)) <= 2)%nat
    by (unfold group_rule; destruct (kind g); cbn; lia).
  lia.
Qed.

(** On the wire, the tenant rule matches its VLAN id with OFPVID_PRESENT
    set ([set_vlan_vid], here 0x1001), while its set-field action writes
    the id as [OFPMatchField.make] was given it (0x0001), without that
    bit. *)
Lemma tenant_rule_vid_on_wire :
  encode_match (rule_match (tenant_rule 1 1)) =
    [Byte.x00; Byte.x01; Byte.x00; Byte.x18;
     Byte.x80; Byte.x00; Byte.x00; Byte.x04; Byte.x00; Byte.x00; Byte.x00; Byte.x01;
     Byte.x80; Byte.x00; Byte.x0a; Byte.x02; Byte.x08; Byte.x00;
     Byte.x80; Byte.x00; Byte.x0c; Byte.x02; Byte.x10; Byte.x01] /\
  encode_action (OFPActionSetField (mkOFPMatchField OXM_OF_VLAN_VID 1)) =
    [Byte.x00; Byte.x19; Byte.x00; Byte.x10;
     Byte.x80; Byte.x00; Byte.x0c; Byte.x02; Byte.x00; Byte.x01;
     Byte.x00; Byte.x00; Byte.x00; Byte.x00; Byte.x00; Byte.x00].
Proof. split; vm_compute; reflexivity. Qed.

Lemma provision_wire_ok ports items :
  Forall (fun p => 0 <= port_no p < 2 ^ 32) ports ->
  Forall (fun fm => flow_mod_wire_ok fm = true /\ wire_roundtrips fm)
         (rule_flow_mod <$> provision ports (groups_of items 1)).
Proof.
  intros Hports. apply Forall_forall. intros fm Hfm.
  apply list_elem_of_fmap in Hfm as (r & -> & Hr).
  apply elem_of_provision in Hr as (g & p & Hg & Hres & ->).
  assert (Htag : kind g = Tenant -> 0 <= tagId g < 2 ^ 12)
    by (intros Hk; destruct (groups_of_tenant_tag _ _ _ Hg Hk) as [-> | ->]; lia).
  assert (Hp : 0 <= port_no p < 2 ^ 32).
  { apply resolve_elem in Hres. rewrite Forall_forall in Hports. by apply Hports. }
  split; [by apply group_rule_wire_ok | by apply group_rule_roundtrips].
Qed.

(** C4. When the switch's port numbers fit the 32-bit [port_no] field, every
    flow mod [install_vpn_flow] sends fits the OpenFlow 1.3 wire format:
    priority 0xff in 16 bits, buffer and wildcard ports in 32 bits, the
    VLAN ids 1 and 2 in 12 bits beside OFPVID_PRESENT.  Serialized as
    [send_msg] does with any transaction id, each one reads back from its
    bytes as the same flow mod ([wire_roundtrips]). *)
Theorem install_vpn_flow_wire_ok dp ports vp out :
  dp_ofproto_port_no dp = Some ports ->
  Forall (fun p => 0 <= port_no p < 2 ^ 32) ports ->
  emits (install_vpn_flow vp dp) (Ok tt) out ->
  Forall (fun fm => flow_mod_wire_ok fm = true /\ wire_roundtrips fm) out.
Proof.
  intros Hp Hports H.
  destruct (emits_functional _ _ _ _ _ H (install_vpn_flow_emits dp ports Hp vp)) as [_ ->].
  by apply provision_wire_ok.
Qed.

(** ** Tag assignment *)

Lemma item_rules_unclassified ports key labels :
  classified key = false -> item_rules ports (key, labels) = [].
Proof.
  unfold classified, item_rules. simpl.
  destruct (py_contains "tenda1" key), (py_contains "tenda2" key), (py_contains "trunk" key);
    done.
Qed.

(** C9. A table entry whose key contains none of 'tenda1', 'tenda2', 'trunk'
    (a third tenant 'tenda3', or the pseudocode's 'cust1') gets no rule:
    the table with it sends exactly what the table without it sends. *)
Theorem install_vpn_flow_skips_unclassified dp ports vp1 vp2 key labels out :
  dp_ofproto_port_no dp = Some ports ->
  classified key = false ->
  emits (install_vpn_flow (vp1 ++ (key, labels) :: vp2) dp) (Ok tt) out <->
  emits (install_vpn_flow (vp1 ++ vp2) dp) (Ok tt) out.
Proof.
  intros Hp Hk.
  pose proof (install_vpn_flow_emits dp ports Hp (vp1 ++ (key, labels) :: vp2)) as H1.
  pose proof (install_vpn_flow_emits dp ports Hp (vp1 ++ vp2)) as H2.
  rewrite !provision_groups_of in H1, H2. unfold py_reversed in H1, H2.
  rewrite rev_app_distr, flat_map_app in H1, H2.
  replace (rev ((key, labels) :: vp2)) with (rev vp2 ++ [(key, labels)]) in H1 by done.
  rewrite !flat_map_app in H1. cbn [flat_map] in H1.
  rewrite item_rules_unclassified, !app_nil_r in H1 by done.
  split; intros H; [rewrite (proj2 (emits_functional _ _ _ _ _ H H1)) |
                     rewrite (proj2 (emits_functional _ _ _ _ _ H H2))]; done.
Qed.

(** Every rule a table entry contributes is among those sent. *)
Lemma install_vpn_flow_item_rules dp ports vp kl r out :
  dp_ofproto_port_no dp = Some ports ->
  emits (install_vpn_flow vp dp) (Ok tt) out ->
  kl ∈ vp -> r ∈ item_rules ports kl -> rule_flow_mod r ∈ out.
Proof.
  intros Hp H Hkl Hr.
  destruct (emits_functional _ _ _ _ _ H (install_vpn_flow_emits dp ports Hp vp)) as [_ ->].
  rewrite provision_groups_of. apply list_elem_of_fmap_2, list_elem_of_In, in_flat_map.
  exists kl. split; [apply (in_rev vp)|]; by apply list_elem_of_In.
Qed.

Lemma item_rules_tenda1 ports key labels p :
  py_contains "tenda1" key = true -> resolve ports labels = Some p ->
  item_rules ports (key, labels) = [tenant_rule (port_no p) 1].
Proof.
  intros Hk Hr. unfold item_rules. cbn [groups_of]. rewrite Hk.
  unfold provision. cbn [flat_map portLabels]. by rewrite Hr.
Qed.

(** C8. The VLAN id comes from a substring test on the key, not from the
    tenant: whatever the table, every entry whose key contains 'tenda1'
    ('tenda1', 'tenda10', 'tenda1-backup', ...) has the tenant rule with
    VLAN id 1 sent for the port its labels resolve to.  Two such tenants
    get the same VLAN id, so their traffic is not isolated. *)
Theorem install_vpn_flow_tenant_vlan_collision dp ports vp k1 l1 k2 l2 p1 p2 out :
  dp_ofproto_port_no dp = Some ports ->
  (k1, l1) ∈ vp -> (k2, l2) ∈ vp ->
  py_contains "tenda1" k1 = true -> py_contains "tenda1" k2 = true ->
  resolve ports l1 = Some p1 -> resolve ports l2 = Some p2 ->
  emits (install_vpn_flow vp dp) (Ok tt) out ->
  rule_flow_mod (tenant_rule (port_no p1) 1) ∈ out /\
  rule_flow_mod (tenant_rule (port_no p2) 1) ∈ out.
Proof.
  intros Hp H1 H2 Hk1 Hk2 Hr1 Hr2 H.
  split.
  - apply (install_vpn_flow_item_rules dp ports vp (k1, l1)); [done..|].
    rewrite (item_rules_tenda1 _ _ _ p1) by done. by left.
  - apply (install_vpn_flow_item_rules dp ports vp (k2, l2)); [done..|].
    rewrite (item_rules_tenda1 _ _ _ p2) by done. by left.
Qed.

(** ** Witnesses and the refinement theorem *)

(** A switch on which [datapath.ofproto.port_no] yields its two ports. *)
Definition two_port_switch : Datapath :=
  datapath_iterating_ports 1 [mkOFPPort 1 "s1-eth1"; mkOFPPort 2 "s1-eth2"].

Lemma install_vpn_flow_order_independent_witness :
  dp_ofproto_port_no two_port_switch = Some (dp_ports two_port_switch) /\
  [("tenda1", ["s1-eth1"]); ("trunk", ["s1-eth2"])] ≡ₚ [("trunk", ["s1-eth2"]); ("tenda1", ["s1-eth1"])] /\
  [rule_flow_mod (trunk_rule 2 2); rule_flow_mod (tenant_rule 1 1)] ≡ₚ
  [rule_flow_mod (tenant_rule 1 1); rule_flow_mod (trunk_rule 2 2)].
Proof.
  split_and!; [reflexivity | apply Permutation_swap |].
  apply (install_vpn_flow_order_independent two_port_switch (dp_ports two_port_switch)
           [("tenda1", ["s1-eth1"]); ("trunk", ["s1-eth2"])]
           [("trunk", ["s1-eth2"]); ("tenda1", ["s1-eth1"])]); [reflexivity | apply Permutation_swap | |].
  - apply (install_vpn_flow_emits two_port_switch _ eq_refl).
  - apply (install_vpn_flow_emits two_port_switch _ eq_refl).
Defined.

Lemma install_vpn_flow_wire_ok_witness :
  Forall (fun fm => flow_mod_wire_ok fm = true /\ wire_roundtrips fm)
         [rule_flow_mod (trunk_rule 2 2); rule_flow_mod (tenant_rule 1 1)].
Proof.
  apply (install_vpn_flow_wire_ok two_port_switch (dp_ports two_port_switch)
           [("tenda1", ["s1-eth1"]); ("trunk", ["s1-eth2"])]); [reflexivity | | ].
  - repeat constructor; simpl; lia.
  - apply (install_vpn_flow_emits two_port_switch _ eq_refl).
Defined.

Lemma install_vpn_flow_skips_unclassified_witness :
  classified "tenda3" = false /\
  (emits (install_vpn_flow ([("tenda1", ["s1-eth1"])] ++ ("tenda3", ["s1-eth2"]) :: []) two_port_switch)
         (Ok tt) [rule_flow_mod (tenant_rule 1 1)] <->
   emits (install_vpn_flow ([("tenda1", ["s1-eth1"])] ++ []) two_port_switch)
         (Ok tt) [rule_flow_mod (tenant_rule 1 1)]).
Proof.
  split; [reflexivity|].
  apply (install_vpn_flow_skips_unclassified two_port_switch (dp_ports two_port_switch)); reflexivity.
Defined.

Lemma install_vpn_flow_tenant_vlan_collision_witness :
  let vp := [("tenda1", ["s1-eth1"]); ("tenda10", ["s1-eth2"])] in
  dp_ofproto_port_no two_port_switch = Some (dp_ports two_port_switch) /\
  ("tenda1", ["s1-eth1"]) ∈ vp /\ ("tenda10", ["s1-eth2"]) ∈ vp /\
  py_contains "tenda1" "tenda1" = true /\ py_contains "tenda1" "tenda10" = true /\
  resolve (dp_ports two_port_switch) ["s1-eth1"] = Some (mkOFPPort 1 "s1-eth1") /\
  resolve (dp_ports two_port_switch) ["s1-eth2"] = Some (mkOFPPort 2 "s1-eth2") /\
  (rule_flow_mod (tenant_rule 1 1) ∈ [rule_flow_mod (tenant_rule 2 1); rule_flow_mod (tenant_rule 1 1)] /\
   rule_flow_mod (tenant_rule 2 1) ∈ [rule_flow_mod (tenant_rule 2 1); rule_flow_mod (tenant_rule 1 1)]).
Proof.
  intros vp. assert (H1 : ("tenda1", ["s1-eth1"]) ∈ vp) by left.
  assert (H2 : ("tenda10", ["s1-eth2"]) ∈ vp) by (right; left).
  refine (conj eq_refl (conj H1 (conj H2 (conj eq_refl (conj eq_refl (conj eq_refl (conj eq_refl _))))))).
  apply (install_vpn_flow_tenant_vlan_collision two_port_switch (dp_ports two_port_switch) vp
           "tenda1" ["s1-eth1"] "tenda10" ["s1-eth2"] (mkOFPPort 1 "s1-eth1") (mkOFPPort 2 "s1-eth2"));
    try done.
  apply (install_vpn_flow_emits two_port_switch _ eq_refl).
Defined.

(** C1. Refinement of the spec's provisioning run: when the switch's
    ports can be iterated, the only behaviour of [install_vpn_flow] is to
    return normally after sending, in order, one flow mod per group of
    [reversed(value_pair.items())] whose port the resolver finds, built
    by the code's rule builder ([code_rules]); groups whose labels match
    no port are skipped. *)
Theorem install_vpn_flow_refines dp ports vp r out :
  dp_ofproto_port_no dp = Some ports ->
  emits (install_vpn_flow vp dp) r out <->
  r = Ok tt /\ out = rule_flow_mod <$> provision ports (groups_of (py_reversed vp) 1).
Proof.
  intros Hp. pose proof (install_vpn_flow_emits dp ports Hp vp) as H. split.
  - intros H'. destruct (emits_functional _ _ _ _ _ H' H) as [-> ->]. done.
  - by intros [-> ->].
Qed.

Lemma install_vpn_flow_refines_witness :
  dp_ofproto_port_no two_port_switch = Some (dp_ports two_port_switch) /\
  (emits (install_vpn_flow value_pair two_port_switch) (Ok tt)
         [rule_flow_mod (tenant_rule 2 2); rule_flow_mod (tenant_rule 1 1)] <->
   Ok tt = Ok tt /\
   [rule_flow_mod (tenant_rule 2 2); rule_flow_mod (tenant_rule 1 1)] =
   rule_flow_mod <$> provision (dp_ports two_port_switch) (groups_of (py_reversed value_pair) 1)).
Proof. split; [reflexivity | apply install_vpn_flow_refines; reflexivity]. Defined.
