(* ===== verification/FlowTable.v ===== *)
(** * A switch's flow table under the flow mods the application sends

    OpenFlow 1.3 (section 6.4) says what a switch does with an
    [OFPFC_ADD] flow mod that has no [OFPFF_CHECK_OVERLAP] flag: an entry
    of the same table with an identical match and priority is replaced,
    otherwise the entry is added.  This is switch behaviour, outside the
    repository; it is modelled to answer the spec's open question (section
    8) about provisioning the same switch twice.

    - [fm_key]: the identity of an entry (table, match, priority).
    - [flow_add]: one [OFPFC_ADD]; [install_table]: a sequence of them.
    - [table_lookup], [table_equiv]: a table seen through its lookups, an
      equivalence coarser than equality, with the [Proper] instances that
      let [flow_add] and [install_table] be rewritten under it.
    - [table_wf]: no two entries share a key, kept by [flow_add].
    - [handler_datapath_twice]: a switch that sends its features twice is
      sent the handler's batch twice; an empty table ends as exactly the
      batch ([flow_add_present]: an add of an entry already held changes
      nothing), any table as after one batch up to lookup.
    - [handler_datapath_table_roundtrip]: the keys of one batch are
      distinct ([batch_keys_nodup]), so installing it on an empty table
      stores every flow mod as sent, and each one's key looks it up.
    - [switch_recv]: the switch reading the flow mods off the bytes of
      the connection ([Wire.p_flow_mod]) into its table.  On the bytes of
      messages that read back ([wire_roundtrips]) it installs them in
      order ([switch_recv_stream]), so the table round trip holds from
      the bytes too. *)

From S2P Require Import Prelude PyRuntime OpenFlow Wire Config Installer Resolver Rules Dispatcher.
From coqutil Require Import Byte.

Local Open Scope Z_scope.

Definition FlowKey : Type := (Z * OFPMatch * Z)%type.

Definition fm_key (fm : OFPFlowMod) : FlowKey :=
  (fm_table_id fm, fm_match fm, fm_priority fm).

Abbreviation FlowTable := (list OFPFlowMod).

(** [OFPFC_ADD] without [OFPFF_CHECK_OVERLAP]. *)
Definition flow_add (t : FlowTable) (fm : OFPFlowMod) : FlowTable :=
  if existsb (fun e => bool_decide (fm_key e = fm_key fm)) t
  then (fun e => if bool_decide (fm_key e = fm_key fm) then fm else e) <$> t
  else t ++ [fm].

Definition install_table (t : FlowTable) (msgs : list OFPFlowMod) : FlowTable :=
  fold_left flow_add msgs t.

Definition table_lookup (k : FlowKey) (t : FlowTable) : option OFPFlowMod :=
  List.find (fun e => bool_decide (fm_key e = k)) t.

Definition table_equiv (t1 t2 : FlowTable) : Prop :=
  forall k, table_lookup k t1 = table_lookup k t2.

Infix "≡ₜ" := table_equiv (at level 70) : py_scope.
Local Open Scope py_scope.

Definition table_wf (t : FlowTable) : Prop := NoDup (fm_key <$> t).

(** The last message of [msgs] with key [k]. *)
Definition last_with (k : FlowKey) (msgs : list OFPFlowMod) : option OFPFlowMod :=
  table_lookup k (rev msgs).

(** The switch's end of the connection: it reads the flow mods off the
    byte stream one after the other ([Wire.p_flow_mod]) and applies each
    to its table.  Bytes that do not read as a flow mod stop it ([None]).
    [fuel] bounds the number of messages read; [switch_recv] gives it the
    length of the stream, enough since every message takes its 8 bytes of
    header. *)
Fixpoint switch_read (fuel : nat) (t : FlowTable) (bs : list byte) : option FlowTable :=
  match bs with
  | [] => Some t
  | _ :: _ =>
      match fuel with
      | O => None
      | S fuel' =>
          match p_flow_mod bs with
          | Some ((_, fm), rest) => switch_read fuel' (flow_add t fm) rest
          | None => None
          end
      end
  end.

Definition switch_recv (t : FlowTable) (bs : list byte) : option FlowTable :=
  switch_read (length bs) t bs.

(** The bytes of [msgs] sent one after the other with transaction ids
    [xids] ([datapath.send_msg] gives each message the next xid). *)
Definition wire_stream (xids : list Z) (msgs : list OFPFlowMod) : list byte :=
  concat (zip_with encode_flow_mod xids msgs).

(** ** Lookups after an add *)

Lemma table_lookup_app k t1 t2 :
  table_lookup k (t1 ++ t2) =
  match table_lookup k t1 with Some e => Some e | None => table_lookup k t2 end.
Proof.
  unfold table_lookup. induction t1 as [|e t1 IH]; simpl; [done|].
  by case_bool_decide.
Qed.

Lemma table_lookup_Some k t e : table_lookup k t = Some e -> fm_key e = k.
Proof.
  unfold table_lookup. intros (? & ? & _ & He & _)%find_Some_split.
  by apply bool_decide_eq_true in He.
Qed.

Lemma table_lookup_replace k fm t :
  table_lookup k ((fun e => if bool_decide (fm_key e = fm_key fm) then fm else e) <$> t) =
  if bool_decide (fm_key fm = k)
  then (if existsb (fun e => bool_decide (fm_key e = fm_key fm)) t then Some fm else None)
  else table_lookup k t.
Proof.
  induction t as [|e t IH]; [simpl; by case_bool_decide|].
  rewrite fmap_cons. unfold table_lookup in *. cbn [List.find existsb]. rewrite IH.
  destruct (decide (fm_key e = fm_key fm)) as [He|He];
    [rewrite (bool_decide_eq_true_2 _ He) | rewrite (bool_decide_eq_false_2 _ He)]; simpl;
    repeat case_bool_decide; congruence.
Qed.

Lemma table_lookup_flow_add k t fm :
  table_lookup k (flow_add t fm) =
  if bool_decide (fm_key fm = k) then Some fm else table_lookup k t.
Proof.
  unfold flow_add. destruct (existsb _ t) eqn:Hex.
  - rewrite table_lookup_replace, Hex. by case_bool_decide.
  - rewrite table_lookup_app. case_bool_decide as Hk.
    + subst k. apply existsb_find_None in Hex. unfold table_lookup in *. rewrite Hex. simpl.
      by rewrite bool_decide_eq_true_2.
    + destruct (table_lookup k t); [done|]. unfold table_lookup. simpl.
      by rewrite bool_decide_eq_false_2.
Qed.

(** ** The lookup equivalence *)

#[export] Instance table_equiv_equivalence : Equivalence table_equiv.
Proof. split; repeat intro; congruence || (etransitivity; eauto). Qed.

#[export] Instance flow_add_proper : Proper (table_equiv ==> eq ==> table_equiv) flow_add.
Proof. intros t1 t2 Ht fm ? <- k. rewrite !table_lookup_flow_add. by rewrite Ht. Qed.

#[export] Instance install_table_proper :
  Proper (table_equiv ==> eq ==> table_equiv) install_table.
Proof.
  intros t1 t2 Ht msgs ? <-. unfold install_table. revert t1 t2 Ht.
  induction msgs as [|fm msgs IH]; intros t1 t2 Ht; simpl; [done|].
  apply IH. by rewrite Ht.
Qed.

(** After a sequence of adds, a key holds the last message with that key,
    or what it held before. *)
Lemma table_lookup_install k t msgs :
  table_lookup k (install_table t msgs) =
  match last_with k msgs with Some e => Some e | None => table_lookup k t end.
Proof.
  unfold install_table, last_with. revert t.
  induction msgs as [|fm msgs IH]; intros t; simpl; [done|].
  rewrite IH, table_lookup_app, table_lookup_flow_add.
  destruct (table_lookup k (rev msgs)); [done|].
  unfold table_lookup at 2. simpl. by case_bool_decide.
Qed.

(** Sending a batch of adds a second time leaves the table as the first
    time left it. *)
Lemma install_table_repeat t msgs :
  install_table t (msgs ++ msgs) ≡ₜ install_table t msgs.
Proof.
  intros k. rewrite !table_lookup_install. unfold last_with.
  rewrite rev_app_distr, table_lookup_app.
  by destruct (table_lookup k (rev msgs)).
Qed.

(** ** Well-formedness *)

Lemma fmap_key_replace fm (t : FlowTable) :
  fm_key <$> ((fun e => if bool_decide (fm_key e = fm_key fm) then fm else e) <$> t) =
  fm_key <$> t.
Proof.
  rewrite <- list_fmap_compose. apply list_fmap_ext. intros i e _. simpl.
  by case_bool_decide.
Qed.

Lemma flow_add_wf t fm : table_wf t -> table_wf (flow_add t fm).
Proof.
  unfold table_wf, flow_add. intros Hwf. destruct (existsb _ t) eqn:Hex.
  - by rewrite fmap_key_replace.
  - rewrite fmap_app. apply NoDup_app. split_and!; [done | | by apply NoDup_singleton].
    intros k Hk. simpl. rewrite list_elem_of_singleton. intros ->.
    apply list_elem_of_fmap in Hk as (e & He & Hin).
    apply existsb_find_None, find_None_Forall in Hex.
    rewrite Forall_forall in Hex. specialize (Hex e Hin). simpl in Hex.
    rewrite bool_decide_eq_false in Hex. congruence.
Qed.

Lemma install_table_wf t msgs : table_wf t -> table_wf (install_table t msgs).
Proof.
  unfold install_table. revert t.
  induction msgs as [|fm msgs IH]; intros t Ht; simpl; [done|].
  by apply IH, flow_add_wf.
Qed.

#[export] Hint Resolve flow_add_wf install_table_wf : vlan.

(** ** Provisioning a switch twice *)

Lemma rule_flow_mod_add r : fm_command (rule_flow_mod r) = OFPFC_ADD.
Proof. reflexivity. Qed.

(** ** Installing a batch whose keys are distinct *)

(** A message whose key is not yet in the table is appended. *)
Lemma install_table_fresh t msgs :
  NoDup (fm_key <$> (t ++ msgs)) -> install_table t msgs = t ++ msgs.
Proof.
  revert t. induction msgs as [|fm msgs IH]; intros t Hnd; simpl; [by rewrite app_nil_r|].
  assert (Hfm : fm_key fm ∉ fm_key <$> t).
  { rewrite fmap_app, fmap_cons in Hnd. apply NoDup_app in Hnd as (_ & Hdisj & _).
    intros Hin. apply (Hdisj _ Hin). by left. }
  unfold flow_add. replace (existsb _ t) with false.
  - rewrite IH, <- app_assoc; [done|]. by rewrite <- app_assoc.
  - symmetry. apply existsb_find_None, find_None_Forall, Forall_forall. intros e He.
    apply bool_decide_eq_false. intros Heq. apply Hfm, list_elem_of_fmap. by exists e.
Qed.

(** The keys of the batch the handler computes are distinct: the trunk
    rule matches no VLAN id, and the two tenant rules match VLAN ids 2
    and 1. *)
Lemma batch_keys_nodup ports :
  NoDup (fm_key <$> (rule_flow_mod <$> provision ports (groups_of (py_reversed value_pair) 1))).
Proof.
  apply (NoDup_fmap_1 (fun k : FlowKey => m_vlan_vid k.1.2)).
  rewrite <- !list_fmap_compose.
  change (groups_of (py_reversed value_pair) 1) with
    [mkGroup Trunk 2 ["s1-eth4"; "s2-eth3"; "s3-eth2"];
     mkGroup Tenant 2 ["s1-eth2"; "s2-eth1"; "s3-eth1"];
     mkGroup Tenant 1 ["s1-eth1"; "s1-eth3"; "s2-eth2"]].
  unfold provision. cbn [flat_map portLabels].
  destruct (resolve ports ["s1-eth4"; "s2-eth3"; "s3-eth2"]),
    (resolve ports ["s1-eth2"; "s2-eth1"; "s3-eth1"]),
    (resolve ports ["s1-eth1"; "s1-eth3"; "s2-eth2"]);
    apply (bool_decide_unpack _); vm_compute; exact I.
Qed.

(** In a table without duplicate keys, an entry's key finds that entry. *)
Lemma table_lookup_elem t fm :
  table_wf t -> fm ∈ t -> table_lookup (fm_key fm) t = Some fm.
Proof.
  unfold table_wf, table_lookup. induction t as [|e t IH]; intros Hnd Hin; [by inversion Hin|].
  rewrite fmap_cons in Hnd. apply NoDup_cons in Hnd as [He Hnd]. simpl.
  apply elem_of_cons in Hin as [-> | Hin]; [by rewrite bool_decide_eq_true_2|].
  rewrite bool_decide_eq_false_2; [by apply IH|].
  intros Heq. apply He. rewrite Heq. apply list_elem_of_fmap. by exists fm.
Qed.

(** An add of a flow mod the table already holds leaves it as it is. *)
Lemma flow_add_present t fm : table_wf t -> fm ∈ t -> flow_add t fm = t.
Proof.
  intros Hwf Hin. unfold flow_add.
  assert (Hex : existsb (fun e => bool_decide (fm_key e = fm_key fm)) t = true).
  { apply existsb_exists. exists fm. split; [by apply list_elem_of_In | by rewrite bool_decide_eq_true_2]. }
  rewrite Hex. transitivity (id <$> t); [|apply list_fmap_id]. apply list_fmap_ext. intros i e He.
  case_bool_decide as Hk; [|done]. unfold id.
  pose proof (table_lookup_elem t e Hwf (list_elem_of_lookup_2 _ _ _ He)) as H1.
  pose proof (table_lookup_elem t fm Hwf Hin) as H2. rewrite Hk in H1. congruence.
Qed.

Lemma install_table_present t msgs :
  table_wf t -> Forall (fun fm => fm ∈ t) msgs -> install_table t msgs = t.
Proof.
  unfold install_table. induction msgs as [|fm msgs IH]; intros Hwf Hin; [done|].
  apply Forall_cons in Hin as [Hfm Hin]. simpl. rewrite flow_add_present by done. by apply IH.
Qed.

Lemma install_table_app t l1 l2 :
  install_table t (l1 ++ l2) = install_table (install_table t l1) l2.
Proof. apply fold_left_app. Qed.

(** C10. Answer to the spec's idempotence question.  When a switch's
    features are handled twice, the controller sends the handler's batch
    (the flow mods of [provision], as in C1) a second time: the protocol
    layer does not deduplicate.  Every flow mod is an [OFPFC_ADD], and
    their keys are distinct, so on a switch that starts empty the table
    after both batches is exactly the batch, as after one; on any table,
    the second batch changes nothing a lookup sees. *)
Theorem handler_datapath_twice ev ports t :
  dp_ofproto_port_no (ev_datapath ev) = Some ports ->
  let out := rule_flow_mod <$> provision ports (groups_of (py_reversed value_pair) 1) in
  emits (handler_datapath ev;; handler_datapath ev) (Ok tt) (out ++ out) /\
  Forall (fun fm => fm_command fm = OFPFC_ADD) out /\
  install_table [] (out ++ out) = out /\
  install_table t (out ++ out) ≡ₜ install_table t out.
Proof.
  intros Hp out. pose proof (install_vpn_flow_emits _ ports Hp value_pair) as H.
  split_and!.
  - eapply emits_bind_ok; apply H.
  - apply Forall_forall. intros fm (r & -> & _)%list_elem_of_fmap. apply rule_flow_mod_add.
  - rewrite install_table_app, (install_table_fresh [] out) by apply batch_keys_nodup.
    apply install_table_present; [apply batch_keys_nodup | by apply Forall_forall].
  - apply install_table_repeat.
Qed.

Lemma handler_datapath_twice_witness :
  let ev := mkEventOFPSwitchFeatures two_port_switch in
  let out := rule_flow_mod <$> provision (dp_ports two_port_switch)
                                         (groups_of (py_reversed value_pair) 1) in
  dp_ofproto_port_no (ev_datapath ev) = Some (dp_ports two_port_switch) /\
  out = [rule_flow_mod (tenant_rule 2 2); rule_flow_mod (tenant_rule 1 1)] /\
  (emits (handler_datapath ev;; handler_datapath ev) (Ok tt) (out ++ out) /\
   Forall (fun fm => fm_command fm = OFPFC_ADD) out /\
   install_table [] (out ++ out) = out /\
   install_table [] (out ++ out) ≡ₜ install_table [] out).
Proof.
  intros ev out. split; [reflexivity|]. split; [vm_compute; reflexivity|].
  exact (handler_datapath_twice ev (dp_ports two_port_switch) [] eq_refl).
Defined.

(** ** The switch reading the bytes *)

Lemma switch_read_cons fuel t bs : bs <> [] ->
  switch_read (S fuel) t bs =
    match p_flow_mod bs with
    | Some ((_, fm), rest) => switch_read fuel (flow_add t fm) rest
    | None => None
    end.
Proof. by destruct bs. Qed.

Lemma length_encode_flow_mod xid fm : (8 <= length (encode_flow_mod xid fm))%nat.
Proof. unfold encode_flow_mod, u8, u16, u32. rewrite !length_app, !length_be_bytes. lia. Qed.

Lemma length_wire_stream xids msgs : length xids = length msgs ->
  (8 * length msgs <= length (wire_stream xids msgs))%nat.
Proof.
  revert xids. induction msgs as [|fm msgs IH]; intros [|x xids] Hl; simplify_eq/=; [lia|].
  unfold wire_stream in *. cbn [zip_with concat]. rewrite length_app.
  pose proof (length_encode_flow_mod x fm). specialize (IH xids Hl). lia.
Qed.

(** Reading a stream of flow mods that all read back from their bytes
    applies them in order, when the fuel covers the messages. *)
Lemma switch_read_stream fuel t xids msgs :
  Forall wire_roundtrips msgs -> Forall (fun x => 0 <= x < 2 ^ 32) xids ->
  length xids = length msgs -> (length msgs <= fuel)%nat ->
  switch_read fuel t (wire_stream xids msgs) = Some (install_table t msgs).
Proof.
  unfold wire_stream. revert fuel t xids.
  induction msgs as [|fm msgs IH]; intros fuel t [|x xids] Hw Hx Hl Hf;
    simplify_eq; [by destruct fuel|].
  cbn [zip_with concat length fold_left install_table] in *.
  destruct fuel as [|fuel]; [lia|].
  apply Forall_cons in Hw as [Hfm Hw]. apply Forall_cons in Hx as [Hx0 Hx].
  rewrite switch_read_cons.
  - rewrite (Hfm x _ Hx0). apply IH; [done..|lia].
  - intros Hnil. apply (f_equal length) in Hnil. rewrite length_app in Hnil.
    pose proof (length_encode_flow_mod x fm). simpl in Hnil. lia.
Qed.

Lemma switch_recv_stream t xids msgs :
  Forall wire_roundtrips msgs -> Forall (fun x => 0 <= x < 2 ^ 32) xids ->
  length xids = length msgs ->
  switch_recv t (wire_stream xids msgs) = Some (install_table t msgs).
Proof.
  intros Hw Hx Hl. apply switch_read_stream; [done..|].
  pose proof (length_wire_stream xids msgs Hl). lia.
Qed.

(** C20. Round trip through the switch's table.  On any switch whose
    ports can be iterated, install the batch the features handler sends
    on an empty table.  The table holds exactly the flow mods sent, in
    order, and looking up each one's key (table, match, priority) gives
    that flow mod back: no rule of the batch replaces another.  The same
    table results when the switch reads the batch from the bytes that
    [send_msg] writes, whatever 32-bit transaction ids they carry
    (port numbers being 32-bit). *)
Theorem handler_datapath_table_roundtrip ev ports :
  dp_ofproto_port_no (ev_datapath ev) = Some ports ->
  exists out,
    emits (handler_datapath ev) (Ok tt) out /\
    install_table [] out = out /\
    Forall (fun fm => table_lookup (fm_key fm) (install_table [] out) = Some fm) out /\
    (Forall (fun p => 0 <= port_no p < 2 ^ 32) ports ->
     forall xids, length xids = length out -> Forall (fun x => 0 <= x < 2 ^ 32) xids ->
     switch_recv [] (wire_stream xids out) = Some out).
Proof.
  intros Hp. eexists. split; [apply (install_vpn_flow_emits _ ports Hp)|].
  rewrite install_table_fresh by apply batch_keys_nodup. split_and!; [done| |].
  - apply Forall_forall. intros fm Hfm. apply table_lookup_elem; [apply batch_keys_nodup | done].
  - intros Hports xids Hl Hx. rewrite switch_recv_stream; [| |done..].
    + by rewrite install_table_fresh by apply batch_keys_nodup.
    + eapply Forall_impl; [by apply provision_wire_ok | by intros fm [_ ?]].
Qed.

Lemma handler_datapath_table_roundtrip_witness :
  let ev := mkEventOFPSwitchFeatures two_port_switch in
  dp_ofproto_port_no (ev_datapath ev) = Some (dp_ports two_port_switch) /\
  Forall (fun p => 0 <= port_no p < 2 ^ 32) (dp_ports two_port_switch) /\
  exists out,
    emits (handler_datapath ev) (Ok tt) out /\
    install_table [] out = out /\
    Forall (fun fm => table_lookup (fm_key fm) (install_table [] out) = Some fm) out /\
    (Forall (fun p => 0 <= port_no p < 2 ^ 32) (dp_ports two_port_switch) ->
     forall xids, length xids = length out -> Forall (fun x => 0 <= x < 2 ^ 32) xids ->
     switch_recv [] (wire_stream xids out) = Some out).
Proof.
  intros ev. split_and!; [reflexivity | repeat constructor; vm_compute; congruence |].
  exact (handler_datapath_table_roundtrip ev (dp_ports two_port_switch) eq_refl).
Defined.

(** The two flow mods the handler sends to [two_port_switch], as bytes
    with transaction ids 7 and 8, are read by the switch into a table
    that holds them. *)
Example switch_recv_two_port_switch :
  switch_recv [] (wire_stream [7; 8] [rule_flow_mod (trunk_rule 2 2); rule_flow_mod (tenant_rule 1 1)]) =
  Some [rule_flow_mod (trunk_rule 2 2); rule_flow_mod (tenant_rule 1 1)].
Proof. vm_compute. reflexivity. Qed.
