(* ===== verification/Topology.v ===== *)
(** * The test topology of src/topo.py

    [MyTopo.__init__] (topo.py 21-50) adds six hosts, three switches and
    eight links to a Mininet [Topo]; [topos] (line 53) registers it.  The
    model keeps a topology as its nodes and its links in insertion order.

    Mininet (a library, not code of this repository) numbers the
    interfaces of a node in the order its links were added, from 1 on a
    switch, and names interface [k] of node [n] ["n-ethk"]; a switch's
    OpenFlow port number is its interface number.  [switch_ports] gives
    the ports a switch of the topology reports, without the local port
    (whose name, the switch's own, contains no label of the table).

    The controller's runs on the switches of [MyTopo] ([Controller],
    [PortStatus]) take their ports from [switch_ports]. *)

From stdpp Require Import pretty.
From S2P Require Import Prelude OpenFlow.

Local Open Scope Z_scope.

(** ** src/topo.py *)

Inductive node_kind := Host | Switch.

#[export] Instance node_kind_eq_dec : EqDecision node_kind.
Proof. solve_decision. Defined.

Record Topo := mkTopo {
  t_nodes : list (string * node_kind);
  t_links : list (string * string);
}.

(** [Topo.__init__(self)]. *)
Definition Topo_init : Topo := mkTopo [] [].

Definition addHost (name : string) (t : Topo) : Topo :=
  mkTopo (t_nodes t ++ [(name, Host)]) (t_links t).
Definition addSwitch (name : string) (t : Topo) : Topo :=
  mkTopo (t_nodes t ++ [(name, Switch)]) (t_links t).
Definition addLink (node1 node2 : string) (t : Topo) : Topo :=
  mkTopo (t_nodes t) (t_links t ++ [(node1, node2)]).

(** The body of [MyTopo.__init__], call by call. *)
Definition MyTopo : Topo :=
  let t := Topo_init in
  let t := addHost "h1" t in
  let t := addHost "h2" t in
  let t := addHost "h3" t in
  let t := addHost "h4" t in
  let t := addHost "h5" t in
  let t := addHost "h6" t in
  let t := addSwitch "s1" t in
  let t := addSwitch "s2" t in
  let t := addSwitch "s3" t in
  let t := addLink "h1" "s1" t in
  let t := addLink "h2" "s1" t in
  let t := addLink "h3" "s1" t in
  let t := addLink "h4" "s2" t in
  let t := addLink "h5" "s2" t in
  let t := addLink "h6" "s3" t in
  let t := addLink "s1" "s2" t in
  let t := addLink "s2" "s3" t in
  t.

Definition topos : list (string * Topo) := [("mytopo", MyTopo)].

(** ** Mininet's interfaces *)

(** The interfaces of node [n]: its links in insertion order, numbered
    from [next], with the node at the other end. *)
Fixpoint node_intfs (n : string) (links : list (string * string)) (next : nat)
  : list (nat * string) :=
  match links with
  | [] => []
  | (a, b) :: links' =>
      if bool_decide (a = n) then (next, b) :: node_intfs n links' (S next)
      else if bool_decide (b = n) then (next, a) :: node_intfs n links' (S next)
      else node_intfs n links' next
  end.

Definition intf_name (n : string) (k : nat) : string := n +:+ "-eth" +:+ pretty k.

(** The OpenFlow ports switch [sw] reports. *)
Definition switch_ports (t : Topo) (sw : string) : list OFPPort :=
  (fun '(k, _) => mkOFPPort (Z.of_nat k) (intf_name sw k)) <$> node_intfs sw (t_links t) 1.
