(* ===== verification/Controller.v ===== *)
(** * Ryu's controller loop around [handler_datapath]

    The application registers [handler_datapath] for
    [EventOFPSwitchFeatures] in [CONFIG_DISPATCHER] (vlan_proactive.py
    184).  Ryu (a library) keeps one [Datapath] per switch connection and
    runs the OpenFlow 1.3 handshake:
    - on the switch's Hello it elects a version and moves to
      [CONFIG_DISPATCHER], sending a features request;
    - on the features reply it dispatches the event to the handlers
      registered for [CONFIG_DISPATCHER].  Its own handler sets
      [datapath.ports = {}] and requests the port description; the
      connection stays in [CONFIG_DISPATCHER];
    - on the port description reply it fills [datapath.ports] and moves
      to [MAIN_DISPATCHER];
    - a closed connection is [DEAD_DISPATCHER].
    An application handles its events in its own event loop, from a FIFO
    queue, so its handler runs later than the dispatch.  The model runs
    Ryu's own handlers at dispatch.

    - [Ctrl]: the controller state.  It holds the connections (a [gmap]
      from a connection number to its datapath, dispatcher state,
      [datapath.ports], the request Ryu awaits, and the number of times the
      application's handler ran on it), the application's event queue, the
      messages sent (tagged with their connection), the exceptions the
      handler raised, and whether the application's loop still runs.
      [sent] is the sequence of the application's [datapath.send_msg]
      calls.  On a connection already closed ([DEAD_DISPATCHER]) Ryu's
      [Datapath.send] then finds no send queue and discards the bytes, so
      what reaches a switch is the part of [sent] for connections still
      open when the application's loop ran the event.  A
      queue entry is a connection number: the event refers to the
      connection's [Datapath] object, which Ryu mutates.
    - [ctrl_step]: one event, a message from any switch or a turn of the
      application's loop ([EvAppRun]); an interleaving is a list of them.
    - [survives]: whether an exception in a handler leaves the
      application's event loop running.  Later Ryu releases catch and log
      it; earlier ones let it end the loop.  Every theorem holds for both.
    - [reachable]: the states a run reaches when every switch that
      connects satisfies [Pdp] and switches answer only the requests Ryu
      sent ([answers_request]).  Its invariant [ctrl_inv] is proved by
      rule induction.
    - [VLan_Proactive]: the application class by the attributes Ryu reads,
      [_CONTEXTS] and [OFP_VERSIONS] (lines 70-73).  Ryu intersects the
      [OFP_VERSIONS] of the loaded applications, so only OpenFlow 1.3 is
      supported.  A Hello that does not offer it fails and leaves the
      connection in the handshake.
    - Typing ([reachable_sent_well_typed]): every message sent is an
      [OFPFC_ADD] flow mod that fits the wire format.

    Liveness and the race of the commented-out line 149 are in
    [Liveness]. *)

From stdpp Require Import gmap.
From S2P Require Import Prelude PyRuntime OpenFlow Wire Config Installer Resolver Rules.
From S2P Require Import Dispatcher Topology.

Inductive dispatcher :=
| HANDSHAKE_DISPATCHER | CONFIG_DISPATCHER | MAIN_DISPATCHER | DEAD_DISPATCHER.

#[export] Instance dispatcher_eq_dec : EqDecision dispatcher.
Proof. solve_decision. Defined.

(** ** The applications Ryu loads and the versions they accept *)

(** [ryu.ofproto.ofproto_v1_X.OFP_VERSION] for the versions Ryu implements
    (1.0, 1.2, 1.3, 1.4, 1.5). *)
Definition ofproto_v1_3_OFP_VERSION : Z := 0x04%Z.
Definition ryu_ofp_versions : list Z := [0x01; 0x03; 0x04; 0x05; 0x06]%Z.

(** A Ryu application class, by the attributes Ryu reads: [_CONTEXTS]
    (the applications it needs instantiated, by name and class) and
    [OFP_VERSIONS] ([None]: the [RyuApp] default, every version). *)
Record RyuApp := mkRyuApp {
  app_contexts : list (string * string);
  app_ofp_versions : option (list Z);
}.

(** [class VLan_Proactive(app_manager.RyuApp)] (lines 70-73); its
    [__init__] (78-79) only calls [RyuApp.__init__]. *)
Definition VLan_Proactive : RyuApp :=
  mkRyuApp [("dpset", "DPSet")] (Some [ofproto_v1_3_OFP_VERSION]).

(** The context [dpset.DPSet] and Ryu's own [ofp_handler] keep the default. *)
Definition DPSet : RyuApp := mkRyuApp [] None.
Definition OFPHandler : RyuApp := mkRyuApp [] None.

(** Ryu uses the intersection of the [OFP_VERSIONS] of the loaded
    applications as the datapaths' [supported_ofp_version]. *)
Definition supported_ofp_version (apps : list RyuApp) : list Z :=
  foldl (fun vs app => match app_ofp_versions app with
                       | Some l => filter (fun v => v ∈ l) vs
                       | None => vs
                       end) ryu_ofp_versions apps.

Definition loaded_apps : list RyuApp := [VLan_Proactive; DPSet; OFPHandler].

(** A switch's [OFPHello]: its header version and, when it sends one, the
    version bitmap element. *)
Record OFPHello := mkOFPHello { hello_version : Z; hello_elements : option (list Z) }.

Definition max_version (vs : list Z) : option Z :=
  foldr (fun v m => Some (match m with Some w => Z.max v w | None => v end)) None vs.

(** The version Ryu's hello handler elects, [None] for a failed hello
    (an [OFPET_HELLO_FAILED] error; the connection stays in the
    handshake): with a bitmap, the highest version both sides support;
    without one, the highest supported version not above the switch's. *)
Definition hello_negotiate (sup : list Z) (h : OFPHello) : option Z :=
  match hello_elements h with
  | Some vs => max_version (filter (fun v => v ∈ sup) vs)
  | None => max_version (filter (fun v => (v <= hello_version h)%Z) sup)
  end.

(** The request Ryu sent on a connection and awaits the answer to. *)
Inductive ryu_request := FeaturesRequest | PortDescRequest.

#[export] Instance ryu_request_eq_dec : EqDecision ryu_request.
Proof. solve_decision. Defined.

Record Conn := mkConn {
  c_dp : Datapath;
  c_state : dispatcher;
  c_runs : nat;
  (** [datapath.ports]: [None] until Ryu's features handler sets it. *)
  c_ports : option (list OFPPort);
  c_pending : option ryu_request;
}.

Record Ctrl := mkCtrl {
  conns : gmap nat Conn;
  next_conn : nat;
  app_queue : list nat;
  sent : list (nat * OFPFlowMod);
  errors : list (nat * exn);
  app_alive : bool;
}.

Inductive event :=
| EvConnect (dp : Datapath)
| EvHello (cid : nat) (h : OFPHello)
| EvFeaturesReply (cid : nat)
| EvPortDescReply (cid : nat)
| EvDisconnect (cid : nat)
| EvAppRun.

Definition ctrl_init : Ctrl := mkCtrl ∅ 0 [] [] [] true.

(** What one run of the handler on datapath [dp] sends and returns. *)
Definition batch (dp : Datapath) : list OFPFlowMod :=
  (handler_datapath (mkEventOFPSwitchFeatures dp) []).2.
Definition outcome (dp : Datapath) : res unit :=
  (handler_datapath (mkEventOFPSwitchFeatures dp) []).1.

Definition set_conn (c : Ctrl) (cid : nat) (cn : Conn) : Ctrl :=
  mkCtrl (<[cid := cn]> (conns c)) (next_conn c) (app_queue c) (sent c) (errors c) (app_alive c).

Definition is_ok (r : res unit) : bool := match r with Ok _ => true | Raise _ => false end.

(** Ryu's features reply in [CONFIG_DISPATCHER]: the event is queued for
    the application, registered for it in this state, and Ryu's own
    OpenFlow 1.3 handler sets [datapath.ports = {}] and requests the port
    description. *)
Definition dispatch_features (c : Ctrl) (cid : nat) (cn : Conn) : Ctrl :=
  mkCtrl (<[cid := mkConn (c_dp cn) CONFIG_DISPATCHER (c_runs cn) (Some []) (Some PortDescRequest)]>
            (conns c))
         (next_conn c) (app_queue c ++ [cid]) (sent c) (errors c) (app_alive c).

Section Step.
Variable survives : bool.

(** A turn of the application's event loop: the next queued features
    event, of connection [cid], runs [handler_datapath] on the
    connection's datapath. *)
Definition app_run (c : Ctrl) : Ctrl :=
  match app_alive c, app_queue c with
  | true, cid :: q =>
      match conns c !! cid with
      | Some cn =>
          let '(r, out) := handler_datapath (mkEventOFPSwitchFeatures (c_dp cn)) [] in
          mkCtrl (<[cid := mkConn (c_dp cn) (c_state cn) (S (c_runs cn)) (c_ports cn) (c_pending cn)]>
                    (conns c))
                 (next_conn c) q
                 (sent c ++ (pair cid <$> out))
                 (errors c ++ match r with Ok _ => [] | Raise e => [(cid, e)] end)
                 (is_ok r || survives)
      | None => mkCtrl (conns c) (next_conn c) q (sent c) (errors c) (app_alive c)
      end
  | _, _ => c
  end.

Definition ctrl_step (c : Ctrl) (ev : event) : Ctrl :=
  match ev with
  | EvConnect dp =>
      mkCtrl (<[next_conn c := mkConn dp HANDSHAKE_DISPATCHER 0 None None]> (conns c))
             (S (next_conn c)) (app_queue c) (sent c) (errors c) (app_alive c)
  | EvHello cid h =>
      match conns c !! cid with
      | Some cn =>
          if bool_decide (c_state cn = HANDSHAKE_DISPATCHER) then
            match hello_negotiate (supported_ofp_version loaded_apps) h with
            | Some _ => set_conn c cid (mkConn (c_dp cn) CONFIG_DISPATCHER (c_runs cn)
                                              (c_ports cn) (Some FeaturesRequest))
            | None => c
            end
          else c
      | None => c
      end
  | EvFeaturesReply cid =>
      match conns c !! cid with
      | Some cn =>
          if bool_decide (c_state cn = CONFIG_DISPATCHER) then dispatch_features c cid cn else c
      | None => c
      end
  | EvPortDescReply cid =>
      match conns c !! cid with
      | Some cn =>
          if bool_decide (c_state cn = CONFIG_DISPATCHER)
          then set_conn c cid (mkConn (c_dp cn) MAIN_DISPATCHER (c_runs cn)
                                      (Some (dp_ports (c_dp cn))) None)
          else c
      | None => c
      end
  | EvDisconnect cid =>
      match conns c !! cid with
      | Some cn => set_conn c cid (mkConn (c_dp cn) DEAD_DISPATCHER (c_runs cn) (c_ports cn) None)
      | None => c
      end
  | EvAppRun => app_run c
  end.

Definition ctrl_run (c : Ctrl) (evs : list event) : Ctrl := fold_left ctrl_step evs c.

(** A switch answers only the request Ryu sent it. *)
Definition answers_request (c : Ctrl) (ev : event) : bool :=
  match ev with
  | EvFeaturesReply cid => bool_decide (c_pending <$> conns c !! cid = Some (Some FeaturesRequest))
  | EvPortDescReply cid => bool_decide (c_pending <$> conns c !! cid = Some (Some PortDescRequest))
  | _ => true
  end.

Inductive reachable (Pdp : Datapath -> Prop) : Ctrl -> Prop :=
| reachable_init : reachable Pdp ctrl_init
| reachable_connect c dp :
    reachable Pdp c -> Pdp dp -> reachable Pdp (ctrl_step c (EvConnect dp))
| reachable_other c ev :
    reachable Pdp c -> (forall dp, ev <> EvConnect dp) -> answers_request c ev = true ->
    reachable Pdp (ctrl_step c ev).
End Step.

(** ** The invariant *)

Definition sent_to (c : Ctrl) (cid : nat) : list (nat * OFPFlowMod) :=
  filter (fun m => m.1 = cid) (sent c).

(** How many events of connection [cid] wait in the application's queue. *)
Definition queued (c : Ctrl) (cid : nat) : nat :=
  length (filter (fun x => x = cid) (app_queue c)).

Definition expected (cid : nat) (cn : Conn) : list (nat * OFPFlowMod) :=
  match c_runs cn with 0 => [] | S _ => pair cid <$> batch (c_dp cn) end.

(** A connection's handshake stage determines how far its provisioning
    got: not yet dispatched, queued for the application, or done; the
    messages sent to it are its batch once the handler ran. *)
Definition conn_inv (c : Ctrl) (cid : nat) (cn : Conn) : Prop :=
  c_runs cn + queued c cid <= 1 /\
  (c_state cn = HANDSHAKE_DISPATCHER ->
     c_runs cn = 0 /\ queued c cid = 0 /\ c_ports cn = None /\ c_pending cn = None) /\
  (c_pending cn = Some FeaturesRequest ->
     c_state cn = CONFIG_DISPATCHER /\ c_runs cn = 0 /\ queued c cid = 0 /\ c_ports cn = None) /\
  (c_pending cn = Some PortDescRequest ->
     c_state cn = CONFIG_DISPATCHER /\ c_runs cn + queued c cid = 1 /\ c_ports cn = Some []) /\
  (c_state cn = MAIN_DISPATCHER ->
     c_runs cn + queued c cid = 1 /\ c_ports cn = Some (dp_ports (c_dp cn))) /\
  (queued c cid = 1 -> c_ports cn = Some [] \/ c_ports cn = Some (dp_ports (c_dp cn))) /\
  sent_to c cid = expected cid cn.

Definition ctrl_inv (c : Ctrl) : Prop :=
  (forall cid, next_conn c <= cid -> conns c !! cid = None) /\
  (forall cid, cid < next_conn c -> is_Some (conns c !! cid)) /\
  (forall m, m ∈ sent c -> m.1 < next_conn c) /\
  (forall cid, cid ∈ app_queue c -> cid < next_conn c) /\
  (forall cid cn, conns c !! cid = Some cn -> conn_inv c cid cn).

Lemma filter_pair cid' cid (l : list OFPFlowMod) :
  filter (fun m : nat * OFPFlowMod => m.1 = cid') (pair cid <$> l) =
  if decide (cid = cid') then pair cid <$> l else [].
Proof.
  induction l as [|fm l IH]; [simpl; by case_decide|].
  rewrite fmap_cons, filter_cons, IH. simpl. by repeat case_decide.
Qed.

Lemma filter_below {A} (f : A -> nat) (l : list A) k :
  (forall m, m ∈ l -> f m < k) -> filter (fun m => f m = k) l = [].
Proof.
  induction l as [|m l IH]; intros Hl; [done|].
  rewrite filter_cons_False.
  - apply IH. intros m' Hm'. apply Hl. by apply elem_of_cons; right.
  - assert (f m < k) by (apply Hl, elem_of_cons; by left). lia.
Qed.

Lemma queued_snoc (q : list nat) cid cid' :
  length (filter (fun x => x = cid') (q ++ [cid])) =
  length (filter (fun x => x = cid') q) + if decide (cid = cid') then 1 else 0.
Proof. rewrite filter_app, length_app, filter_cons, filter_nil. case_decide; simpl; lia. Qed.

Lemma queued_cons (q : list nat) cid cid' :
  length (filter (fun x => x = cid') (cid :: q)) =
  (if decide (cid = cid') then 1 else 0) + length (filter (fun x => x = cid') q).
Proof. rewrite filter_cons. case_decide; simpl; lia. Qed.

(** A connection's invariant only reads what was sent to it and how many
    of its events are queued. *)
Lemma conn_inv_frame c c' cid cn :
  sent_to c' cid = sent_to c cid -> queued c' cid = queued c cid ->
  conn_inv c cid cn -> conn_inv c' cid cn.
Proof. intros Hs Hq. unfold conn_inv. by rewrite Hs, Hq. Qed.

Lemma lookup_below c cid cn :
  ctrl_inv c -> conns c !! cid = Some cn -> cid < next_conn c.
Proof.
  intros (Hk & _) Hc. destruct (decide (cid < next_conn c)); [done|].
  rewrite Hk in Hc; [discriminate | lia].
Qed.

(** Replacing a connection, with the queue and the messages unchanged. *)
Lemma ctrl_inv_set_conn c cid cn cn' :
  ctrl_inv c -> conns c !! cid = Some cn -> conn_inv c cid cn' ->
  ctrl_inv (set_conn c cid cn').
Proof.
  intros Hinv Hc Hcn'. pose proof (lookup_below _ _ _ Hinv Hc) as Hlt.
  destruct Hinv as (Hk & Hn & Hs & Hq & Hcs). split_and!; simpl; try done.
  - intros cid' Hge. rewrite lookup_insert_ne by lia. by apply Hk.
  - intros cid' Hlt'. rewrite lookup_insert. case_decide; [done | by apply Hn].
  - intros cid' cn''. rewrite lookup_insert.
    case_decide as Heq; [intros [= <-]; subst | intros Hc'];
      eapply conn_inv_frame; try done; eauto.
Qed.

(** *** The stages of a connection *)

(** Split a [conn_inv] goal into its cases and discharge the equations. *)
Local Ltac conn_inv_cases :=
  split_and!; intros; try split_and!; simplify_eq/=; auto; try lia.

Lemma conn_inv_handshake c cid dp :
  queued c cid = 0 -> sent_to c cid = [] ->
  conn_inv c cid (mkConn dp HANDSHAKE_DISPATCHER 0 None None).
Proof. intros Hq Hs. unfold conn_inv; simpl. rewrite Hq, Hs. conn_inv_cases. Qed.

Lemma conn_inv_await_features c cid dp :
  queued c cid = 0 -> sent_to c cid = [] ->
  conn_inv c cid (mkConn dp CONFIG_DISPATCHER 0 None (Some FeaturesRequest)).
Proof. intros Hq Hs. unfold conn_inv; simpl. rewrite Hq, Hs. conn_inv_cases. Qed.

Lemma conn_inv_await_port_desc c cid dp runs :
  runs + queued c cid = 1 -> sent_to c cid = expected cid (mkConn dp CONFIG_DISPATCHER runs None None) ->
  conn_inv c cid (mkConn dp CONFIG_DISPATCHER runs (Some []) (Some PortDescRequest)).
Proof. intros Hq Hs. unfold conn_inv; simpl. rewrite Hs. conn_inv_cases. Qed.

Lemma conn_inv_main c cid dp runs :
  runs + queued c cid = 1 -> sent_to c cid = expected cid (mkConn dp CONFIG_DISPATCHER runs None None) ->
  conn_inv c cid (mkConn dp MAIN_DISPATCHER runs (Some (dp_ports dp)) None).
Proof. intros Hq Hs. unfold conn_inv; simpl. rewrite Hs. conn_inv_cases. Qed.

Lemma conn_inv_dead c cid cn :
  conn_inv c cid cn ->
  conn_inv c cid (mkConn (c_dp cn) DEAD_DISPATCHER (c_runs cn) (c_ports cn) None).
Proof. intros (H1 & _ & _ & _ & _ & H6 & H7). unfold conn_inv; simpl. split_and!; done. Qed.

(** The application's handler ran on a connection whose event was the
    only one of it in the queue. *)
Lemma conn_inv_ran c c' cid cn :
  conn_inv c cid cn -> queued c cid = 1 -> queued c' cid = 0 ->
  sent_to c' cid = sent_to c cid ++ (pair cid <$> batch (c_dp cn)) ->
  conn_inv c' cid (mkConn (c_dp cn) (c_state cn) (S (c_runs cn)) (c_ports cn) (c_pending cn)).
Proof.
  intros (H1 & H2 & H3 & H4 & H5 & H6 & H7) Hq Hq' Hs'.
  assert (Hr : c_runs cn = 0) by lia.
  unfold conn_inv; simpl. rewrite Hq', Hs', H7. unfold expected. rewrite Hr. simpl.
  split_and!; try lia; try done.
  - intros Hst. destruct (H2 Hst) as (_ & ? & _). lia.
  - intros Hp. destruct (H3 Hp) as (_ & _ & ? & _). lia.
  - intros Hp. destruct (H4 Hp) as (? & _ & ?). done.
  - intros Hst. destruct (H5 Hst) as (_ & ?). done.
Qed.

(** *** Every step keeps the invariant *)

Section Invariant.
Variable survives : bool.

Lemma ctrl_inv_init : ctrl_inv ctrl_init.
Proof.
  split_and!; simpl; [done | intros; lia | by inversion 1 | by inversion 1 |].
  intros cid cn. by rewrite lookup_empty.
Qed.

Lemma ctrl_inv_connect c dp : ctrl_inv c -> ctrl_inv (ctrl_step survives c (EvConnect dp)).
Proof.
  intros (Hk & Hn & Hs & Hq & Hcs). split_and!; simpl.
  - intros cid Hge. rewrite lookup_insert_ne by lia. apply Hk. lia.
  - intros cid Hlt. rewrite lookup_insert. case_decide; [done | apply Hn; lia].
  - intros m Hm. specialize (Hs m Hm). lia.
  - intros cid Hcid. specialize (Hq cid Hcid). lia.
  - intros cid cn. rewrite lookup_insert. case_decide as Heq.
    + intros [= <-]. subst cid. apply conn_inv_handshake.
      * unfold queued. simpl. by rewrite (filter_below (fun x => x)).
      * unfold sent_to. simpl. by rewrite (filter_below fst).
    + intros Hc. eapply conn_inv_frame; [done | done | by apply Hcs].
Qed.

Lemma ctrl_inv_features c cid cn :
  ctrl_inv c -> conns c !! cid = Some cn -> c_pending cn = Some FeaturesRequest ->
  ctrl_inv (dispatch_features c cid cn).
Proof.
  intros Hinv Hc Hp. pose proof (lookup_below _ _ _ Hinv Hc) as Hlt.
  destruct Hinv as (Hk & Hn & Hs & Hq & Hcs).
  destruct (Hcs cid cn Hc) as (_ & _ & H3 & _ & _ & _ & H7).
  destruct (H3 Hp) as (_ & Hr & Hq0 & _).
  split_and!; simpl; try done.
  - intros cid' Hge. rewrite lookup_insert_ne by lia. by apply Hk.
  - intros cid' Hlt'. rewrite lookup_insert. case_decide; [done | by apply Hn].
  - intros cid' [Hin | ->%list_elem_of_singleton]%elem_of_app; [by apply Hq | done].
  - intros cid' cn'. rewrite lookup_insert. case_decide as Heq.
    + intros [= <-]. subst cid'. apply conn_inv_await_port_desc.
      * unfold queued. simpl. rewrite queued_snoc, decide_True by done.
        unfold queued in Hq0. lia.
      * change (sent_to c cid = expected cid (mkConn (c_dp cn) CONFIG_DISPATCHER (c_runs cn) None None)).
        by rewrite H7.
    + intros Hc'. apply (conn_inv_frame c); [done | | by apply Hcs].
      unfold queued. simpl. rewrite queued_snoc, decide_False by done. lia.
Qed.

Lemma ctrl_inv_app_run c : ctrl_inv c -> ctrl_inv (app_run survives c).
Proof.
  intros Hinv. unfold app_run.
  destruct (app_alive c) eqn:Ha, (app_queue c) as [|cid q] eqn:Hqc; try done.
  pose proof Hinv as (Hk & Hn & Hs & Hq & Hcs).
  assert (Hlt : cid < next_conn c) by (apply Hq; rewrite Hqc; by left).
  destruct (Hn cid Hlt) as [cn Hc]. rewrite Hc.
  destruct (handler_datapath _ []) as [r out] eqn:Hh.
  assert (Hb : batch (c_dp cn) = out) by (unfold batch; by rewrite Hh).
  assert (Hq1 : queued c cid = 1).
  { destruct (Hcs cid cn Hc) as (H1 & _). unfold queued in *. rewrite Hqc, queued_cons in *.
    rewrite decide_True in * by done. lia. }
  split_and!; simpl.
  - intros cid' Hge. rewrite lookup_insert_ne by lia. by apply Hk.
  - intros cid' Hlt'. rewrite lookup_insert. case_decide; [done | by apply Hn].
  - intros m [Hm | (fm & -> & _)%list_elem_of_fmap]%elem_of_app; [by apply Hs | done].
  - intros cid' Hin. apply Hq. rewrite Hqc. by right.
  - intros cid' cn'. rewrite lookup_insert. case_decide as Heq.
    + intros [= <-]. subst cid'. apply (conn_inv_ran c); [by apply Hcs | done | |].
      * unfold queued in *. simpl. rewrite Hqc, queued_cons, decide_True in Hq1 by done. lia.
      * unfold sent_to. simpl. rewrite filter_app, filter_pair, decide_True by done.
        by rewrite Hb.
    + intros Hc'. apply (conn_inv_frame c); [| | by apply Hcs].
      * unfold sent_to. simpl. rewrite filter_app, filter_pair, decide_False by done.
        apply app_nil_r.
      * unfold queued. simpl. rewrite Hqc, queued_cons, decide_False by done. lia.
Qed.

Lemma ctrl_inv_step c ev :
  ctrl_inv c -> answers_request c ev = true -> ctrl_inv (ctrl_step survives c ev).
Proof.
  intros Hinv Hans. destruct ev as [dp | cid h | cid | cid | cid |];
    [by apply ctrl_inv_connect | | | | | by apply ctrl_inv_app_run];
    simpl in *; destruct (conns c !! cid) as [cn|] eqn:Hc; try done;
    pose proof Hinv as (_ & _ & _ & _ & Hcs); pose proof (Hcs cid cn Hc) as Hcn.
  - case_bool_decide as Hst; [|done]. destruct (hello_negotiate _ h); [|done].
    destruct Hcn as (_ & H2 & _ & _ & _ & _ & H7). destruct (H2 Hst) as (Hr & Hq & Hp & _).
    apply (ctrl_inv_set_conn _ _ cn); [done | done |].
    rewrite Hr, Hp. apply conn_inv_await_features; [done|]. by rewrite H7; unfold expected; rewrite Hr.
  - apply bool_decide_eq_true in Hans. simpl in Hans. case_bool_decide; [|done].
    apply ctrl_inv_features; [done | done | congruence].
  - apply bool_decide_eq_true in Hans. simpl in Hans. case_bool_decide; [|done].
    destruct Hcn as (_ & _ & _ & H4 & _ & _ & H7). destruct (H4 ltac:(congruence)) as (_ & Hq & _).
    apply (ctrl_inv_set_conn _ _ cn); [done | done |]. by apply conn_inv_main.
  - apply (ctrl_inv_set_conn _ _ cn); [done | done |]. by apply conn_inv_dead.
Qed.

Lemma reachable_ctrl_inv Pdp c : reachable survives Pdp c -> ctrl_inv c.
Proof. induction 1; auto using ctrl_inv_init, ctrl_inv_connect, ctrl_inv_step. Qed.
End Invariant.

(** ** What the controller sends *)

(** On a datapath whose [ofproto] has no [port_no], a run of the handler
    sends nothing. *)
Lemma batch_missing dp : dp_ofproto_port_no dp = None -> batch dp = [].
Proof.
  intros Hm. unfold batch, handler_datapath. rewrite install_vpn_flow_unfold.
  by rewrite (emits_seq_pass _ _ _ (install_loop_missing dp _ 1 Hm) []).
Qed.

Section Reach.
Variable survives : bool.

(** A step keeps every connection's datapath, or adds a connection. *)
Lemma step_conn_dp c ev cid cn :
  conns (ctrl_step survives c ev) !! cid = Some cn ->
  (exists cn0, conns c !! cid = Some cn0 /\ c_dp cn0 = c_dp cn) \/ ev = EvConnect (c_dp cn).
Proof.
  intros Hc. destruct ev as [dp | cid' h | cid' | cid' | cid' |]; simpl in Hc.
  - rewrite lookup_insert in Hc. case_decide; [simplify_eq; by right | left; eauto].
  - left. destruct (conns c !! cid') as [cn'|] eqn:Hc'; [|eauto].
    case_bool_decide; [|eauto]. destruct (hello_negotiate _ h); [|eauto].
    simpl in Hc. rewrite lookup_insert in Hc. case_decide; simplify_eq; eauto.
  - left. destruct (conns c !! cid') as [cn'|] eqn:Hc'; [|eauto].
    case_bool_decide; [|eauto].
    simpl in Hc. rewrite lookup_insert in Hc. case_decide; simplify_eq; eauto.
  - left. destruct (conns c !! cid') as [cn'|] eqn:Hc'; [|eauto].
    case_bool_decide; [|eauto].
    simpl in Hc. rewrite lookup_insert in Hc. case_decide; simplify_eq; eauto.
  - left. destruct (conns c !! cid') as [cn'|] eqn:Hc'; [|eauto].
    simpl in Hc. rewrite lookup_insert in Hc. case_decide; simplify_eq; eauto.
  - left. unfold app_run in Hc. destruct (app_alive c), (app_queue c) as [|cid' q]; try eauto.
    destruct (conns c !! cid') as [cn'|] eqn:Hc'; [|eauto].
    destruct (handler_datapath _ []). simpl in Hc.
    rewrite lookup_insert in Hc. case_decide; simplify_eq; eauto.
Qed.

Lemma reachable_conn_dp Pdp c cid cn :
  reachable survives Pdp c -> conns c !! cid = Some cn -> Pdp (c_dp cn).
Proof.
  intros Hr. revert cid cn. induction Hr as [|c dp _ IH Hp|c ev _ IH Hne _]; intros cid cn Hc.
  - simpl in Hc. by rewrite lookup_empty in Hc.
  - destruct (step_conn_dp _ _ _ _ Hc) as [(cn0 & Hc0 & <-) | [= ->]]; [by apply (IH cid) | done].
  - destruct (step_conn_dp _ _ _ _ Hc) as [(cn0 & Hc0 & <-) | ->]; [by apply (IH cid) |].
    by destruct (Hne (c_dp cn)).
Qed.

(** A step sends nothing, or the batch of one connection. *)
Lemma sent_step c ev :
  sent (ctrl_step survives c ev) = sent c \/
  exists cid cn, conns c !! cid = Some cn /\
    sent (ctrl_step survives c ev) = sent c ++ (pair cid <$> batch (c_dp cn)).
Proof.
  destruct ev as [dp | cid h | cid | cid | cid |]; simpl; [by left| | | | |].
  - left. destruct (conns c !! cid); [|done]. case_bool_decide; [|done].
    by destruct (hello_negotiate _ h).
  - left. destruct (conns c !! cid); [|done]. by case_bool_decide.
  - left. destruct (conns c !! cid); [|done]. by case_bool_decide.
  - left. by destruct (conns c !! cid).
  - unfold app_run. destruct (app_alive c), (app_queue c) as [|cid q]; try (by left).
    destruct (conns c !! cid) as [cn|] eqn:Hc; [|by left].
    destruct (handler_datapath _ []) as [r out] eqn:Hh. right. exists cid, cn.
    split; [done|]. unfold batch. by rewrite Hh.
Qed.
End Reach.

(** The port numbers a datapath reports fit the 32-bit [port_no] field. *)
Definition ports_fit (dp : Datapath) : Prop :=
  forall ports, dp_ofproto_port_no dp = Some ports ->
  Forall (fun p => (0 <= port_no p < 2 ^ 32)%Z) ports.

Lemma batch_typed dp :
  ports_fit dp ->
  Forall (fun fm => (flow_mod_wire_ok fm = true /\ wire_roundtrips fm) /\ fm_command fm = OFPFC_ADD)
         (batch dp).
Proof.
  intros Hfit. destruct (dp_ofproto_port_no dp) as [ports|] eqn:Hp; [|by rewrite batch_missing].
  unfold batch, handler_datapath. cbn [ev_datapath].
  rewrite (install_vpn_flow_emits dp ports Hp value_pair []). cbn [snd app].
  apply Forall_and. split; [by apply provision_wire_ok, Hfit|].
  apply Forall_fmap, Forall_true. intros r. reflexivity.
Qed.

(** ** The invariants, for any interleaving of the switches *)

Section Claims.
Variable survives : bool.

(** C11. Per-switch isolation and at-most-once provisioning.  In every
    state Ryu can reach, whatever the interleaving of the switches' events
    and of the application's loop, the handler has run at most once per
    connection.  The messages sent on a connection are exactly the batch
    the handler computes from that connection's own datapath, after it
    ran, and nothing before. *)
Theorem reachable_sent_exactly_once Pdp c cid cn :
  reachable survives Pdp c -> conns c !! cid = Some cn ->
  c_runs cn <= 1 /\
  filter (fun m => m.1 = cid) (sent c) =
  match c_runs cn with 0 => [] | S _ => pair cid <$> batch (c_dp cn) end.
Proof.
  intros Hr Hc. destruct (reachable_ctrl_inv _ _ _ Hr) as (_ & _ & _ & _ & Hcs).
  destruct (Hcs cid cn Hc) as (H1 & _ & _ & _ & _ & _ & H7). split; [lia | exact H7].
Qed.

(** C12. Provisioning and the handshake.  A connection in
    [MAIN_DISPATCHER] has had its features event handled by the
    application once, or has it still waiting in the application's queue;
    exactly one of the two holds.  Its [datapath.ports] then holds the
    ports the switch reported.  A connection still in the handshake has
    not been provisioned and has nothing queued. *)
Theorem reachable_main_provisioned Pdp c cid cn :
  reachable survives Pdp c -> conns c !! cid = Some cn ->
  (c_state cn = MAIN_DISPATCHER ->
     c_runs cn + length (filter (fun x => x = cid) (app_queue c)) = 1 /\
     c_ports cn = Some (dp_ports (c_dp cn))) /\
  (c_state cn = HANDSHAKE_DISPATCHER ->
     c_runs cn = 0 /\ length (filter (fun x => x = cid) (app_queue c)) = 0).
Proof.
  intros Hr Hc. destruct (reachable_ctrl_inv _ _ _ Hr) as (_ & _ & _ & _ & Hcs).
  destruct (Hcs cid cn Hc) as (_ & H2 & _ & _ & H5 & _ & _).
  split; [exact H5 | intros Hst; by destruct (H2 Hst) as (? & ? & _)].
Qed.

(** C13. With Ryu's own datapaths, whose [ofproto] has no [port_no], no
    run of the controller ever sends a flow mod, whatever switches attach
    and in whatever order. *)
Theorem reachable_ryu_sends_nothing c :
  reachable survives (fun dp => dp_ofproto_port_no dp = None) c -> sent c = [].
Proof.
  induction 1 as [|c dp Hr IH Hp|c ev Hr IH Hne _]; [done | done |].
  destruct (sent_step survives c ev) as [-> | (cid & cn & Hc & ->)]; [done|].
  by rewrite IH, (batch_missing _ (reachable_conn_dp survives _ _ _ _ Hr Hc)).
Qed.

(** C21. Type invariant of the controller's output.  In every state Ryu
    reaches with switches whose port numbers fit 32 bits, every message
    sent is an [OFPFC_ADD] flow mod whose fields all fit their OpenFlow
    1.3 wire widths, and which a switch reads back from the bytes
    [send_msg] writes ([Wire.wire_roundtrips]). *)
Theorem reachable_sent_well_typed c :
  reachable survives ports_fit c ->
  Forall (fun m => (flow_mod_wire_ok m.2 = true /\ wire_roundtrips m.2) /\ fm_command m.2 = OFPFC_ADD)
         (sent c).
Proof.
  induction 1 as [|c dp Hr IH Hp|c ev Hr IH Hne _]; [constructor | done |].
  destruct (sent_step survives c ev) as [-> | (cid & cn & Hc & ->)]; [done|].
  apply Forall_app. split; [done|]. apply Forall_fmap.
  exact (batch_typed _ (reachable_conn_dp survives _ _ _ _ Hr Hc)).
Qed.
End Claims.

(** ** Runs *)

(** A run in which every switch that connects satisfies [Pdp] and every
    reply answers a request. *)
Fixpoint valid_run (survives : bool) (Pdp : Datapath -> Prop) (c : Ctrl) (evs : list event)
  : Prop :=
  match evs with
  | [] => True
  | ev :: evs' =>
      match ev with EvConnect dp => Pdp dp | _ => answers_request c ev = true end /\
      valid_run survives Pdp (ctrl_step survives c ev) evs'
  end.

Lemma reachable_run survives Pdp c evs :
  reachable survives Pdp c -> valid_run survives Pdp c evs ->
  reachable survives Pdp (ctrl_run survives c evs).
Proof.
  revert c. induction evs as [|ev evs IH]; intros c Hr Hv; [done|].
  destruct Hv as [Hev Hv]. apply IH; [|done]. destruct ev; [by apply reachable_connect | ..]; by apply reachable_other.
Qed.

(** The Hello of an OpenFlow 1.3 switch that sends no version bitmap. *)
Definition hello13 : OFPHello := mkOFPHello 0x04%Z None.

(** One switch attaching: connection, Hello, features reply, port
    description reply, and a turn of the application's loop. *)
Definition attach_events (dp : Datapath) : list event :=
  [EvConnect dp; EvHello 0 hello13; EvFeaturesReply 0; EvPortDescReply 0; EvAppRun].

Definition s1_datapath : Datapath := datapath_iterating_ports 1 (switch_ports MyTopo "s1").

Ltac solve_valid_run := vm_compute; repeat (split || eexists).

Lemma reachable_sent_exactly_once_witness :
  let c := ctrl_run true ctrl_init (attach_events s1_datapath) in
  reachable true (fun _ => True) c /\
  conns c !! 0%nat = Some (mkConn s1_datapath MAIN_DISPATCHER 1
                                  (Some (dp_ports s1_datapath)) None) /\
  (1 <= 1 /\ filter (fun m => m.1 = 0%nat) (sent c) = pair 0%nat <$> batch s1_datapath).
Proof.
  intros c.
  assert (Hr : reachable true (fun _ => True) c)
    by (apply reachable_run; [constructor | solve_valid_run]).
  assert (Hc : conns c !! 0%nat = Some (mkConn s1_datapath MAIN_DISPATCHER 1
                                          (Some (dp_ports s1_datapath)) None))
    by (vm_compute; reflexivity).
  split; [exact Hr | split; [exact Hc |]].
  exact (reachable_sent_exactly_once true _ _ 0 _ Hr Hc).
Defined.

Lemma reachable_main_provisioned_witness :
  let c := ctrl_run false ctrl_init (attach_events s1_datapath) in
  let cn := mkConn s1_datapath MAIN_DISPATCHER 1 (Some (dp_ports s1_datapath)) None in
  reachable false (fun _ => True) c /\ conns c !! 0%nat = Some cn /\
  ((c_state cn = MAIN_DISPATCHER ->
     c_runs cn + length (filter (fun x => x = 0%nat) (app_queue c)) = 1 /\
     c_ports cn = Some (dp_ports (c_dp cn))) /\
   (c_state cn = HANDSHAKE_DISPATCHER ->
     c_runs cn = 0 /\ length (filter (fun x => x = 0%nat) (app_queue c)) = 0)).
Proof.
  intros c cn.
  assert (Hr : reachable false (fun _ => True) c)
    by (apply reachable_run; [constructor | solve_valid_run]).
  assert (Hc : conns c !! 0%nat = Some cn) by (vm_compute; reflexivity).
  split; [exact Hr | split; [exact Hc |]].
  exact (reachable_main_provisioned false _ _ 0 _ Hr Hc).
Defined.

Lemma reachable_ryu_sends_nothing_witness :
  let c := ctrl_run false ctrl_init (attach_events (ryu_datapath 1 (switch_ports MyTopo "s1"))) in
  reachable false (fun dp => dp_ofproto_port_no dp = None) c /\ sent c = [].
Proof.
  intros c.
  assert (Hr : reachable false (fun dp => dp_ofproto_port_no dp = None) c)
    by (apply reachable_run; [constructor | solve_valid_run]).
  split; [exact Hr | exact (reachable_ryu_sends_nothing false _ Hr)].
Defined.

Lemma reachable_sent_well_typed_witness :
  let c := ctrl_run true ctrl_init (attach_events s1_datapath) in
  reachable true ports_fit c /\
  Forall (fun m => (flow_mod_wire_ok m.2 = true /\ wire_roundtrips m.2) /\ fm_command m.2 = OFPFC_ADD)
         (sent c).
Proof.
  intros c.
  assert (Hr : reachable true ports_fit c).
  { apply reachable_run; [constructor|]. split; [|solve_valid_run].
    intros ports [= <-]. apply (bool_decide_unpack _). vm_compute. exact I. }
  split; [exact Hr | exact (reachable_sent_well_typed true _ Hr)].
Defined.

