(* ===== verification/Packets.v ===== *)
(** * What the installed rules do to packets

    OpenFlow 1.3 switch behaviour (outside the repository), reduced to the
    fields the application's rules touch: a packet has an input port, a
    stack of VLAN tags (outermost first) and the Ethertype of its payload
    after the tags.

    - [flow_matches]: a match field that is set must equal the packet's;
      [vlan_vid] compares the outermost tag's VID (Ryu's [set_vlan_vid]
      sets the OFPVID_PRESENT bit, so an untagged packet never matches).
    - [apply_action]: push-VLAN puts a new outer tag with the given TPID,
      copying the VID of the previous outer tag or 0 when there is none;
      set-field on [vlan_vid] rewrites the outer tag's VID; an output
      emits a copy of the packet on a port ([step_action]).
    - [run_instructions]: Apply-Actions, then Write-Actions into the action
      set (one action per type), which runs at the end of the pipeline
      unless a Goto-Table sends the packet on; [drops]: no copy output and
      no further table.

    The theorems show what the spec's Q-in-Q scheme becomes: untagged host
    traffic is never matched by a tenant rule, and a tenant rule stacks a
    second 802.1Q tag instead of an 802.1ad service tag. *)

From S2P Require Import Prelude PyRuntime OpenFlow Config Installer Resolver Rules.
From S2P Require Import Dispatcher.

Local Open Scope Z_scope.

Record VlanTag := mkVlanTag { tpid : Z; vid : Z }.

Record Packet := mkPacket {
  pk_in_port : Z;
  pk_vlans : list VlanTag;
  pk_eth_type : Z;
}.

Definition field_matches (f : option Z) (x : Z) : bool :=
  match f with Some v => Z.eqb v x | None => true end.

Definition flow_matches (m : OFPMatch) (pk : Packet) : bool :=
  field_matches (m_in_port m) (pk_in_port pk) &&
  field_matches (m_dl_type m) (pk_eth_type pk) &&
  match m_vlan_vid m with
  | Some v => match pk_vlans pk with t :: _ => Z.eqb (vid t) v | [] => false end
  | None => true
  end.

Definition set_outer_vid (v : Z) (tags : list VlanTag) : list VlanTag :=
  match tags with
  | t :: tags' => mkVlanTag (tpid t) v :: tags'
  | [] => []
  end.

(** The VID a new outer tag copies: the current outer tag's, or 0. *)
Definition outer_vid (tags : list VlanTag) : Z :=
  match tags with t :: _ => vid t | [] => 0 end.

(** What an action does to the packet; an output leaves it unchanged. *)
Definition apply_action (pk : Packet) (a : OFPAction) : Packet :=
  match a with
  | OFPActionPushVlan ethertype =>
      mkPacket (pk_in_port pk) (mkVlanTag ethertype (outer_vid (pk_vlans pk)) :: pk_vlans pk)
               (pk_eth_type pk)
  | OFPActionSetField f =>
      match mf_header f with
      | OXM_OF_VLAN_VID =>
          mkPacket (pk_in_port pk) (set_outer_vid (mf_value f) (pk_vlans pk)) (pk_eth_type pk)
      | OXM_OF_IN_PORT => mkPacket (mf_value f) (pk_vlans pk) (pk_eth_type pk)
      | OXM_OF_ETH_TYPE => mkPacket (pk_in_port pk) (pk_vlans pk) (mf_value f)
      end
  | OFPActionOutput _ => pk
  end.

(** A packet in the pipeline: as modified so far, and the copies output
    so far with their ports, in order. *)
Definition pstate : Type := Packet * list (Z * Packet).

Definition step_action (st : pstate) (a : OFPAction) : pstate :=
  match a with
  | OFPActionOutput port => (st.1, st.2 ++ [(port, st.1)])
  | _ => (apply_action st.1 a, st.2)
  end.

(** *** The action set (OpenFlow 1.3, section 5.10)

    An action set holds at most one action of each type (one push-VLAN,
    one set-field per field, one output); writing an action replaces the
    one of its type.  When the pipeline ends the set runs in the specified
    order, push-VLAN, then set-field, then output, whatever the order of
    writing. *)

Inductive action_kind := KPush | KSetField (f : oxm_field) | KOutput.

#[export] Instance action_kind_eq_dec : EqDecision action_kind.
Proof. solve_decision. Defined.

Definition action_type (a : OFPAction) : action_kind :=
  match a with
  | OFPActionPushVlan _ => KPush
  | OFPActionSetField f => KSetField (mf_header f)
  | OFPActionOutput _ => KOutput
  end.

Definition write_action (aset : list OFPAction) (a : OFPAction) : list OFPAction :=
  filter (fun b => action_type b <> action_type a) aset ++ [a].

(** The rank of an action in the action set's execution order. *)
Definition action_rank (a : OFPAction) : nat :=
  match action_type a with KPush => 0 | KSetField _ => 1 | KOutput => 2 end.

Definition exec_action_set (st : pstate) (aset : list OFPAction) : pstate :=
  fold_left step_action (filter (fun a => action_rank a = 0%nat) aset ++
                         filter (fun a => action_rank a = 1%nat) aset ++
                         filter (fun a => action_rank a = 2%nat) aset) st.

(** The actions of the instructions of type [ty], in order. *)
Definition inst_actions_of (ty : ofp_instruction_type) (insts : list OFPInstruction)
  : list OFPAction :=
  mjoin ((fun i => match i with
                   | OFPInstructionActions t acts => if decide (t = ty) then acts else []
                   | OFPInstructionGotoTable _ => []
                   end) <$> insts).

(** The table a Goto-Table instruction sends the packet on to. *)
Definition goto_of (insts : list OFPInstruction) : option Z :=
  head (omap (fun i => match i with OFPInstructionGotoTable t => Some t | _ => None end) insts).

(** The instructions of a flow (section 5.9) run in the specified order,
    whatever their order in the message: Apply-Actions on the packet,
    Clear-Actions, then Write-Actions into the action set, then
    Goto-Table.  The action set starts empty, so Clear-Actions has nothing
    to clear.  Without a Goto-Table the pipeline ends and the action set
    runs; with one, the set goes on to the next table. *)
Definition run_instructions (insts : list OFPInstruction) (pk : Packet) : pstate :=
  let st := fold_left step_action (inst_actions_of OFPIT_APPLY_ACTIONS insts) (pk, []) in
  let aset := fold_left write_action (inst_actions_of OFPIT_WRITE_ACTIONS insts) [] in
  match goto_of insts with
  | Some _ => st
  | None => exec_action_set st aset
  end.

Definition exec_instructions (insts : list OFPInstruction) (pk : Packet) : Packet :=
  (run_instructions insts pk).1.

Definition apply_flow (fm : OFPFlowMod) (pk : Packet) : Packet :=
  exec_instructions (fm_instructions fm) pk.

(** The switch drops a packet a flow matched: the flow outputs no copy
    of it and sends it to no further table (section 5.10). *)
Definition drops (insts : list OFPInstruction) (pk : Packet) : Prop :=
  (run_instructions insts pk).2 = [] /\ goto_of insts = None.

(** A frame as a host sends it: no VLAN tag. *)
Definition untagged (pk : Packet) : Prop := pk_vlans pk = [].

(** ** The application's rules on packets *)

Lemma tenant_rule_untagged port vid pk :
  untagged pk -> flow_matches (rule_match (tenant_rule port vid)) pk = false.
Proof.
  destruct pk as [ip vl et]. unfold untagged, flow_matches. cbn -[andb]. intros ->.
  apply andb_false_r.
Qed.

(** A tenant rule matches only frames whose outer tag has its VID. *)
Lemma tenant_rule_match_outer port v pk :
  flow_matches (rule_match (tenant_rule port v)) pk = true ->
  exists t tags, pk_vlans pk = t :: tags /\ vid t = v.
Proof.
  destruct pk as [ip [|t tags] et]; unfold flow_matches; cbn -[andb];
    [by rewrite andb_false_r|simpl].
  intros (_ & Hv%Z.eqb_eq)%andb_true_iff. by exists t, tags.
Qed.

Lemma trunk_rule_apply port tid pk :
  untagged pk ->
  apply_flow (rule_flow_mod (trunk_rule port tid)) pk =
  mkPacket (pk_in_port pk) [mkVlanTag BRIDGE_TAG_802_1AD 0] (pk_eth_type pk).
Proof. unfold untagged. intros Hu. destruct pk; simpl in *. by subst. Qed.

(** Every rule the code builds drops the packets it matches: its
    instructions output nothing and go to no other table. *)
Lemma provision_flows_drop ports gs fm pk :
  fm ∈ rule_flow_mod <$> provision ports gs -> drops (fm_instructions fm) pk.
Proof.
  intros (r & -> & Hr)%list_elem_of_fmap. apply elem_of_provision in Hr as (g & p & _ & _ & ->).
  unfold drops, group_rule. destruct (kind g); split; reflexivity.
Qed.

(** C14. On any switch whose ports can be iterated, the only rules the
    application installs that match a frame as a host sends it (no VLAN
    tag) are trunk rules, and they give it a single 802.1ad tag with VID 0:
    untagged customer traffic never receives its tenant's VLAN id. *)
Theorem install_vpn_flow_untagged_traffic dp ports vp out pk fm :
  dp_ofproto_port_no dp = Some ports ->
  emits (install_vpn_flow vp dp) (Ok tt) out ->
  untagged pk -> fm ∈ out -> flow_matches (fm_match fm) pk = true ->
  apply_flow fm pk = mkPacket (pk_in_port pk) [mkVlanTag BRIDGE_TAG_802_1AD 0] (pk_eth_type pk).
Proof.
  intros Hp H Hu Hfm Hm.
  destruct (emits_functional _ _ _ _ _ H (install_vpn_flow_emits dp ports Hp vp)) as [_ ->].
  apply list_elem_of_fmap in Hfm as (r & -> & Hr).
  apply elem_of_provision in Hr as (g & p & _ & _ & ->).
  unfold group_rule in *. destruct (kind g).
  - change (fm_match (rule_flow_mod ?r)) with (rule_match r) in Hm.
    by rewrite tenant_rule_untagged in Hm.
  - by apply trunk_rule_apply.
Qed.

(** C15. A tenant rule matches only frames whose outer tag already
    carries the tenant's VID, and it pushes a second 802.1Q tag with the
    same VID on top of it: the result is 802.1Q in 802.1Q, never the
    802.1ad service tag over the tenant tag that the spec's Q-in-Q
    scheme describes. *)
Theorem tenant_rule_stacks_8021q port v pk :
  flow_matches (rule_match (tenant_rule port v)) pk = true ->
  exists t tags,
    pk_vlans pk = t :: tags /\ vid t = v /\
    apply_flow (rule_flow_mod (tenant_rule port v)) pk =
    mkPacket (pk_in_port pk) (mkVlanTag VLAN_TAG_802_1Q v :: t :: tags) (pk_eth_type pk).
Proof.
  intros (t & tags & Hvl & <-)%tenant_rule_match_outer. exists t, tags.
  destruct pk; simpl in *. by subst.
Qed.

Lemma tenant_rule_stacks_8021q_witness :
  let pk := mkPacket 1 [mkVlanTag VLAN_TAG_802_1Q 1] ETH_TYPE_IP in
  flow_matches (rule_match (tenant_rule 1 1)) pk = true /\
  exists t tags,
    pk_vlans pk = t :: tags /\ vid t = 1 /\
    apply_flow (rule_flow_mod (tenant_rule 1 1)) pk =
    mkPacket (pk_in_port pk) (mkVlanTag VLAN_TAG_802_1Q 1 :: t :: tags) (pk_eth_type pk).
Proof. intros pk. split; [reflexivity | apply tenant_rule_stacks_8021q; reflexivity]. Defined.

Lemma install_vpn_flow_untagged_traffic_witness :
  let pk := mkPacket 2 [] ETH_TYPE_IP in
  let fm := rule_flow_mod (trunk_rule 2 2) in
  dp_ofproto_port_no two_port_switch = Some (dp_ports two_port_switch) /\
  emits (install_vpn_flow [("trunk", ["s1-eth2"])] two_port_switch) (Ok tt) [fm] /\
  untagged pk /\ fm ∈ [fm] /\ flow_matches (fm_match fm) pk = true /\
  apply_flow fm pk = mkPacket (pk_in_port pk) [mkVlanTag BRIDGE_TAG_802_1AD 0] (pk_eth_type pk).
Proof.
  intros pk fm.
  assert (H : emits (install_vpn_flow [("trunk", ["s1-eth2"])] two_port_switch) (Ok tt) [fm])
    by apply (install_vpn_flow_emits two_port_switch _ eq_refl).
  split_and!; [reflexivity | exact H | reflexivity | by left | reflexivity |].
  apply (install_vpn_flow_untagged_traffic two_port_switch (dp_ports two_port_switch)
           [("trunk", ["s1-eth2"])] [fm]); [reflexivity | exact H | reflexivity | by left | reflexivity].
Defined.
