(* ===== verification/Requirements.v ===== *)
(** * The requirement pseudocode of src/vlan_proactive.py (lines 1-53)

    The module docstring states the requirement as pseudocode:
    - a table [value_pair] from customer keys and a trunk key to port
      labels (lines 14-19);
    - a loop over its keys (20-52).  For a key "like 'cust'" it adds a
      flow whose WRITE_ACTIONS push an 802.1ad tag and then an 802.1Q tag.
      For a key like 'trunk' it adds a flow whose APPLY_ACTIONS push an
      802.1ad tag.

    The two tests are two independent [if]s, not an [if]/[elif] chain.
    "like" is read as Python's substring test, the way the code tests its
    own keys.  The pseudocode leaves the match open ("(MATCH)"), so the
    model keeps, per key, the instructions of its flows.

    The theorems set the requirement beside OpenFlow 1.3 and the code:
    - an action set holds one push-VLAN, so the customer flow as written
      pushes a single 802.1Q tag;
    - on the packets the code's rules match, they act exactly as the
      requirement's flows do on an OpenFlow 1.3 switch;
    - no flow of either has an output action or a Goto-Table, so the
      switch drops what they match. *)

From S2P Require Import Prelude PyRuntime OpenFlow Config Installer Resolver Rules.
From S2P Require Import Dispatcher Packets.

Local Open Scope Z_scope.

(** Lines 14-19. *)
Definition req_value_pair : py_dict string (list string) :=
  [("cust1", ["s1-eth1"; "s1-eth2"; "s3-eth3"]);
   ("cust2", ["s2-eth1"; "s2-eth2"; "s1-eth3"]);
   ("cust3", ["s3-eth1"; "s3_eth2"; "s2-eth3"]);
   ("trunk", ["s1-eth4"; "s2-eth4"; "s3-eth4"])].

(** Lines 26-30: [push-VLAN] with the action list [[push 0x88a8, push 0x8100]]. *)
Definition req_cust_actions : list OFPAction :=
  [OFPActionPushVlan 0x88a8; OFPActionPushVlan 0x8100].

(** Lines 24-34: a WRITE_ACTIONS instruction, and no Clear-Actions or Goto-Table. *)
Definition req_cust_instructions : list OFPInstruction :=
  [OFPInstructionActions OFPIT_WRITE_ACTIONS req_cust_actions].

(** Lines 40-50: an APPLY_ACTIONS instruction pushing [0x88a8]. *)
Definition req_trunk_instructions : list OFPInstruction :=
  [OFPInstructionActions OFPIT_APPLY_ACTIONS [OFPActionPushVlan 0x88a8]].

(** The body of the loop for one key: the instructions of the flows it
    adds, one per test that holds. *)
Definition req_key_flows (key : string) : list (list OFPInstruction) :=
  (if py_contains "cust" key then [req_cust_instructions] else []) ++
  (if py_contains "trunk" key then [req_trunk_instructions] else []).

(** Lines 20-52: [loop until value_pair.end() |key|], in table order. *)
Definition req_loop (vp : py_dict string (list string))
  : list (string * list OFPInstruction) :=
  vp ≫= (fun '(key, _) => pair key <$> req_key_flows key).

(** ** The requirement on an OpenFlow 1.3 switch *)

(** C18. The customer flow of the requirement does not give Q-in-Q.  As
    written (WRITE_ACTIONS), its two push-VLAN actions go into one action
    set, which holds a single push-VLAN, so only the 802.1Q push remains
    and a frame leaves with one new tag.  Read as APPLY_ACTIONS in list
    order, the 802.1Q tag ends outside the 802.1ad tag.  In neither reading
    is the service tag the outer one. *)
Theorem req_cust_flow_not_qinq pk :
  exec_instructions req_cust_instructions pk =
    mkPacket (pk_in_port pk) (mkVlanTag 0x8100 (outer_vid (pk_vlans pk)) :: pk_vlans pk)
             (pk_eth_type pk) /\
  exec_instructions [OFPInstructionActions OFPIT_APPLY_ACTIONS req_cust_actions] pk =
    mkPacket (pk_in_port pk)
             (mkVlanTag 0x8100 (outer_vid (pk_vlans pk)) ::
              mkVlanTag 0x88a8 (outer_vid (pk_vlans pk)) :: pk_vlans pk)
             (pk_eth_type pk).
Proof. split; reflexivity. Qed.

(** C19. On the frames the code's rules match, the code does what an
    OpenFlow 1.3 switch makes of the requirement.  A tenant rule (APPLY:
    push 802.1Q, set its VID) gives the same packet as the requirement's
    customer flow, since the new tag copies the outer VID, which the match
    fixed.  A trunk rule gives the same packet as the requirement's trunk
    flow on every frame. *)
Theorem code_rules_implement_requirement port v tid pk :
  (flow_matches (rule_match (tenant_rule port v)) pk = true ->
   apply_flow (rule_flow_mod (tenant_rule port v)) pk = exec_instructions req_cust_instructions pk) /\
  apply_flow (rule_flow_mod (trunk_rule port tid)) pk = exec_instructions req_trunk_instructions pk.
Proof.
  split; [|reflexivity].
  intros (t & tags & Hvl & <-)%tenant_rule_match_outer.
  destruct pk as [ip vl et]; simpl in Hvl; subst vl. reflexivity.
Qed.

Lemma code_rules_implement_requirement_witness :
  let pk := mkPacket 1 [mkVlanTag VLAN_TAG_802_1Q 1] ETH_TYPE_IP in
  flow_matches (rule_match (tenant_rule 1 1)) pk = true /\
  ((flow_matches (rule_match (tenant_rule 1 1)) pk = true ->
    apply_flow (rule_flow_mod (tenant_rule 1 1)) pk = exec_instructions req_cust_instructions pk) /\
   apply_flow (rule_flow_mod (trunk_rule 1 2)) pk = exec_instructions req_trunk_instructions pk).
Proof. intros pk. split; [reflexivity | exact (code_rules_implement_requirement 1 1 2 pk)]. Defined.

(** ** Where the packets go *)

(** C23. No flow of the code or of the requirement forwards a packet.
    Every flow [install_vpn_flow] sends has actions that only push and
    set VLAN tags: no output action, and no Goto-Table instruction.  So
    an OpenFlow 1.3 switch drops every packet it matches, once tagged.
    The requirement's flows exclude Goto-Table explicitly ("-(GOTO_ACTION)")
    and list no output either.  At priority 0xff, the rules black-hole the
    IPv4 traffic of every port they match on. *)
Theorem flows_drop_matched_packets dp ports vp out fm pk :
  dp_ofproto_port_no dp = Some ports ->
  emits (install_vpn_flow vp dp) (Ok tt) out -> fm ∈ out ->
  drops (fm_instructions fm) pk /\ drops req_cust_instructions pk /\
  drops req_trunk_instructions pk.
Proof.
  intros Hp H Hfm.
  destruct (emits_functional _ _ _ _ _ H (install_vpn_flow_emits dp ports Hp vp)) as [_ ->] in Hfm.
  split; [by eapply provision_flows_drop|]. unfold drops. split_and!; reflexivity.
Qed.

Lemma flows_drop_matched_packets_witness :
  let fm := rule_flow_mod (trunk_rule 2 2) in
  let pk := mkPacket 2 [] ETH_TYPE_IP in
  dp_ofproto_port_no two_port_switch = Some (dp_ports two_port_switch) /\
  emits (install_vpn_flow [("trunk", ["s1-eth2"])] two_port_switch) (Ok tt) [fm] /\ fm ∈ [fm] /\
  (drops (fm_instructions fm) pk /\ drops req_cust_instructions pk /\
   drops req_trunk_instructions pk).
Proof.
  intros fm pk.
  assert (H : emits (install_vpn_flow [("trunk", ["s1-eth2"])] two_port_switch) (Ok tt) [fm])
    by apply (install_vpn_flow_emits two_port_switch _ eq_refl).
  assert (Hin : fm ∈ [fm]) by (by left).
  refine (conj eq_refl (conj H (conj Hin _))).
  exact (flows_drop_matched_packets two_port_switch _ _ [fm] fm pk eq_refl H Hin).
Defined.
