(* ===== verification/Liveness.v ===== *)
(** * Liveness of provisioning, and the race of line 149

    Built on the controller model of [Controller]:
    - [hello_negotiate_of13]: with [OFP_VERSIONS = [1.3]], Ryu's hello
      handler elects 1.3 exactly for a switch that offers it.
    - Frames: events of other connections leave a connection's stage
      alone ([step_stage]), and leave it untouched when none of its
      events is queued ([step_untouched]).
    - [drain]: turns of the application's loop, as many as its queue is
      long, empty the queue when the loop is alive.  On switches whose
      ports can be iterated the handler never raises, so the loop stays
      alive ([reachable_alive]).  [app_queue_drains]: after them every
      connection in [MAIN_DISPATCHER] has been provisioned.
    - [attach_eventually_provisioned]: a switch that offers 1.3 and
      answers Ryu's requests is provisioned once with its own batch after
      the loop catches up, whatever other switches do meanwhile.
    - [hello_failed_never_provisioned]: a switch that never offers 1.3 is
      never provisioned.
    - [line149_race]: the commented-out line 149 iterates
      [datapath.ports].  It finds the switch's ports only if the
      application's loop takes the features event after Ryu has handled
      the port description reply; before that, [datapath.ports] is
      empty. *)

From stdpp Require Import gmap.
From S2P Require Import Prelude PyRuntime OpenFlow Config Installer Resolver Rules.
From S2P Require Import Dispatcher Topology Controller.

(** ** Which switches get past the Hello *)

(** The switch offers OpenFlow 1.3: in its bitmap, or, without one, by a
    header version not below it. *)
Definition speaks_of13 (h : OFPHello) : bool :=
  match hello_elements h with
  | Some vs => bool_decide (ofproto_v1_3_OFP_VERSION ∈ vs)
  | None => bool_decide (ofproto_v1_3_OFP_VERSION <= hello_version h)%Z
  end.

Lemma max_version_const x l :
  Forall (fun v => v = x) l -> max_version l = match l with [] => None | _ => Some x end.
Proof.
  induction 1 as [|v l -> Hl IH]; [done|]. simpl. rewrite IH.
  destruct l; [done|]. f_equal. lia.
Qed.

Lemma filter_const_nil x (l : list Z) :
  filter (fun v => v ∈ [x]) l = [] <-> x ∉ l.
Proof.
  induction l as [|v l IH]; [split; [intros _; apply not_elem_of_nil | done]|].
  rewrite filter_cons. case_decide as Hv; rewrite elem_of_cons.
  - apply list_elem_of_singleton in Hv as ->. split; [done|]. intros Hn. by destruct Hn; left.
  - rewrite IH. rewrite list_elem_of_singleton in Hv. split; [intros Hn [->|?]; auto|]. auto.
Qed.

(** With [OFP_VERSIONS = [OFP_VERSION of 1.3]] the hello handler elects
    1.3 exactly for the switches that offer it, and fails the others. *)
Lemma hello_negotiate_of13 h :
  hello_negotiate (supported_ofp_version loaded_apps) h =
  if speaks_of13 h then Some ofproto_v1_3_OFP_VERSION else None.
Proof.
  change (supported_ofp_version loaded_apps) with [ofproto_v1_3_OFP_VERSION].
  unfold hello_negotiate, speaks_of13. destruct (hello_elements h) as [vs|].
  - rewrite (max_version_const ofproto_v1_3_OFP_VERSION);
      [|apply Forall_forall; by intros v (?%list_elem_of_singleton & _)%list_elem_of_filter].
    case_bool_decide as Hin.
    + destruct (filter _ vs) eqn:Hf; [|done]. by apply filter_const_nil in Hf.
    + by rewrite (proj2 (filter_const_nil _ _) Hin).
  - rewrite filter_cons, filter_nil. case_decide; case_bool_decide; done || lia.
Qed.

(** ** Frames *)

Definition ev_conn (ev : event) : option nat :=
  match ev with
  | EvConnect _ | EvAppRun => None
  | EvHello cid _ | EvFeaturesReply cid | EvPortDescReply cid | EvDisconnect cid => Some cid
  end.

(** The handshake stage of a connection: all of it but the handler's runs. *)
Definition stage (cn : Conn) : Datapath * dispatcher * option (list OFPPort) * option ryu_request :=
  (c_dp cn, c_state cn, c_ports cn, c_pending cn).

Definition has_ports (dp : Datapath) : Prop := is_Some (dp_ofproto_port_no dp).

Section Frame.
Variable survives : bool.

(** An event of another connection, or a turn of the application's loop,
    keeps the stage of connection [cid]. *)
Lemma step_stage c ev cid :
  cid < next_conn c -> ev_conn ev <> Some cid ->
  stage <$> (conns (ctrl_step survives c ev) !! cid) = stage <$> (conns c !! cid) /\
  cid < next_conn (ctrl_step survives c ev).
Proof.
  intros Hlt Hne. destruct ev as [dp | cid' h | cid' | cid' | cid' |]; simpl in *.
  - rewrite lookup_insert_ne by lia. split; [done | lia].
  - destruct (conns c !! cid'); [|done]. case_bool_decide; [|done].
    destruct (hello_negotiate _ h); [|done]. simpl. rewrite lookup_insert_ne by congruence. done.
  - destruct (conns c !! cid'); [|done]. case_bool_decide; [|done].
    simpl. rewrite lookup_insert_ne by congruence. done.
  - destruct (conns c !! cid'); [|done]. case_bool_decide; [|done].
    simpl. rewrite lookup_insert_ne by congruence. done.
  - destruct (conns c !! cid'); [|done]. simpl. rewrite lookup_insert_ne by congruence. done.
  - unfold app_run. destruct (app_alive c); [|done]. destruct (app_queue c) as [|cid' q]; [done|].
    destruct (conns c !! cid') as [cn'|] eqn:Hc'; [|done].
    destruct (handler_datapath _ []). simpl. split; [|done].
    rewrite lookup_insert. case_decide; [subst; by rewrite Hc' | done].
Qed.

(** When none of [cid]'s events is queued, an event of another
    connection leaves [cid] untouched. *)
Lemma step_untouched c ev cid :
  cid < next_conn c -> ev_conn ev <> Some cid -> cid ∉ app_queue c ->
  conns (ctrl_step survives c ev) !! cid = conns c !! cid /\
  sent_to (ctrl_step survives c ev) cid = sent_to c cid /\
  (cid ∉ app_queue (ctrl_step survives c ev)) /\ cid < next_conn (ctrl_step survives c ev).
Proof.
  intros Hlt Hne Hq. destruct ev as [dp | cid' h | cid' | cid' | cid' |]; simpl in *.
  - rewrite lookup_insert_ne by lia. split_and!; [done | done | done | lia].
  - destruct (conns c !! cid'); [|done]. case_bool_decide; [|done].
    destruct (hello_negotiate _ h); [|done]. simpl. by rewrite lookup_insert_ne by congruence.
  - destruct (conns c !! cid'); [|done]. case_bool_decide; [|done].
    simpl. rewrite lookup_insert_ne by congruence. split_and!; [done | done | | done].
    intros [Hin | ->%list_elem_of_singleton]%elem_of_app; [done | congruence].
  - destruct (conns c !! cid'); [|done]. case_bool_decide; [|done].
    simpl. by rewrite lookup_insert_ne by congruence.
  - destruct (conns c !! cid'); [|done]. simpl. by rewrite lookup_insert_ne by congruence.
  - unfold app_run. destruct (app_alive c); [|done].
    destruct (app_queue c) as [|cid' q] eqn:Hqc; [rewrite Hqc; done|].
    assert (cid' <> cid) by (intros ->; apply Hq; by left).
    destruct (conns c !! cid') as [cn'|] eqn:Hc';
      [|simpl; split_and!; try done; intros Hin; apply Hq; by right].
    destruct (handler_datapath _ []). simpl. rewrite lookup_insert_ne by done.
    unfold sent_to. simpl. rewrite filter_app, filter_pair, decide_False by done.
    rewrite app_nil_r. split_and!; [done | done | | done]. intros Hin. apply Hq. by right.
Qed.
End Frame.

Definition other_event (cid : nat) (ev : event) : Prop := ev_conn ev <> Some cid.

Section Progress.
Variable survives : bool.

Lemma run_stage c evs cid :
  cid < next_conn c -> Forall (other_event cid) evs ->
  stage <$> (conns (ctrl_run survives c evs) !! cid) = stage <$> (conns c !! cid).
Proof.
  intros Hlt Hevs. revert c Hlt. induction Hevs as [|ev evs Hev _ IH]; intros c Hlt; [done|].
  destruct (step_stage survives c ev cid Hlt Hev) as [Hs Hlt'].
  change (ctrl_run survives c (ev :: evs)) with (ctrl_run survives (ctrl_step survives c ev) evs).
  by rewrite IH, Hs.
Qed.

Lemma valid_run_app Pdp c evs1 evs2 :
  valid_run survives Pdp c (evs1 ++ evs2) <->
  valid_run survives Pdp c evs1 /\ valid_run survives Pdp (ctrl_run survives c evs1) evs2.
Proof.
  revert c. induction evs1 as [|ev evs1 IH]; intros c; simpl; [tauto|].
  rewrite IH. tauto.
Qed.

(** The three replies of connection [cid]'s handshake, on its stage. *)
Lemma hello_stage c cid dp ports h :
  stage <$> (conns c !! cid) = Some (dp, HANDSHAKE_DISPATCHER, ports, None) ->
  speaks_of13 h = true ->
  stage <$> (conns (ctrl_step survives c (EvHello cid h)) !! cid) =
    Some (dp, CONFIG_DISPATCHER, ports, Some FeaturesRequest).
Proof.
  intros Hs Hh. destruct (conns c !! cid) as [[dp' st ? ports' p]|] eqn:Hc; [|done].
  injection Hs as -> -> -> ->. simpl. rewrite Hc. simpl.
  rewrite hello_negotiate_of13, Hh. simpl. by rewrite lookup_insert_eq.
Qed.

Lemma features_stage c cid dp ports p :
  stage <$> (conns c !! cid) = Some (dp, CONFIG_DISPATCHER, ports, p) ->
  stage <$> (conns (ctrl_step survives c (EvFeaturesReply cid)) !! cid) =
    Some (dp, CONFIG_DISPATCHER, Some [], Some PortDescRequest).
Proof.
  intros Hs. destruct (conns c !! cid) as [[dp' st ? ports' p']|] eqn:Hc; [|done].
  injection Hs as -> -> -> ->. simpl. rewrite Hc. simpl. by rewrite lookup_insert_eq.
Qed.

Lemma port_desc_stage c cid dp ports p :
  stage <$> (conns c !! cid) = Some (dp, CONFIG_DISPATCHER, ports, p) ->
  stage <$> (conns (ctrl_step survives c (EvPortDescReply cid)) !! cid) =
    Some (dp, MAIN_DISPATCHER, Some (dp_ports dp), None).
Proof.
  intros Hs. destruct (conns c !! cid) as [[dp' st ? ports' p']|] eqn:Hc; [|done].
  injection Hs as -> -> -> ->. simpl. rewrite Hc. simpl. by rewrite lookup_insert_eq.
Qed.

Lemma stage_below Pdp c cid s :
  reachable survives Pdp c -> stage <$> (conns c !! cid) = Some s -> cid < next_conn c.
Proof.
  intros Hr Hs. destruct (conns c !! cid) eqn:Hc; [|done].
  exact (lookup_below _ _ _ (reachable_ctrl_inv _ _ _ Hr) Hc).
Qed.

Lemma outcome_ok dp : has_ports dp -> outcome dp = Ok tt.
Proof.
  intros [ports Hp]. unfold outcome, handler_datapath. cbn [ev_datapath].
  by rewrite (install_vpn_flow_emits dp ports Hp value_pair []).
Qed.

(** On switches whose ports can be iterated the handler never raises, so
    the application's event loop stays alive. *)
Lemma reachable_alive c : reachable survives has_ports c -> app_alive c = true.
Proof.
  induction 1 as [|c dp Hr IH Hp|c ev Hr IH Hne _]; [done | done |].
  destruct ev as [dp | cid h | cid | cid | cid |]; simpl; [by destruct (Hne dp) | | | | |].
  - destruct (conns c !! cid); [|done]. case_bool_decide; [|done].
    by destruct (hello_negotiate _ h).
  - destruct (conns c !! cid); [|done]. by case_bool_decide.
  - destruct (conns c !! cid); [|done]. by case_bool_decide.
  - by destruct (conns c !! cid).
  - unfold app_run. rewrite IH. destruct (app_queue c) as [|cid q]; [done|].
    destruct (conns c !! cid) as [cn|] eqn:Hc; [|done].
    pose proof (outcome_ok _ (reachable_conn_dp survives _ _ _ _ Hr Hc)) as Ho. unfold outcome in Ho.
    destruct (handler_datapath _ []) as [r out]; simpl in *; by subst.
Qed.

Lemma app_run_pop c cid q :
  ctrl_inv c -> app_alive c = true -> app_queue c = cid :: q -> app_queue (app_run survives c) = q.
Proof.
  intros (_ & Hn & _ & Hq & _) Ha Hqc. unfold app_run. rewrite Ha, Hqc.
  assert (Hlt : cid < next_conn c) by (apply Hq; rewrite Hqc; by left).
  destruct (Hn cid Hlt) as [cn ->]. by destruct (handler_datapath _ []).
Qed.

(** As many turns of the application's loop as its queue is long empty
    the queue. *)
Lemma drain c :
  reachable survives has_ports c ->
  reachable survives has_ports (ctrl_run survives c (replicate (length (app_queue c)) EvAppRun)) /\
  app_queue (ctrl_run survives c (replicate (length (app_queue c)) EvAppRun)) = [].
Proof.
  remember (length (app_queue c)) as n eqn:Hn. revert c Hn.
  induction n as [|n IH]; intros c Hn Hr.
  - split; [done|]. cbn [replicate]. change (ctrl_run survives c []) with c.
    destruct (app_queue c); [done | discriminate].
  - destruct (app_queue c) as [|cid q] eqn:Hqc; [discriminate|].
    assert (Hr' : reachable survives has_ports (ctrl_step survives c EvAppRun))
      by (apply reachable_other; [done | by intros ? | done]).
    change (ctrl_run survives c (replicate (S n) EvAppRun))
      with (ctrl_run survives (ctrl_step survives c EvAppRun) (replicate n EvAppRun)).
    apply IH; [|done]. simpl.
    rewrite (app_run_pop c cid q); [simpl in Hn; lia | | by apply reachable_alive | done].
    exact (reachable_ctrl_inv _ _ _ Hr).
Qed.
End Progress.

Lemma ctrl_run_app survives c evs1 evs2 :
  ctrl_run survives c (evs1 ++ evs2) = ctrl_run survives (ctrl_run survives c evs1) evs2.
Proof. apply fold_left_app. Qed.

Section Liveness.
Variable survives : bool.

(** Through a valid run of its three replies, interleaved with other
    connections' events, a connection in the handshake reaches
    [MAIN_DISPATCHER] with the switch's ports. *)
Lemma handshake_stage c cid dp h evs1 evs2 evs3 :
  reachable survives has_ports c ->
  stage <$> (conns c !! cid) = Some (dp, HANDSHAKE_DISPATCHER, None, None) ->
  speaks_of13 h = true -> Forall (other_event cid) (evs1 ++ evs2 ++ evs3) ->
  valid_run survives has_ports c
    (EvHello cid h :: evs1 ++ EvFeaturesReply cid :: evs2 ++ EvPortDescReply cid :: evs3) ->
  stage <$> (conns (ctrl_run survives c
    (EvHello cid h :: evs1 ++ EvFeaturesReply cid :: evs2 ++ EvPortDescReply cid :: evs3)) !! cid) =
    Some (dp, MAIN_DISPATCHER, Some (dp_ports dp), None).
Proof.
  intros Hr Hs0 Hh (Hevs1 & (Hevs2 & Hevs3)%Forall_app)%Forall_app [Hans1 Hv].
  set (c1 := ctrl_step survives c (EvHello cid h)).
  assert (Hr1 : reachable survives has_ports c1) by (apply reachable_other; [done | by intros ? | done]).
  pose proof (hello_stage survives _ _ _ _ _ Hs0 Hh) as Hs1. fold c1 in Hs1.
  apply valid_run_app in Hv as [Hv1 [Hans2 Hv]].
  set (c2 := ctrl_run survives c1 evs1).
  assert (Hr2 : reachable survives has_ports c2) by (by apply reachable_run).
  assert (Hs2 := run_stage survives c1 evs1 cid (stage_below survives _ _ _ _ Hr1 Hs1) Hevs1).
  fold c2 in Hs2. rewrite Hs1 in Hs2.
  set (c3 := ctrl_step survives c2 (EvFeaturesReply cid)).
  assert (Hr3 : reachable survives has_ports c3) by (apply reachable_other; [done | by intros ? | done]).
  pose proof (features_stage survives _ _ _ _ _ Hs2) as Hs3. fold c3 in Hs3.
  apply valid_run_app in Hv as [Hv3 [Hans4 Hv]].
  set (c4 := ctrl_run survives c3 evs2).
  assert (Hr4 : reachable survives has_ports c4) by (by apply reachable_run).
  assert (Hs4 := run_stage survives c3 evs2 cid (stage_below survives _ _ _ _ Hr3 Hs3) Hevs2).
  fold c4 in Hs4. rewrite Hs3 in Hs4.
  set (c5 := ctrl_step survives c4 (EvPortDescReply cid)).
  assert (Hr5 : reachable survives has_ports c5) by (apply reachable_other; [done | by intros ? | done]).
  pose proof (port_desc_stage survives _ _ _ _ _ Hs4) as Hs5. fold c5 in Hs5.
  change (ctrl_run survives c (EvHello cid h :: evs1 ++ EvFeaturesReply cid :: evs2 ++
                              EvPortDescReply cid :: evs3))
    with (ctrl_run survives c1 (evs1 ++ EvFeaturesReply cid :: evs2 ++ EvPortDescReply cid :: evs3)).
  rewrite ctrl_run_app. change (ctrl_run survives c1 evs1) with c2.
  change (ctrl_run survives c2 (EvFeaturesReply cid :: evs2 ++ EvPortDescReply cid :: evs3))
    with (ctrl_run survives c3 (evs2 ++ EvPortDescReply cid :: evs3)).
  rewrite ctrl_run_app. change (ctrl_run survives c3 evs2) with c4.
  change (ctrl_run survives c4 (EvPortDescReply cid :: evs3)) with (ctrl_run survives c5 evs3).
  by rewrite (run_stage survives c5 evs3 cid (stage_below survives _ _ _ _ Hr5 Hs5) Hevs3).
Qed.

(** C16. Liveness of provisioning.  Take any state Ryu reaches with
    switches whose ports can be iterated, and a connection in the
    handshake.  Suppose its Hello offers OpenFlow 1.3 and it answers the
    features and port description requests, while other connections'
    events and turns of the application's loop interleave as they may.
    Once the application's loop has taken every queued event, the
    connection is in [MAIN_DISPATCHER], provisioned once, and has been
    sent exactly its own batch. *)
Theorem attach_eventually_provisioned c cid cn h evs1 evs2 evs3 :
  reachable survives has_ports c -> conns c !! cid = Some cn ->
  c_state cn = HANDSHAKE_DISPATCHER -> speaks_of13 h = true ->
  Forall (other_event cid) (evs1 ++ evs2 ++ evs3) ->
  valid_run survives has_ports c
    (EvHello cid h :: evs1 ++ EvFeaturesReply cid :: evs2 ++ EvPortDescReply cid :: evs3) ->
  let c' := ctrl_run survives c
    (EvHello cid h :: evs1 ++ EvFeaturesReply cid :: evs2 ++ EvPortDescReply cid :: evs3) in
  let c'' := ctrl_run survives c' (replicate (length (app_queue c')) EvAppRun) in
  conns c'' !! cid = Some (mkConn (c_dp cn) MAIN_DISPATCHER 1 (Some (dp_ports (c_dp cn))) None) /\
  sent_to c'' cid = pair cid <$> batch (c_dp cn).
Proof.
  intros Hr Hc Hst Hh Hevs Hv c' c''.
  destruct (reachable_ctrl_inv _ _ _ Hr) as (_ & _ & _ & _ & Hcs).
  destruct (Hcs cid cn Hc) as (_ & H2 & _). destruct (H2 Hst) as (_ & _ & Hp & Hpend).
  assert (Hs0 : stage <$> (conns c !! cid) = Some (c_dp cn, HANDSHAKE_DISPATCHER, None, None))
    by (rewrite Hc; unfold stage; simpl; by rewrite Hst, Hp, Hpend).
  pose proof (handshake_stage _ _ _ _ _ _ _ Hr Hs0 Hh Hevs Hv) as Hs'. fold c' in Hs'.
  assert (Hr' : reachable survives has_ports c') by (by apply reachable_run).
  destruct (drain survives c' Hr') as [Hr'' Hq'']. fold c'' in Hr'', Hq''.
  assert (Hs'' : stage <$> (conns c'' !! cid) = Some (c_dp cn, MAIN_DISPATCHER, Some (dp_ports (c_dp cn)), None)).
  { rewrite <- Hs'. apply run_stage; [exact (stage_below survives _ _ _ _ Hr' Hs')|].
    apply Forall_replicate. discriminate. }
  destruct (conns c'' !! cid) as [[dp st runs ports pend]|] eqn:Hc''; [|done].
  injection Hs'' as -> -> -> ->.
  destruct (reachable_ctrl_inv _ _ _ Hr'') as (_ & _ & _ & _ & Hcs'').
  destruct (Hcs'' cid _ Hc'') as (_ & _ & _ & _ & H5 & _ & H7). simpl in H5, H7.
  destruct (H5 eq_refl) as [Hrun _]. unfold queued in Hrun. rewrite Hq'' in Hrun. simpl in Hrun.
  assert (runs = 1) as -> by lia. split; [done|]. exact H7.
Qed.

(** A connection that cannot leave the handshake: in the handshake or
    closed, never provisioned, none of its events queued, nothing sent
    to it. *)
Definition stuck (c : Ctrl) (cid : nat) : Prop :=
  exists cn, conns c !! cid = Some cn /\
    (c_state cn = HANDSHAKE_DISPATCHER \/ c_state cn = DEAD_DISPATCHER) /\
    c_runs cn = 0 /\ (cid ∉ app_queue c) /\ sent_to c cid = [] /\ cid < next_conn c.

Lemma stuck_step c cid ev :
  stuck c cid -> (forall h, ev = EvHello cid h -> speaks_of13 h = false) ->
  stuck (ctrl_step survives c ev) cid.
Proof.
  intros (cn & Hc & Hst & Hrun & Hq & Hs & Hlt) Hh.
  destruct (decide (ev_conn ev = Some cid)) as [He|Hne].
  - destruct ev as [dp | cid' h | cid' | cid' | cid' |]; simpl in He; simplify_eq; simpl; rewrite Hc.
    + case_bool_decide; [rewrite hello_negotiate_of13, (Hh h eq_refl)|]; by exists cn.
    + rewrite bool_decide_eq_false_2 by (destruct Hst; congruence). by exists cn.
    + rewrite bool_decide_eq_false_2 by (destruct Hst; congruence). by exists cn.
    + exists (mkConn (c_dp cn) DEAD_DISPATCHER (c_runs cn) (c_ports cn) None). simpl.
      rewrite lookup_insert_eq. split_and!; auto.
  - destruct (step_untouched survives c ev cid Hlt Hne Hq) as (Hl & Hs' & Hq' & Hlt').
    exists cn. by rewrite Hl, Hs'.
Qed.

(** C17. Error path of [OFP_VERSIONS = [ofproto_v1_3.OFP_VERSION]]
    (line 73).  Take a connection in the handshake whose Hellos never
    offer OpenFlow 1.3 (an OpenFlow 1.0 switch, say).  Ryu fails every
    such Hello, so the connection never reaches [CONFIG_DISPATCHER].  Its
    replies are ignored, the handler never runs for it, and no flow mod
    is ever sent to it, whatever events follow, valid or not. *)
Theorem hello_failed_never_provisioned Pdp c cid cn evs :
  reachable survives Pdp c -> conns c !! cid = Some cn -> c_state cn = HANDSHAKE_DISPATCHER ->
  Forall (fun ev => forall h, ev = EvHello cid h -> speaks_of13 h = false) evs ->
  exists cn', conns (ctrl_run survives c evs) !! cid = Some cn' /\
    (c_state cn' = HANDSHAKE_DISPATCHER \/ c_state cn' = DEAD_DISPATCHER) /\
    c_runs cn' = 0 /\ sent_to (ctrl_run survives c evs) cid = [].
Proof.
  intros Hr Hc Hst Hevs.
  assert (Hstuck : stuck c cid).
  { exists cn. pose proof (reachable_ctrl_inv _ _ _ Hr) as Hinv.
    destruct Hinv as (_ & _ & _ & _ & Hcs).
    destruct (Hcs cid cn Hc) as (_ & H2 & _ & _ & _ & _ & H7).
    destruct (H2 Hst) as (Hrun & Hq & _). rewrite H7. unfold expected. rewrite Hrun.
    split_and!; auto; [| exact (lookup_below _ _ _ (reachable_ctrl_inv _ _ _ Hr) Hc)].
    intros Hin. unfold queued in Hq. apply length_zero_iff_nil in Hq.
    apply (filter_nil_not_elem_of _ _ cid Hq); done. }
  clear Hr Hc Hst. revert c Hstuck.
  induction Hevs as [|ev evs Hev _ IH]; intros c Hstuck.
  - destruct Hstuck as (cn' & ? & ? & ? & _ & ? & _). by exists cn'.
  - apply (IH (ctrl_step survives c ev)). by apply stuck_step.
Qed.
End Liveness.

(** ** The application's loop terminates its work *)

Section Drain.
Variable survives : bool.

(** C24. Termination of the application's event loop.  From any state
    Ryu reaches with switches whose ports can be iterated, as many turns
    of the loop as its queue is long process every queued features event:
    the queue is empty and the handler has not raised, so the loop is
    still alive.  Every connection that reached [MAIN_DISPATCHER] has then
    been provisioned exactly once. *)
Theorem app_queue_drains c :
  reachable survives has_ports c ->
  let c' := ctrl_run survives c (replicate (length (app_queue c)) EvAppRun) in
  app_queue c' = [] /\ app_alive c' = true /\
  forall cid cn, conns c' !! cid = Some cn -> c_state cn = MAIN_DISPATCHER -> c_runs cn = 1.
Proof.
  intros Hr c'. destruct (drain survives c Hr) as [Hr' Hq']. fold c' in Hr', Hq'.
  split_and!; [done | by apply (reachable_alive survives) |].
  intros cid cn Hc Hst. destruct (reachable_ctrl_inv _ _ _ Hr') as (_ & _ & _ & _ & Hcs).
  destruct (Hcs cid cn Hc) as (_ & _ & _ & _ & H5 & _). destruct (H5 Hst) as [Hrun _].
  unfold queued in Hrun. rewrite Hq' in Hrun. simpl in Hrun. lia.
Qed.
End Drain.

(** ** The commented-out line 149 *)

(** [for k, port in datapath.ports.items()] (line 149) iterates the
    [ports] attribute of the connection's datapath object, as Ryu has left
    it when the handler runs.  The code of lines 146-159 with line 149 in
    place of line 150 is [handler_datapath] on this datapath; with the
    attribute still [None] it raises [AttributeError], as line 150 does. *)
Definition line149_datapath (cn : Conn) : Datapath :=
  mkDatapath (dp_id (c_dp cn)) (dp_ports (c_dp cn)) (c_ports cn).

Lemma resolve_nil labels : resolve [] labels = None.
Proof. induction labels; simpl; auto. Qed.

Lemma provision_no_ports `{RuleBuilder} gs : provision [] gs = [].
Proof. unfold provision. induction gs; simpl; [done|]. by rewrite resolve_nil. Qed.

(** A datapath whose port iteration yields nothing gets no rule. *)
Lemma batch_no_ports dp : dp_ofproto_port_no dp = Some [] -> batch dp = [].
Proof.
  intros Hp. unfold batch, handler_datapath. cbn [ev_datapath].
  rewrite (install_vpn_flow_emits dp [] Hp value_pair []). cbn [snd app].
  by rewrite provision_no_ports.
Qed.

Section Line149.
Variable survives : bool.

(** C22. The commented-out fix of line 149 races with Ryu's handshake.
    Take a connection whose features event waits in the application's
    queue.  If Ryu still awaits the switch's port description reply when
    the loop takes the event, [datapath.ports] is the empty dict Ryu's
    features handler left, and the code with line 149 sends nothing.
    If the reply has been handled, the connection is in
    [MAIN_DISPATCHER], [datapath.ports] holds the switch's ports, and the
    code sends what a datapath iterating those ports gets.  Which case
    occurs depends on the scheduling of the application's loop against a
    network round trip. *)
Theorem line149_race Pdp c cid cn :
  reachable survives Pdp c -> conns c !! cid = Some cn -> cid ∈ app_queue c ->
  (c_pending cn = Some PortDescRequest -> batch (line149_datapath cn) = []) /\
  (c_state cn = MAIN_DISPATCHER ->
     batch (line149_datapath cn) =
     batch (datapath_iterating_ports (dp_id (c_dp cn)) (dp_ports (c_dp cn)))).
Proof.
  intros Hr Hc _. destruct (reachable_ctrl_inv _ _ _ Hr) as (_ & _ & _ & _ & Hcs).
  destruct (Hcs cid cn Hc) as (_ & _ & _ & H4 & H5 & _ & _). split.
  - intros Hp. destruct (H4 Hp) as (_ & _ & Hports). apply batch_no_ports. exact Hports.
  - intros Hst. destruct (H5 Hst) as (_ & Hports). unfold line149_datapath. by rewrite Hports.
Qed.
End Line149.

(** ** Witnesses *)

Definition s2_datapath : Datapath := datapath_iterating_ports 2 (switch_ports MyTopo "s2").

(** The Hello of an OpenFlow 1.0 switch. *)
Definition hello10 : OFPHello := mkOFPHello 0x01%Z None.

Lemma attach_eventually_provisioned_witness :
  let c := ctrl_step true ctrl_init (EvConnect s1_datapath) in
  let cn := mkConn s1_datapath HANDSHAKE_DISPATCHER 0 None None in
  let evs1 := [EvConnect s2_datapath; EvHello 1 hello13] in
  let evs2 := [EvFeaturesReply 1; EvAppRun] in
  let evs3 := [EvPortDescReply 1] in
  let evs := EvHello 0 hello13 :: evs1 ++ EvFeaturesReply 0 :: evs2 ++ EvPortDescReply 0 :: evs3 in
  reachable true has_ports c /\ conns c !! 0%nat = Some cn /\
  c_state cn = HANDSHAKE_DISPATCHER /\ speaks_of13 hello13 = true /\
  Forall (other_event 0) (evs1 ++ evs2 ++ evs3) /\ valid_run true has_ports c evs /\
  (let c' := ctrl_run true c evs in
   let c'' := ctrl_run true c' (replicate (length (app_queue c')) EvAppRun) in
   conns c'' !! 0%nat = Some (mkConn (c_dp cn) MAIN_DISPATCHER 1 (Some (dp_ports (c_dp cn))) None) /\
   sent_to c'' 0 = pair 0%nat <$> batch (c_dp cn)).
Proof.
  intros c cn evs1 evs2 evs3 evs.
  assert (Hr : reachable true has_ports c) by (apply reachable_connect; [constructor | by eexists]).
  assert (Hc : conns c !! 0%nat = Some cn) by reflexivity.
  assert (Hf : Forall (other_event 0) (evs1 ++ evs2 ++ evs3)).
  { repeat (apply Forall_cons; split); try discriminate. constructor. }
  assert (Hv : valid_run true has_ports c evs) by solve_valid_run.
  refine (conj Hr (conj Hc (conj eq_refl (conj eq_refl (conj Hf (conj Hv _)))))).
  exact (attach_eventually_provisioned true c 0 cn hello13 evs1 evs2 evs3 Hr Hc eq_refl eq_refl Hf Hv).
Defined.

Lemma hello_failed_never_provisioned_witness :
  let c := ctrl_step false ctrl_init (EvConnect s1_datapath) in
  let evs := [EvHello 0 hello10; EvFeaturesReply 0; EvPortDescReply 0; EvAppRun; EvDisconnect 0] in
  reachable false (fun _ => True) c /\
  conns c !! 0%nat = Some (mkConn s1_datapath HANDSHAKE_DISPATCHER 0 None None) /\
  c_state (mkConn s1_datapath HANDSHAKE_DISPATCHER 0 None None) = HANDSHAKE_DISPATCHER /\
  Forall (fun ev => forall h, ev = EvHello 0 h -> speaks_of13 h = false) evs /\
  exists cn', conns (ctrl_run false c evs) !! 0%nat = Some cn' /\
    (c_state cn' = HANDSHAKE_DISPATCHER \/ c_state cn' = DEAD_DISPATCHER) /\
    c_runs cn' = 0 /\ sent_to (ctrl_run false c evs) 0 = [].
Proof.
  intros c evs.
  assert (Hr : reachable false (fun _ => True) c) by (apply reachable_connect; [constructor | done]).
  assert (Hc : conns c !! 0%nat = Some (mkConn s1_datapath HANDSHAKE_DISPATCHER 0 None None))
    by reflexivity.
  assert (Hf : Forall (fun ev => forall h, ev = EvHello 0 h -> speaks_of13 h = false) evs).
  { repeat (apply Forall_cons; split); [intros h [= <-]; reflexivity | intros h [=] .. | constructor]. }
  refine (conj Hr (conj Hc (conj eq_refl (conj Hf _)))).
  exact (hello_failed_never_provisioned false _ c 0 _ evs Hr Hc eq_refl Hf).
Defined.

(** Switch s1 after its features reply: its event waits in the
    application's queue, and Ryu awaits the port description reply. *)
Definition s1_features_dispatched : Ctrl :=
  ctrl_run true ctrl_init [EvConnect s1_datapath; EvHello 0 hello13; EvFeaturesReply 0].

Lemma line149_race_witness :
  let c := s1_features_dispatched in
  let cn := mkConn s1_datapath CONFIG_DISPATCHER 0 (Some []) (Some PortDescRequest) in
  reachable true (fun _ => True) c /\ conns c !! 0%nat = Some cn /\ 0%nat ∈ app_queue c /\
  ((c_pending cn = Some PortDescRequest -> batch (line149_datapath cn) = []) /\
   (c_state cn = MAIN_DISPATCHER ->
      batch (line149_datapath cn) =
      batch (datapath_iterating_ports (dp_id (c_dp cn)) (dp_ports (c_dp cn))))).
Proof.
  intros c cn.
  assert (Hr : reachable true (fun _ => True) c)
    by (apply reachable_run; [constructor | solve_valid_run]).
  assert (Hc : conns c !! 0%nat = Some cn) by (vm_compute; reflexivity).
  assert (Hq : 0%nat ∈ app_queue c) by (vm_compute; left).
  refine (conj Hr (conj Hc (conj Hq _))).
  exact (line149_race true _ c 0 cn Hr Hc Hq).
Defined.

Lemma app_queue_drains_witness :
  reachable true has_ports s1_features_dispatched /\
  (let c' := ctrl_run true s1_features_dispatched
               (replicate (length (app_queue s1_features_dispatched)) EvAppRun) in
   app_queue c' = [] /\ app_alive c' = true /\
   forall cid cn, conns c' !! cid = Some cn -> c_state cn = MAIN_DISPATCHER -> c_runs cn = 1).
Proof.
  assert (Hr : reachable true has_ports s1_features_dispatched)
    by (apply reachable_run; [constructor | solve_valid_run]).
  split; [exact Hr | exact (app_queue_drains true _ Hr)].
Defined.
