(* ===== verification/PacketIn.v ===== *)
(** * The commented-out packet-in handler (vlan_proactive.py, 192-201)

    Lines 192-201 hold a handler for [EventOFPPacketIn], commented out.
    This file models it as it runs once its comment marks are removed
    (lines 202-207 stay comments, being commented out a second time):

    - [py_buffer]: the Python 2 builtin [buffer]; Python 3 has no such
      name and raises [NameError].
    - [unpack_from_6s6sH]: [struct.unpack_from('!6s6sH', buf, offset)],
      the Ethernet header: destination and source as 6-byte strings, the
      Ethertype as a big-endian unsigned short ([ushort_be]).  A buffer
      shorter than 14 bytes from [offset] raises [struct.error].
    - [packet_in_handler]: the handler, which unpacks the frame, logs each
      match field and sends nothing.

    The theorem gives the handler's outcome on every interpreter and
    every frame. *)

From S2P Require Import Prelude PyRuntime OpenFlow.
From coqutil Require Import Byte.

Local Open Scope Z_scope.

(** ** Python's [buffer] and [struct] *)

Definition buffer_not_defined : exn := NameError "buffer".

(** [buffer(obj)]: a read-only view of the bytes on Python 2. *)
Definition py_buffer {S} (ver : py_version) (data : list byte) : PyM S (list byte) :=
  match ver with
  | Py2 => mret data
  | Py3_0_to_3_7 | Py3_8_plus => py_raise buffer_not_defined
  end.

Definition unpack_too_short : exn :=
  StructError "unpack_from requires a buffer of at least 14 bytes".

(** Format character ['H'] with byte order ['!']: two bytes, most
    significant first. *)
Definition ushort_be (hi lo : byte) : Z :=
  Z.lor (Z.shiftl (byte.unsigned hi) 8) (byte.unsigned lo).

(** [struct.unpack_from('!6s6sH', buf, offset)]. *)
Definition unpack_from_6s6sH {S} (buf : list byte) (offset : nat)
  : PyM S (list byte * list byte * Z) :=
  let b := drop offset buf in
  match drop 12 b with
  | hi :: lo :: _ => mret (take 6 b, take 6 (drop 6 b), ushort_be hi lo)
  | _ => py_raise unpack_too_short
  end.

(** ** The handler *)

(** [ev.msg] of an [EventOFPPacketIn]: the frame and the fields of its
    match. *)
Record EventOFPPacketIn := mkEventOFPPacketIn {
  pi_data : list byte;
  pi_match_fields : list OFPMatchField;
}.

(** Lines 193-201: [dst, src, eth_type = struct.unpack_from('!6s6sH',
    buffer(msg.data), 0)], then one [logger.info] per match field and a
    last [logger.info("")]. *)
Definition packet_in_handler (ver : py_version) (ev : EventOFPPacketIn)
  : PyM SendQueue unit :=
  let msg := ev in
  buf ← py_buffer ver (pi_data msg);
  '(dst, src, eth_type) ← unpack_from_6s6sH buf 0;
  let match_ := pi_match_fields msg in
  py_for match_ (fun field => py_pass);;
  py_pass.

(** ** The header *)

(** A buffer of at least 14 bytes is a header and the rest. *)
Lemma header_shape (bs : list byte) : (14 <= length bs)%nat ->
  exists d s hi lo rest, length d = 6%nat /\ length s = 6%nat /\ bs = d ++ s ++ hi :: lo :: rest.
Proof.
  intros Hl. do 14 (destruct bs as [|? bs]; [simpl in Hl; lia|]).
  eexists [_;_;_;_;_;_], [_;_;_;_;_;_], _, _, bs. done.
Qed.

(** On a long enough buffer the unpack takes the first twelve bytes as the
    two addresses and the next two as the Ethertype. *)
Lemma unpack_header {M} d s hi lo rest : length d = 6%nat -> length s = 6%nat ->
  emits (M:=M) (unpack_from_6s6sH (d ++ s ++ hi :: lo :: rest) 0) (Ok (d, s, ushort_be hi lo)) [].
Proof.
  intros Hd Hs. do 7 (destruct d as [|? d]; try discriminate).
  do 7 (destruct s as [|? s]; try discriminate). apply emits_ret.
Qed.

Lemma unpack_short {M} bs : (length bs < 14)%nat ->
  emits (M:=M) (unpack_from_6s6sH bs 0) (Raise unpack_too_short) [].
Proof.
  intros Hl. unfold unpack_from_6s6sH. rewrite drop_0.
  pose proof (length_drop bs 12) as Hd.
  destruct (drop 12 bs) as [|? [|? ?]]; [apply emits_raise..|simpl in Hd; lia].
Qed.

(** ** What the handler does *)

(** C25. The packet-in handler of lines 192-201, uncommented, sends
    nothing on any path.  On Python 2 it returns normally exactly on
    frames of at least 14 bytes and raises [struct.error] on shorter
    ones; on Python 3 the name [buffer] is undefined and every packet-in
    raises [NameError] before the frame is read. *)
Theorem packet_in_handler_outcome ver ev :
  emits (packet_in_handler ver ev)
    (match ver with
     | Py2 => if bool_decide (14 <= length (pi_data ev))%nat then Ok tt else Raise unpack_too_short
     | Py3_0_to_3_7 | Py3_8_plus => Raise buffer_not_defined
     end) [].
Proof.
  unfold packet_in_handler. destruct ver; [|apply emits_bind_raise, emits_raise..].
  rewrite emits_bind_silent by apply emits_ret.
  case_bool_decide as Hl.
  - destruct (header_shape _ Hl) as (d & s & hi & lo & rest & Hd & Hs & ->).
    rewrite emits_bind_silent by (apply unpack_header; done). cbn beta iota.
    rewrite emits_bind_silent by (apply emits_for_silent; intros; apply emits_pass).
    apply emits_pass.
  - apply emits_bind_raise, unpack_short. lia.
Qed.
