(* ===== verification/PortStatus.v ===== *)
(** * Port status messages and [datapath.ports]

    A switch in [MAIN_DISPATCHER] reports each port that comes, goes or
    changes with an [OFPPortStatus] message.  Ryu's own handler (in
    [ryu.controller.ofp_handler], registered for [MAIN_DISPATCHER]) keeps
    [datapath.ports] up to date: on [OFPPR_ADD] and [OFPPR_MODIFY] it sets
    [datapath.ports[desc.port_no] = desc], on [OFPPR_DELETE] it pops the
    entry.  The [dpset] context the application declares (line 71) keeps
    its own copy of the ports and sends nothing.  The application
    registers no handler for port events.

    - [ports_setitem], [ports_pop]: the two dict operations, on the dict's
      values in insertion order.
    - [port_status]: Ryu's handler on one connection.
    - [ryu_step], [xreachable]: the controller of [Controller] with port
      status messages among its events.
    - [Ctrl_equiv]: two controller states are equivalent when they differ
      at most in [datapath.ports].  [ctrl_step] respects it (a [Proper]
      instance), and [port_status] stays within a class.

    The theorem is a refinement: every state reached with port status
    messages is equivalent to a state reached without them.  So the
    invariants of [Controller] hold with port status messages too, and a
    port that appears after a switch was provisioned never gets a rule. *)

From stdpp Require Import gmap.
From S2P Require Import Prelude PyRuntime OpenFlow Config Installer Resolver Rules.
From S2P Require Import Dispatcher Topology Controller.

(** [ofproto_v1_3.OFPPR_ADD], [OFPPR_DELETE], [OFPPR_MODIFY]. *)
Inductive ofp_port_reason := OFPPR_ADD | OFPPR_DELETE | OFPPR_MODIFY.

#[export] Instance ofp_port_reason_eq_dec : EqDecision ofp_port_reason.
Proof. solve_decision. Defined.

(** [ports[desc.port_no] = desc]: an existing key keeps its place. *)
Definition ports_setitem (ports : list OFPPort) (desc : OFPPort) : list OFPPort :=
  if bool_decide (port_no desc ∈ port_no <$> ports)
  then (fun p => if bool_decide (port_no p = port_no desc) then desc else p) <$> ports
  else ports ++ [desc].

(** [ports.pop(port_no, None)]. *)
Definition ports_pop (ports : list OFPPort) (no : Z) : list OFPPort :=
  filter (fun p => port_no p <> no) ports.

(** Ryu's [port_status_handler] on connection [cid]; the message is not
    dispatched in any other state than [MAIN_DISPATCHER]. *)
Definition port_status (c : Ctrl) (cid : nat) (reason : ofp_port_reason) (desc : OFPPort) : Ctrl :=
  match conns c !! cid with
  | Some cn =>
      if bool_decide (c_state cn = MAIN_DISPATCHER) then
        let ports := default [] (c_ports cn) in
        let ports' := match reason with
                      | OFPPR_ADD | OFPPR_MODIFY => ports_setitem ports desc
                      | OFPPR_DELETE => ports_pop ports (port_no desc)
                      end in
        set_conn c cid (mkConn (c_dp cn) (c_state cn) (c_runs cn) (Some ports') (c_pending cn))
      else c
  | None => c
  end.

Inductive ryu_event :=
| Base (ev : event)
| EvPortStatus (cid : nat) (reason : ofp_port_reason) (desc : OFPPort).

Section Step.
Variable survives : bool.

Definition ryu_step (c : Ctrl) (e : ryu_event) : Ctrl :=
  match e with
  | Base ev => ctrl_step survives c ev
  | EvPortStatus cid reason desc => port_status c cid reason desc
  end.

Definition ryu_run (c : Ctrl) (es : list ryu_event) : Ctrl := fold_left ryu_step es c.

(** [reachable] with port status messages, which a switch may send at
    any time. *)
Inductive xreachable (Pdp : Datapath -> Prop) : Ctrl -> Prop :=
| xreachable_init : xreachable Pdp ctrl_init
| xreachable_connect c dp :
    xreachable Pdp c -> Pdp dp -> xreachable Pdp (ctrl_step survives c (EvConnect dp))
| xreachable_other c ev :
    xreachable Pdp c -> (forall dp, ev <> EvConnect dp) -> answers_request c ev = true ->
    xreachable Pdp (ctrl_step survives c ev)
| xreachable_port_status c cid reason desc :
    xreachable Pdp c -> xreachable Pdp (port_status c cid reason desc).
End Step.

(** ** States equal up to [datapath.ports] *)

Definition forget_conn (cn : Conn) : Conn :=
  mkConn (c_dp cn) (c_state cn) (c_runs cn) None (c_pending cn).

Definition forget_ports (c : Ctrl) : Ctrl :=
  mkCtrl (forget_conn <$> conns c) (next_conn c) (app_queue c) (sent c) (errors c) (app_alive c).

#[export] Instance Ctrl_equiv : Equiv Ctrl := fun c c' => forget_ports c = forget_ports c'.

#[export] Instance Ctrl_equivalence : Equivalence (≡@{Ctrl}).
Proof. unfold equiv, Ctrl_equiv. split; [done | by intros ?? | by intros ??? -> ]. Qed.

Lemma forget_fmap_idem (m : gmap nat Conn) : forget_conn <$> (forget_conn <$> m) = forget_conn <$> m.
Proof. rewrite <- map_fmap_compose. by apply map_fmap_ext. Qed.

Lemma forget_ports_idem c : forget_ports (forget_ports c) = forget_ports c.
Proof. unfold forget_ports. simpl. by rewrite forget_fmap_idem. Qed.

Local Ltac proj := cbn [c_dp c_state c_runs c_ports c_pending forget_conn conns next_conn app_queue sent errors app_alive forget_ports set_conn dispatch_features] in *.

(** [ctrl_step] never reads [datapath.ports]: it commutes with forgetting
    them. *)
Lemma step_forget survives c ev :
  forget_ports (ctrl_step survives c ev) = forget_ports (ctrl_step survives (forget_ports c) ev).
Proof.
  destruct c as [cs nc q snt errs alive].
  destruct ev; cbn [ctrl_step]; [| | | | |unfold app_run; proj; destruct alive; [destruct q as [|cid q]|]];
    proj; rewrite ?lookup_fmap; try (symmetry; apply forget_ports_idem).
  all: try match goal with |- context [?m !! ?cid] => destruct (m !! cid) as [cn|]; cbn [fmap option_fmap option_map] end.
  all: proj; rewrite ?forget_fmap_idem; try done.
  all: try (destruct (handler_datapath _ _)).
  all: repeat case_match; proj; rewrite ?fmap_insert, ?forget_fmap_idem; try done.
  all: unfold forget_ports; proj; rewrite ?fmap_insert, ?forget_fmap_idem; try done.
Qed.

Lemma answers_forget c ev : answers_request (forget_ports c) ev = answers_request c ev.
Proof.
  destruct ev; try done; unfold forget_ports; cbn [answers_request conns];
    by rewrite lookup_fmap, <- option_fmap_compose.
Qed.

#[export] Instance ctrl_step_proper survives : Proper ((≡) ==> (=) ==> (≡)) (ctrl_step survives).
Proof.
  intros c c' Hc ev ? <-. unfold equiv, Ctrl_equiv in *.
  by rewrite step_forget, Hc, <- step_forget.
Qed.

#[export] Instance answers_request_proper : Proper ((≡) ==> (=) ==> (=)) answers_request.
Proof. intros c c' Hc ev ? <-. by rewrite <- answers_forget, Hc, answers_forget. Qed.

(** Ryu's port status handler changes nothing but [datapath.ports]. *)
Lemma port_status_equiv c cid reason desc : port_status c cid reason desc ≡ c.
Proof.
  unfold port_status. destruct (conns c !! cid) as [cn|] eqn:E; [|done].
  case_bool_decide; [|done]. unfold equiv, Ctrl_equiv, forget_ports, set_conn. cbn.
  rewrite fmap_insert. f_equal. apply map_eq. intros i.
  destruct (decide (i = cid)) as [->|]; [by rewrite lookup_insert_eq, lookup_fmap, E|].
  by rewrite lookup_insert_ne.
Qed.

(** ** Refinement *)

(** C26. Port status messages, whenever switches send them, change
    nothing the application does.  Every state the controller reaches
    with them is equivalent, up to [datapath.ports], to a state it
    reaches without them, by the same switches: the same connections in
    the same stages, the same queue, the same messages sent and the same
    exceptions.  So every invariant of [Controller] holds with port
    status messages, and a port that comes up after the switch attached
    never gets a rule. *)
Theorem xreachable_refines survives Pdp c :
  xreachable survives Pdp c ->
  exists c0, reachable survives Pdp c0 /\ c ≡ c0 /\ sent c = sent c0.
Proof.
  induction 1 as [|c dp _ (c0 & Hr & Heq & _) Hdp|c ev _ (c0 & Hr & Heq & _) Hev Hans|c cid r d _ (c0 & Hr & Heq & _)].
  - exists ctrl_init. split_and!; [constructor|done..].
  - exists (ctrl_step survives c0 (EvConnect dp)). 
    assert (H : ctrl_step survives c (EvConnect dp) ≡ ctrl_step survives c0 (EvConnect dp)) by (by rewrite Heq).
    split_and!; [by constructor|done|by apply (f_equal sent) in H].
  - exists (ctrl_step survives c0 ev).
    assert (H : ctrl_step survives c ev ≡ ctrl_step survives c0 ev) by (by rewrite Heq).
    split_and!; [constructor; [done|done|by rewrite <- Heq]|done|by apply (f_equal sent) in H].
  - exists c0. assert (H : port_status c cid r d ≡ c0) by (by rewrite port_status_equiv).
    split_and!; [done|done|by apply (f_equal sent) in H].
Qed.

(** ** Runs *)

(** A run with port status messages, valid as in [valid_run]. *)
Fixpoint valid_xrun (survives : bool) (Pdp : Datapath -> Prop) (c : Ctrl) (es : list ryu_event)
  : Prop :=
  match es with
  | [] => True
  | e :: es' =>
      match e with
      | Base (EvConnect dp) => Pdp dp
      | Base ev => answers_request c ev = true
      | EvPortStatus _ _ _ => True
      end /\ valid_xrun survives Pdp (ryu_step survives c e) es'
  end.

Lemma xreachable_run survives Pdp c es :
  xreachable survives Pdp c -> valid_xrun survives Pdp c es ->
  xreachable survives Pdp (ryu_run survives c es).
Proof.
  revert c. induction es as [|[ev|cid r d] es IH]; intros c Hr Hv; [done| |];
    destruct Hv as [Hev Hv]; apply IH; try done.
  - destruct ev; [by apply xreachable_connect | ..]; by apply xreachable_other.
  - by apply xreachable_port_status.
Qed.

(** Switch s1 of the test topology attaches while its link to s2
    ([s1-eth4]) is down; the link comes up after provisioning. *)
Definition s1_link_down : Datapath :=
  datapath_iterating_ports 1 (take 3 (switch_ports MyTopo "s1")).

Definition s1_eth4 : OFPPort := mkOFPPort 4 "s1-eth4".

Definition late_port_events : list ryu_event :=
  (Base <$> attach_events s1_link_down) ++ [EvPortStatus 0 OFPPR_ADD s1_eth4].

Lemma xreachable_refines_witness :
  let c := ryu_run true ctrl_init late_port_events in
  xreachable true (fun _ => True) c /\
  (c_ports <$> conns c !! 0%nat = Some (Some (dp_ports s1_link_down ++ [s1_eth4])) /\
   sent c = pair 0%nat <$> (rule_flow_mod <$> [tenant_rule 2 2; tenant_rule 1 1])) /\
  exists c0, reachable true (fun _ => True) c0 /\ c ≡ c0 /\ sent c = sent c0.
Proof.
  intros c.
  assert (Hr : xreachable true (fun _ => True) c)
    by (apply xreachable_run; [constructor | vm_compute; repeat (split || eexists)]).
  split; [exact Hr | split; [vm_compute; split; reflexivity |]].
  exact (xreachable_refines true _ c Hr).
Defined.
